(** * lecroy.py: reader of LeCroy binary waveform files (template LECROY_2_3)

    A shallow embedding of [float2eng] and [ReadBinaryTrace] of
    [src/lecroy.py], and the properties of the decoder that the
    specification states.

    Conventions of the embedding:
    - the file is a [list byte]; the file object is that list together with
      a position (a [nat]) threaded through a state-and-exception monad;
    - numpy integers are [Z] with the wrap-around of their width written
      out where they are decoded; float32 and float64 are [spec_float]
      with the IEEE 754 operations of [SpecFloat] at precision 24 and 53;
    - Python [str] values are Rocq strings holding the UTF-8 bytes;
    - Python exceptions are the constructors of [error]. *)

From Stdlib Require Import String Ascii ZArith NArith List Bool Lia.
From Stdlib Require Import Strings.Byte.
From Stdlib Require Import Floats.SpecFloat DecimalString.
Import ListNotations.

Local Open Scope Z_scope.

(* ===================================================================== *)
(** ** Python [bytes] *)
(* ===================================================================== *)

Module PyBytes.

(** [l[a:a+n]]: at most [n] bytes starting at index [a]. *)
Definition slice (l : list byte) (a n : nat) : list byte :=
  firstn n (skipn a l).

(** [l[a:b]] for non-negative [a] and [b]; empty when [b <= a]. *)
Definition pyslice (l : list byte) (a b : nat) : list byte :=
  firstn (b - a) (skipn a l).

Definition byte_eqb (x y : byte) : bool := Byte.eqb x y.

Fixpoint starts_with (needle l : list byte) : bool :=
  match needle, l with
  | [], _ => true
  | _ :: _, [] => false
  | x :: needle', y :: l' => byte_eqb x y && starts_with needle' l'
  end.

(** [l.find(needle)] counted from index [i] of the whole string:
    the lowest index of an occurrence, [None] for Python's -1. *)
Fixpoint find_from (needle l : list byte) (i : nat) : option nat :=
  if starts_with needle l then Some i
  else match l with
       | [] => None
       | _ :: l' => find_from needle l' (S i)
       end.

Definition find (needle l : list byte) : option nat := find_from needle l 0.

Definition mem (b : byte) (chars : list byte) : bool :=
  existsb (byte_eqb b) chars.

Fixpoint lstrip (chars l : list byte) : list byte :=
  match l with
  | [] => []
  | b :: l' => if mem b chars then lstrip chars l' else l
  end.

(** [l.rstrip(chars)]: drops the longest suffix made of bytes of [chars]. *)
Definition rstrip (chars l : list byte) : list byte :=
  rev (lstrip chars (rev l)).

(** [int.from_bytes(bs, byteorder='little')]; it accepts every [bytes]
    value, the empty one included (result 0). *)
Fixpoint from_bytes_little (bs : list byte) : Z :=
  match bs with
  | [] => 0
  | b :: bs' => Z.of_N (Byte.to_N b) + 256 * from_bytes_little bs'
  end.

(** Strict UTF-8, as [bytes.decode('utf-8')] checks it: no overlong
    form, no surrogate, nothing above U+10FFFF. *)
Definition cont (b : byte) : bool :=
  let n := Byte.to_N b in ((128 <=? n) && (n <=? 191))%N.

Definition between (lo hi : N) (b : byte) : bool :=
  let n := Byte.to_N b in ((lo <=? n) && (n <=? hi))%N.

Fixpoint utf8_valid (l : list byte) : bool :=
  match l with
  | [] => true
  | b0 :: r =>
      if between 0 127 b0 then utf8_valid r
      else if between 194 223 b0 then
        match r with
        | b1 :: r1 => cont b1 && utf8_valid r1
        | _ => false
        end
      else if between 224 239 b0 then
        match r with
        | b1 :: b2 :: r2 =>
            (if between 224 224 b0 then between 160 191 b1
             else if between 237 237 b0 then between 128 159 b1
             else cont b1)
            && cont b2 && utf8_valid r2
        | _ => false
        end
      else if between 240 244 b0 then
        match r with
        | b1 :: b2 :: b3 :: r3 =>
            (if between 240 240 b0 then between 144 191 b1
             else if between 244 244 b0 then between 128 143 b1
             else cont b1)
            && cont b2 && cont b3 && utf8_valid r3
        | _ => false
        end
      else false
  end.

End PyBytes.
Import PyBytes.

(** The byte literals of the source. *)
Definition b_WAVEDESC : list byte := list_byte_of_string "WAVEDESC".

(** [b'\x00']: the one-byte string holding NUL. *)
Definition b_nul : list byte := [x00].

(** [b'\0x00']: an octal escape [\0] followed by the three characters
    [x], [0], [0]; as a set of bytes to strip: NUL, 'x' and '0'. *)
Definition b_nul_x00 : list byte := [x00; x78; x30; x30].

(* ===================================================================== *)
(** ** Exceptions and the file monad *)
(* ===================================================================== *)

(** The exceptions the decoder can raise.  The four [RuntimeError]s are told
    apart by their message; [IndexError] is told apart by its site: indexing
    a tuple of labels, or indexing an array that [numpy.fromfile] returned
    short. *)
Inductive error : Type :=
| HeaderNotFound              (* RuntimeError('File is not in a recognizable format') *)
| UnsupportedTemplateVersion  (* RuntimeError('Template version different from LECROY_2_3') *)
| HeaderLengthMismatch        (* RuntimeError('Wave descriptor is too long!') *)
| UnevenSegmentSplit          (* RuntimeError('Number of data points is not a multiple ...') *)
| EnumOutOfRange              (* IndexError: tuple index out of range *)
| TruncatedInput              (* IndexError: index out of bounds of a short array *)
| UnicodeDecodeError
| UnboundLocalError
| ValueError
| OverflowError
| ZeroDivisionError
| IndexError.                (* any other IndexError *)

Inductive result (A : Type) : Type :=
| OK (a : A)
| Raise (e : error).
Arguments OK {A} a.
Arguments Raise {A} e.

Definition rbind {A B} (r : result A) (k : A -> result B) : result B :=
  match r with
  | OK a => k a
  | Raise e => Raise e
  end.

(** A computation on the open file: it sees the content, starts at a
    position and ends, normally or not, at a position. *)
Definition io (A : Type) : Type := list byte -> nat -> result A * nat.

Definition ret {A} (a : A) : io A := fun _ p => (OK a, p).

Definition raise {A} (e : error) : io A := fun _ p => (Raise e, p).

Definition bind {A B} (m : io A) (k : A -> io B) : io B :=
  fun data p =>
    match m data p with
    | (OK a, p') => k a data p'
    | (Raise e, p') => (Raise e, p')
    end.

Definition lift {A} (r : result A) : io A := fun _ p => (r, p).

Declare Scope io_scope.
Delimit Scope io_scope with io.
Notation "x <- m ;; k" := (bind m (fun x => k))
  (at level 61, m at next level, right associativity) : io_scope.
Notation "' pat <- m ;; k" := (bind m (fun x => match x with pat => k end))
  (at level 61, pat pattern, m at next level, right associativity) : io_scope.
Notation "m ;;; k" := (bind m (fun _ => k))
  (at level 61, right associativity) : io_scope.

(** [with open(filePath, 'rb') as dataFile]: the computation starts at
    position 0 of the content of the file. *)
Definition run {A} (m : io A) (data : list byte) : result A * nat :=
  m data 0%nat.

(** [dataFile.read(n)]: up to [n] bytes; short at end of file. *)
Definition read (n : nat) : io (list byte) :=
  fun data p =>
    let bs := slice data p n in (OK bs, (p + length bs)%nat).

(** [dataFile.seek(p)]. *)
Definition seek (p : nat) : io unit := fun _ _ => (OK tt, p).

(** [dataFile.tell()]. *)
Definition tell : io nat := fun _ p => (OK p, p).

(* ===================================================================== *)
(** ** numpy scalars *)
(* ===================================================================== *)

(** The byte-order letter [co]: ['<'] or ['>']. *)
Inductive byteorder : Type := LittleEndian | BigEndian.

Definition in_order (co : byteorder) (bs : list byte) : list byte :=
  match co with
  | LittleEndian => bs
  | BigEndian => rev bs
  end.

Definition unsigned_of_bytes (co : byteorder) (bs : list byte) : Z :=
  from_bytes_little (in_order co bs).

(** Two's complement on [bits] bits. *)
Definition wrap_signed (bits u : Z) : Z :=
  if u <? 2 ^ (bits - 1) then u else u - 2 ^ bits.

(** dtypes [i1], [co+'i2'], [co+'i4']: the width is that of [bs]. *)
Definition int_of_bytes (co : byteorder) (bs : list byte) : Z :=
  wrap_signed (8 * Z.of_nat (length bs)) (unsigned_of_bytes co bs).

(** An IEEE 754 interchange encoding with [mw] fraction bits and [ew]
    exponent bits, as a [spec_float]. *)
Definition float_of_bits (mw ew bits : Z) : spec_float :=
  let emax := 2 ^ (ew - 1) in
  let prec := mw + 1 in
  let s := Z.testbit bits (mw + ew) in
  let e := (bits / 2 ^ mw) mod 2 ^ ew in
  let m := bits mod 2 ^ mw in
  if e =? 0 then
    match m with
    | Zpos p => S754_finite s p (3 - emax - prec)
    | _ => S754_zero s
    end
  else if e =? 2 ^ ew - 1 then
    if m =? 0 then S754_infinity s else S754_nan
  else
    match m + 2 ^ mw with
    | Zpos p => S754_finite s p (e - (emax - 1) - mw)
    | _ => S754_nan
    end.

Definition f4_of_bytes (co : byteorder) (bs : list byte) : spec_float :=
  float_of_bits 23 8 (unsigned_of_bytes co bs).

Definition f8_of_bytes (co : byteorder) (bs : list byte) : spec_float :=
  float_of_bits 52 11 (unsigned_of_bytes co bs).

Module F32.
Definition prec := 24.
Definition emax := 128.
Definition mul := SFmul prec emax.
Definition sub := SFsub prec emax.
Definition of_Z (z : Z) : spec_float := binary_normalize prec emax z 0 false.
End F32.

Module F64.
Definition prec := 53.
Definition emax := 1024.
Definition mul := SFmul prec emax.
Definition add := SFadd prec emax.
Definition div := SFdiv prec emax.
Definition of_Z (z : Z) : spec_float := binary_normalize prec emax z 0 false.
(** The exact widening of a float32. *)
Definition of_f32 (x : spec_float) : spec_float :=
  match x with
  | S754_finite s m e => binary_normalize prec emax (cond_Zopp s (Zpos m)) e s
  | _ => x
  end.
End F64.

(** [numpy.fromfile(dataFile, dtype, count)] for a dtype of [size] bytes
    decoded by [dec]: the items that are wholly present, [count] of them at
    most, all of them when [count] is negative.  A short read leaves the
    position at the end of the file. *)
Definition fromfile {A} (size : nat) (dec : list byte -> A) (count : Z)
  : io (list A) :=
  fun data p =>
    let avail := ((length data - p) / size)%nat in
    let n := if count <? 0 then avail else Nat.min (Z.to_nat count) avail in
    let items := map (fun i => dec (slice data (p + i * size) size)) (seq 0 n) in
    let p' := if (count <? 0) || (Z.of_nat n =? count)
              then (p + n * size)%nat
              else Nat.max p (length data) in
    (OK items, p').

(** [a[0]] on the array that [fromfile] returned. *)
Definition item0 {A} (a : list A) : io A :=
  match a with
  | x :: _ => ret x
  | [] => raise TruncatedInput
  end.

(** [numpy.fromfile(dataFile, dtype, count=1)[0]]. *)
Definition fromfile1 {A} (size : nat) (dec : list byte -> A) : io A :=
  bind (fromfile size dec 1) item0.

Definition read_i1 : io Z := fromfile1 1 (int_of_bytes LittleEndian).
Definition read_i2 (co : byteorder) : io Z := fromfile1 2 (int_of_bytes co).
Definition read_i4 (co : byteorder) : io Z := fromfile1 4 (int_of_bytes co).
Definition read_f4 (co : byteorder) : io spec_float := fromfile1 4 (f4_of_bytes co).
Definition read_f8 (co : byteorder) : io spec_float := fromfile1 8 (f8_of_bytes co).

(** [tuple[i]] with Python's indexing: a negative index counts from the
    end, and an index outside [-len, len) raises [IndexError]. *)
Definition tuple_index {A} (t : list A) (i : Z) : result A :=
  let n := Z.of_nat (length t) in
  let j := if i <? 0 then i + n else i in
  if (0 <=? j) && (j <? n) then
    match nth_error t (Z.to_nat j) with
    | Some x => OK x
    | None => Raise EnumOutOfRange
    end
  else Raise EnumOutOfRange.

(** [bs.decode('utf-8')]. *)
Definition decode_utf8 (bs : list byte) : result string :=
  if utf8_valid bs then OK (string_of_list_byte bs) else Raise UnicodeDecodeError.

(* ===================================================================== *)
(** ** Python numbers *)
(* ===================================================================== *)

(** The values [float2eng] computes on: a Python [int] or a [float]. *)
Inductive pynum : Type :=
| PyInt (z : Z)
| PyFloat (x : spec_float).

(** What the platform's C library decides: [math.log(x, base)], and
    [b ** e] on ints with [e < 0], which CPython evaluates with the C
    function [pow] on doubles.  Neither is fixed by IEEE 754, so the
    decoder takes them as a parameter. *)
Record platform : Type := {
  math_log : pynum -> pynum -> result spec_float;
  int_pow_neg : Z -> Z -> spec_float
}.

Module PyNum.

Definition is_zero (x : spec_float) : bool :=
  match x with S754_zero _ => true | _ => false end.

Definition is_inf (x : spec_float) : bool :=
  match x with S754_infinity _ => true | _ => false end.

(** [f != 0]. *)
Definition nonzero (f : pynum) : bool :=
  match f with
  | PyInt z => negb (z =? 0)
  | PyFloat x => negb (is_zero x)
  end.

(** [abs(f)]. *)
Definition abs (f : pynum) : pynum :=
  match f with
  | PyInt z => PyInt (Z.abs z)
  | PyFloat x => PyFloat (SFabs x)
  end.

(** [math.floor(x)] on a float. *)
Definition floor (x : spec_float) : result Z :=
  match x with
  | S754_nan => Raise ValueError
  | S754_infinity _ => Raise OverflowError
  | S754_zero _ => OK 0
  | S754_finite s m e =>
      let v := cond_Zopp s (Zpos m) in
      OK (if 0 <=? e then v * 2 ^ e else v / 2 ^ (- e))
  end.

(** [int(x)] on a float: truncation toward zero. *)
Definition to_int (x : spec_float) : result Z :=
  match x with
  | S754_nan => Raise ValueError
  | S754_infinity _ => Raise OverflowError
  | S754_zero _ => OK 0
  | S754_finite s m e =>
      let v := cond_Zopp s (Zpos m) in
      OK (if 0 <=? e then v * 2 ^ e else Z.quot v (2 ^ (- e)))
  end.

(** The conversion of an [int] to a [float]: round to nearest even,
    [OverflowError] beyond the largest double. *)
Definition float_of_int (z : Z) : result spec_float :=
  let x := F64.of_Z z in
  if is_inf x then Raise OverflowError else OK x.

(** The double nearest to [n / d] for positive [n] and [d], ties to even:
    the quotient is computed with more than 53 bits and a sticky bit. *)
Definition round_ratio (s : bool) (n d : Z) : spec_float :=
  let sh := Z.max 0 (56 + Z.log2 d - Z.log2 n) in
  let q := (n * 2 ^ sh) / d in
  let r := (n * 2 ^ sh) mod d in
  let m := 2 * q + (if r =? 0 then 0 else 1) in
  binary_normalize F64.prec F64.emax (cond_Zopp s m) (- sh - 1) s.

(** [a / b] on two ints: the correctly rounded quotient. *)
Definition int_truediv (a b : Z) : result spec_float :=
  if b =? 0 then Raise ZeroDivisionError
  else
    let s := xorb (a <? 0) (b <? 0) in
    if a =? 0 then OK (S754_zero s)
    else
      let x := round_ratio s (Z.abs a) (Z.abs b) in
      if is_inf x then Raise OverflowError else OK x.

Definition float_truediv (x y : spec_float) : result spec_float :=
  if is_zero y then Raise ZeroDivisionError else OK (F64.div x y).

(** [a / b]. *)
Definition truediv (a b : pynum) : result spec_float :=
  match a, b with
  | PyInt x, PyInt y => int_truediv x y
  | PyFloat x, PyInt y => rbind (float_of_int y) (fun y' => float_truediv x y')
  | PyInt x, PyFloat y => rbind (float_of_int x) (fun x' => float_truediv x' y)
  | PyFloat x, PyFloat y => float_truediv x y
  end.

(** [a * b]. *)
Definition mul (a b : pynum) : result pynum :=
  match a, b with
  | PyInt x, PyInt y => OK (PyInt (x * y))
  | PyFloat x, PyInt y => rbind (float_of_int y) (fun y' => OK (PyFloat (F64.mul x y')))
  | PyInt x, PyFloat y => rbind (float_of_int x) (fun x' => OK (PyFloat (F64.mul x' y)))
  | PyFloat x, PyFloat y => OK (PyFloat (F64.mul x y))
  end.

(** [b ** e] on two ints: an int when [e >= 0], else a float. *)
Definition int_pow (pf : platform) (b e : Z) : pynum :=
  if 0 <=? e then PyInt (b ^ e) else PyFloat (int_pow_neg pf b e).

(** ['%d' % z]. *)
Definition fmt_d (z : Z) : string := NilZero.string_of_int (Z.to_int z).

Definition digit_char (d : Z) : ascii := ascii_of_nat (48 + Z.to_nat d).

Fixpoint chars (ds : list Z) : string :=
  match ds with
  | [] => EmptyString
  | d :: ds' => String (digit_char d) (chars ds')
  end.

(** The [k] low decimal digits of [n], most significant first. *)
Fixpoint digits_fixed (k : nat) (n : Z) (acc : list Z) : list Z :=
  match k with
  | O => acc
  | S k' => digits_fixed k' (n / 10) (n mod 10 :: acc)
  end.

Fixpoint drop_zeros (l : list Z) : list Z :=
  match l with
  | 0 :: l' => drop_zeros l'
  | _ => l
  end.

Definition strip_zeros (l : list Z) : list Z := rev (drop_zeros (rev l)).

(** [10^X <= n/d]. *)
Definition le_pow10 (X n d : Z) : bool :=
  if 0 <=? X then 10 ^ X * d <=? n else d <=? n * 10 ^ (- X).

(** The decimal exponent of [n/d]: the [X] with [10^X <= n/d < 10^(X+1)].
    The estimate from the binary sizes is off by one at most. *)
Definition floor_log10 (n d : Z) : Z :=
  let est := ((Z.log2 n - Z.log2 d) * 1233) / 4096 in
  if le_pow10 (est + 2) n d then est + 2
  else if le_pow10 (est + 1) n d then est + 1
  else if le_pow10 est n d then est
  else if le_pow10 (est - 1) n d then est - 1
  else est - 2.

Definition div_half_even (a b : Z) : Z :=
  let q := a / b in
  match (2 * (a mod b)) ?= b with
  | Lt => q
  | Gt => q + 1
  | Eq => if Z.even q then q else q + 1
  end.

(** Six significant digits of [n/d] and its decimal exponent after
    rounding. *)
Definition sig6 (n d : Z) : Z * Z :=
  let X := floor_log10 n d in
  let q := if X <=? 5 then div_half_even (n * 10 ^ (5 - X)) d
           else div_half_even n (d * 10 ^ (X - 5)) in
  if q =? 1000000 then (100000, X + 1) else (q, X).

Definition frac (ds : list Z) : string :=
  match ds with
  | [] => EmptyString
  | _ => String "." (chars ds)
  end.

Definition fmt_exp (X : Z) : string :=
  ((if (X <? 0)%Z then "-" else "+") ++
   (if (Z.abs X <? 10)%Z then "0" else "") ++ fmt_d (Z.abs X))%string.

Definition fmt_g_pos (n d : Z) : string :=
  let '(q, X) := sig6 n d in
  let ds := strip_zeros (digits_fixed 6 q []) in
  if (X <? -4) || (6 <=? X) then
    match ds with
    | d0 :: rest => (String (digit_char d0) (frac rest) ++ "e" ++ fmt_exp X)%string
    | [] => EmptyString
    end
  else if 0 <=? X then
    let k := Z.to_nat (X + 1) in
    (chars (firstn k (ds ++ repeat 0 6)) ++ frac (skipn k ds))%string
  else
    (String "0" (frac (repeat 0 (Z.to_nat (- X - 1)) ++ ds)))%string.

(** ['%g' % x]: six significant digits, exponent form when the decimal
    exponent is below -4 or at least 6, trailing zeros removed. *)
Definition fmt_g (x : spec_float) : string :=
  match x with
  | S754_nan => "nan"
  | S754_infinity s => if s then "-inf" else "inf"
  | S754_zero s => if s then "-0" else "0"
  | S754_finite s m e =>
      ((if s then "-" else "") ++
       (if (0 <=? e)%Z then fmt_g_pos (Zpos m * 2 ^ e)%Z 1
        else fmt_g_pos (Zpos m) (2 ^ (- e))%Z))%string
  end.

(** [s[i]] on a string. *)
Definition str_index (s : string) (i : Z) : result string :=
  let n := Z.of_nat (String.length s) in
  let j := if i <? 0 then i + n else i in
  if (0 <=? j) && (j <? n) then
    match String.get (Z.to_nat j) s with
    | Some c => OK (String c EmptyString)
    | None => Raise IndexError
    end
  else Raise IndexError.

End PyNum.

(* ===================================================================== *)
(** ** [float2eng] *)
(* ===================================================================== *)

Section Float2Eng.

Variable pf : platform.

(** Lines 25-40. *)
Definition float2eng (f : pynum) : result string :=
  rbind (if PyNum.nonzero f
         then rbind (math_log pf (PyNum.abs f) (PyInt 10)) PyNum.floor
         else OK 0) (fun ex =>
  let exeng := ex - ex mod 3 in
  let exeng := if exeng <? -24 then -24
               else if exeng >? 24 then 24 else exeng in
  rbind (PyNum.truediv f (PyNum.int_pow pf 10 exeng)) (fun mant =>
  let prefix := "yzafpnum kMGTPEZY"%string in
  rbind (rbind (PyNum.truediv (PyInt (exeng + 24)) (PyInt 3)) PyNum.to_int) (fun id =>
  rbind (if id =? 8 then OK EmptyString else PyNum.str_index prefix id) (fun up =>
  OK (PyNum.fmt_g mant ++ " " ++ up)%string)))).

End Float2Eng.


(* ===================================================================== *)
(** ** The decoded header *)
(* ===================================================================== *)

(** [TRIGGER_TIME]: (seconds, minutes, hours, days, months, year, unused). *)
Definition trigger_time : Type := spec_float * Z * Z * Z * Z * Z * Z.

(** The dictionary [WAVEDESC].  Its keys are fixed, so it is a record; each
    entry holds the local variable of the same name. *)
Record WaveDesc : Type := {
  DESCRIPTOR_NAME : string;
  TEMPLATE_NAME : string;
  COMM_TYPE_INDEX : Z;
  COMM_TYPE : string;
  COMM_ORDER_INDEX : Z;
  COMM_ORDER : string;
  WAVE_DESCRIPTOR : Z;
  USER_TEXT : Z;
  RES_DESC1 : Z;
  TRIGTIME_ARRAY : Z;
  RIS_TIME_ARRAY : Z;
  RES_ARRAY1 : Z;
  WAVE_ARRAY_1 : Z;
  WAVE_ARRAY_2 : Z;
  RES_ARRAY2 : Z;
  RES_ARRAY3 : Z;
  INSTRUMENT_NAME : string;
  INSTRUMENT_NUMBER : Z;
  TRACE_LABEL : string;
  RESERVED1 : Z;
  RESERVED2 : Z;
  WAVE_ARRAY_COUNT : Z;
  PNTS_PER_SCREEN : Z;
  FIRST_VALID_PNT : Z;
  LAST_VALID_PNT : Z;
  FIRST_POINT : Z;
  SPARSING_FACTOR : Z;
  SEGMENT_INDEX : Z;
  SUBARRAY_COUNT : Z;
  SWEEPS_PER_ACQ : Z;
  POINTS_PER_PAIR : Z;
  PAIR_OFFSET : Z;
  VERTICAL_GAIN : spec_float;
  VERTICAL_OFFSET : spec_float;
  MAX_VALUE : spec_float;
  MIN_VALUE : spec_float;
  NOMINAL_BITS : Z;
  NOM_SUBARRAY_COUNT : Z;
  HORIZ_INTERVAL : spec_float;
  HORIZ_OFFSET : spec_float;
  PIXEL_OFFSET : spec_float;
  VERTUNIT : string;
  HORUNIT : string;
  HORIZ_UNCERTAINTY : spec_float;
  TRIGGER_TIME : trigger_time;
  ACQ_DURATION : spec_float;
  RECORD_TYPE_INDEX : Z;
  RECORD_TYPE : string;
  PROCESSING_DONE_INDEX : Z;
  PROCESSING_DONE : string;
  RESERVED5 : Z;
  RIS_SWEEPS : Z;
  TIMEBASE_INDEX : Z;
  TIMEBASE : string;
  VERT_COUPLING_INDEX : Z;
  VERT_COUPLING : string;
  PROBE_ATT : spec_float;
  FIXED_VERT_GAIN_INDEX : Z;
  FIXED_VERT_GAIN : string;
  BANDWIDTH_LIMIT_INDEX : Z;
  BANDWIDTH_LIMIT : string;
  VERTICAL_VERNIER : spec_float;
  ACQ_VERT_OFFSET : spec_float;
  WAVE_SOURCE_INDEX : Z;
  WAVE_SOURCE : string;
  FILE_SIZE : Z
}.

(** The tuples of labels, as the source writes them. *)
Definition COMM_ORDER_labels : list string := ["HIFIRST"; "LOFIRST"]%string.
Definition COMM_TYPE_labels : list string := ["byte"; "word"]%string.
Definition RECORD_TYPE_labels : list string :=
  ["single sweep"; "interleaved"; "histogram"; "graph"; "filter_coefficient";
   "complex"; "extrema"; "sequence obsolete"; "centered RIS"; "peak detect"]%string.
Definition PROCESSING_DONE_labels : list string :=
  ["no processing"; "fir filter"; "interpolated"; "sparsed"; "autoscaled";
   "no result"; "rolling"; "cumulative"]%string.
Definition VERT_COUPLING_labels : list string :=
  ["DC 50 Ohms"; "ground"; "DC 1MOhm"; "ground"; "AC 1MOhm"]%string.
Definition BANDWIDTH_LIMIT_labels : list string := ["off"; "on"]%string.

(** A numpy array of floats: one-dimensional, or two-dimensional with its
    shape and its rows. *)
Inductive ndarray : Type :=
| Array1 (v : list spec_float)
| Array2 (nrows ncols : nat) (rows : list (list spec_float)).

(* ===================================================================== *)
(** ** [ReadBinaryTrace] *)
(* ===================================================================== *)

Section Decoder.

Variable pf : platform.

Local Open Scope io_scope.

(** [int(code / 3)]: the true division gives a float64, [int] truncates. *)
Definition third (code : Z) : result Z :=
  PyNum.to_int (F64.div (F64.of_Z code) (F64.of_Z 3)).

(** Lines 228-231 and 236-239: the label of a 1-2-5 step setting,
    [float2eng(mant*10**exp) + unit + '/div'] with
    [mant = divisions[code % 3]] and [exp = int(code / 3) - bias].
    The tuple [divisions] is bound on line 227 only; [None] is the
    unbound local. *)
Definition step_label (divisions : option (list Z)) (code bias : Z)
    (unit : string) : result string :=
  match divisions with
  | None => Raise UnboundLocalError
  | Some d =>
      rbind (tuple_index d (code mod 3)) (fun mant =>
      rbind (third code) (fun q =>
      let exp := q - bias in
      rbind (PyNum.mul (PyInt mant) (PyNum.int_pow pf 10 exp)) (fun t =>
      rbind (float2eng pf t) (fun s =>
      OK (s ++ unit ++ "/div")%string))))
  end.

(** Lines 146-245: the wave descriptor block, field by field.  The result
    is the header start, the byte order and the decoded fields. *)
Definition read_wavedesc : io (nat * byteorder * WaveDesc) :=
  str2 <- read 32 ;;
  match find b_WAVEDESC str2 with
  | None => raise HeaderNotFound
  | Some startOffset =>
  DESCRIPTOR_NAME <- lift (decode_utf8 (rstrip b_nul_x00
                       (pyslice str2 startOffset (startOffset + 16)))) ;;
  (* int.from_bytes raises no ValueError: the handler is never entered *)
  let fileSize := from_bytes_little (pyslice str2 4 startOffset)
                  + Z.of_nat startOffset in
  seek (startOffset + 34) ;;;
  COMM_ORDER_INDEX <- read_i2 LittleEndian ;;
  COMM_ORDER <- lift (tuple_index COMM_ORDER_labels COMM_ORDER_INDEX) ;;
  let co := if String.eqb COMM_ORDER "LOFIRST" then LittleEndian else BigEndian in
  seek (startOffset + 16) ;;;
  bs <- read 16 ;;
  TEMPLATE_NAME <- lift (decode_utf8 (rstrip b_nul_x00 bs)) ;;
  if negb (String.eqb TEMPLATE_NAME "LECROY_2_3")
  then raise UnsupportedTemplateVersion else
  COMM_TYPE_INDEX <- read_i2 co ;;
  COMM_TYPE <- lift (tuple_index COMM_TYPE_labels COMM_TYPE_INDEX) ;;
  seek (startOffset + 36) ;;;
  WAVE_DESCRIPTOR <- read_i4 co ;;
  USER_TEXT <- read_i4 co ;;
  RES_DESC1 <- read_i4 co ;;
  TRIGTIME_ARRAY <- read_i4 co ;;
  RIS_TIME_ARRAY <- read_i4 co ;;
  RES_ARRAY1 <- read_i4 co ;;
  WAVE_ARRAY_1 <- read_i4 co ;;
  WAVE_ARRAY_2 <- read_i4 co ;;
  RES_ARRAY2 <- read_i4 co ;;
  RES_ARRAY3 <- read_i4 co ;;
  bs <- read 16 ;;
  INSTRUMENT_NAME <- lift (decode_utf8 (rstrip b_nul bs)) ;;
  INSTRUMENT_NUMBER <- read_i4 co ;;
  bs <- read 16 ;;
  TRACE_LABEL <- lift (decode_utf8 (rstrip b_nul bs)) ;;
  RESERVED1 <- read_i2 co ;;
  RESERVED2 <- read_i2 co ;;
  WAVE_ARRAY_COUNT <- read_i4 co ;;
  PNTS_PER_SCREEN <- read_i4 co ;;
  FIRST_VALID_PNT <- read_i4 co ;;
  LAST_VALID_PNT <- read_i4 co ;;
  FIRST_POINT <- read_i4 co ;;
  SPARSING_FACTOR <- read_i4 co ;;
  SEGMENT_INDEX <- read_i4 co ;;
  SUBARRAY_COUNT <- read_i4 co ;;
  SWEEPS_PER_ACQ <- read_i4 co ;;
  POINTS_PER_PAIR <- read_i2 co ;;
  PAIR_OFFSET <- read_i2 co ;;
  VERTICAL_GAIN <- read_f4 co ;;
  VERTICAL_OFFSET <- read_f4 co ;;
  MAX_VALUE <- read_f4 co ;;
  MIN_VALUE <- read_f4 co ;;
  NOMINAL_BITS <- read_i2 co ;;
  NOM_SUBARRAY_COUNT <- read_i2 co ;;
  HORIZ_INTERVAL <- read_f4 co ;;
  HORIZ_OFFSET <- read_f8 co ;;
  PIXEL_OFFSET <- read_f8 co ;;
  bs <- read 48 ;;
  VERTUNIT <- lift (decode_utf8 (rstrip b_nul_x00 bs)) ;;
  bs <- read 48 ;;
  HORUNIT <- lift (decode_utf8 (rstrip b_nul_x00 bs)) ;;
  HORIZ_UNCERTAINTY <- read_f4 co ;;
  TRIGGER_TIME_SECONDS <- read_f8 co ;;
  TRIGGER_TIME_MINUTES <- read_i1 ;;
  TRIGGER_TIME_HOURS <- read_i1 ;;
  TRIGGER_TIME_DAYS <- read_i1 ;;
  TRIGGER_TIME_MONTHS <- read_i1 ;;
  TRIGGER_TIME_YEAR <- read_i2 co ;;
  TRIGGER_TIME_UNUSED <- read_i2 co ;;
  ACQ_DURATION <- read_f4 co ;;
  RECORD_TYPE_INDEX <- read_i2 co ;;
  RECORD_TYPE <- lift (tuple_index RECORD_TYPE_labels RECORD_TYPE_INDEX) ;;
  PROCESSING_DONE_INDEX <- read_i2 co ;;
  PROCESSING_DONE <- lift (tuple_index PROCESSING_DONE_labels PROCESSING_DONE_INDEX) ;;
  RESERVED5 <- read_i2 co ;;
  RIS_SWEEPS <- read_i2 co ;;
  TIMEBASE_INDEX <- read_i2 co ;;
  let divisions := if TIMEBASE_INDEX =? 100 then None else Some [1; 2; 5] in
  TIMEBASE <- lift (if TIMEBASE_INDEX =? 100 then OK "EXTERNAL"%string
                    else step_label divisions TIMEBASE_INDEX 12 HORUNIT) ;;
  VERT_COUPLING_INDEX <- read_i2 co ;;
  VERT_COUPLING <- lift (tuple_index VERT_COUPLING_labels VERT_COUPLING_INDEX) ;;
  PROBE_ATT <- read_f4 co ;;
  FIXED_VERT_GAIN_INDEX <- read_i2 co ;;
  FIXED_VERT_GAIN <- lift (step_label divisions FIXED_VERT_GAIN_INDEX 6 VERTUNIT) ;;
  BANDWIDTH_LIMIT_INDEX <- read_i2 co ;;
  BANDWIDTH_LIMIT <- lift (tuple_index BANDWIDTH_LIMIT_labels BANDWIDTH_LIMIT_INDEX) ;;
  VERTICAL_VERNIER <- read_f4 co ;;
  ACQ_VERT_OFFSET <- read_f4 co ;;
  WAVE_SOURCE_INDEX <- read_i2 co ;;
  let WAVE_SOURCE := ("C" ++ PyNum.fmt_d (WAVE_SOURCE_INDEX + 1))%string in
  ret (startOffset, co,
       {| DESCRIPTOR_NAME := DESCRIPTOR_NAME;
          TEMPLATE_NAME := TEMPLATE_NAME;
          COMM_TYPE_INDEX := COMM_TYPE_INDEX;
          COMM_TYPE := COMM_TYPE;
          COMM_ORDER_INDEX := COMM_ORDER_INDEX;
          COMM_ORDER := COMM_ORDER;
          WAVE_DESCRIPTOR := WAVE_DESCRIPTOR;
          USER_TEXT := USER_TEXT;
          RES_DESC1 := RES_DESC1;
          TRIGTIME_ARRAY := TRIGTIME_ARRAY;
          RIS_TIME_ARRAY := RIS_TIME_ARRAY;
          RES_ARRAY1 := RES_ARRAY1;
          WAVE_ARRAY_1 := WAVE_ARRAY_1;
          WAVE_ARRAY_2 := WAVE_ARRAY_2;
          RES_ARRAY2 := RES_ARRAY2;
          RES_ARRAY3 := RES_ARRAY3;
          INSTRUMENT_NAME := INSTRUMENT_NAME;
          INSTRUMENT_NUMBER := INSTRUMENT_NUMBER;
          TRACE_LABEL := TRACE_LABEL;
          RESERVED1 := RESERVED1;
          RESERVED2 := RESERVED2;
          WAVE_ARRAY_COUNT := WAVE_ARRAY_COUNT;
          PNTS_PER_SCREEN := PNTS_PER_SCREEN;
          FIRST_VALID_PNT := FIRST_VALID_PNT;
          LAST_VALID_PNT := LAST_VALID_PNT;
          FIRST_POINT := FIRST_POINT;
          SPARSING_FACTOR := SPARSING_FACTOR;
          SEGMENT_INDEX := SEGMENT_INDEX;
          SUBARRAY_COUNT := SUBARRAY_COUNT;
          SWEEPS_PER_ACQ := SWEEPS_PER_ACQ;
          POINTS_PER_PAIR := POINTS_PER_PAIR;
          PAIR_OFFSET := PAIR_OFFSET;
          VERTICAL_GAIN := VERTICAL_GAIN;
          VERTICAL_OFFSET := VERTICAL_OFFSET;
          MAX_VALUE := MAX_VALUE;
          MIN_VALUE := MIN_VALUE;
          NOMINAL_BITS := NOMINAL_BITS;
          NOM_SUBARRAY_COUNT := NOM_SUBARRAY_COUNT;
          HORIZ_INTERVAL := HORIZ_INTERVAL;
          HORIZ_OFFSET := HORIZ_OFFSET;
          PIXEL_OFFSET := PIXEL_OFFSET;
          VERTUNIT := VERTUNIT;
          HORUNIT := HORUNIT;
          HORIZ_UNCERTAINTY := HORIZ_UNCERTAINTY;
          TRIGGER_TIME := (TRIGGER_TIME_SECONDS, TRIGGER_TIME_MINUTES,
                           TRIGGER_TIME_HOURS, TRIGGER_TIME_DAYS,
                           TRIGGER_TIME_MONTHS, TRIGGER_TIME_YEAR,
                           TRIGGER_TIME_UNUSED);
          ACQ_DURATION := ACQ_DURATION;
          RECORD_TYPE_INDEX := RECORD_TYPE_INDEX;
          RECORD_TYPE := RECORD_TYPE;
          PROCESSING_DONE_INDEX := PROCESSING_DONE_INDEX;
          PROCESSING_DONE := PROCESSING_DONE;
          RESERVED5 := RESERVED5;
          RIS_SWEEPS := RIS_SWEEPS;
          TIMEBASE_INDEX := TIMEBASE_INDEX;
          TIMEBASE := TIMEBASE;
          VERT_COUPLING_INDEX := VERT_COUPLING_INDEX;
          VERT_COUPLING := VERT_COUPLING;
          PROBE_ATT := PROBE_ATT;
          FIXED_VERT_GAIN_INDEX := FIXED_VERT_GAIN_INDEX;
          FIXED_VERT_GAIN := FIXED_VERT_GAIN;
          BANDWIDTH_LIMIT_INDEX := BANDWIDTH_LIMIT_INDEX;
          BANDWIDTH_LIMIT := BANDWIDTH_LIMIT;
          VERTICAL_VERNIER := VERTICAL_VERNIER;
          ACQ_VERT_OFFSET := ACQ_VERT_OFFSET;
          WAVE_SOURCE_INDEX := WAVE_SOURCE_INDEX;
          WAVE_SOURCE := WAVE_SOURCE;
          FILE_SIZE := fileSize |})
  end.

(** Lines 246-250 and 319-321: the check of the declared header length,
    then the user text. *)
Definition check_and_read_text (startOffset : nat) (v : WaveDesc)
  : io (list byte) :=
  p <- tell ;;
  let coffset := Z.of_nat p - Z.of_nat startOffset in
  if negb (coffset =? WAVE_DESCRIPTOR v) then raise HeaderLengthMismatch else
  if USER_TEXT v >? 0 then read (Z.to_nat (USER_TEXT v)) else ret [].

(** Lines 146-321: everything before the waveforms. *)
Definition read_header : io (byteorder * WaveDesc * list byte) :=
  ' (startOffset, co, v) <- read_wavedesc ;;
  TEXT <- check_and_read_text startOffset v ;;
  ret (co, v, TEXT).

(** [raw * VERTICAL_GAIN - VERTICAL_OFFSET]: an integer array times a
    float32 scalar is a float32 array. *)
Definition scale (v : WaveDesc) (raw : Z) : spec_float :=
  F32.sub (F32.mul (F32.of_Z raw) (VERTICAL_GAIN v)) (VERTICAL_OFFSET v).

(** [np.arange(n, dtype='float64') * HORIZ_INTERVAL + offset]: the float32
    interval is widened, the arithmetic is float64. *)
Definition time_axis (v : WaveDesc) (n : nat) (offset : spec_float)
  : list spec_float :=
  map (fun j => F64.add (F64.mul (F64.of_Z (Z.of_nat j))
                                 (F64.of_f32 (HORIZ_INTERVAL v))) offset)
      (seq 0 n).

(** [x[i:] = row]: the row is broadcast over every row from [i] on. *)
Definition assign_from {A} (i : nat) (row : A) (x : list A) : list A :=
  firstn i x ++ repeat row (length x - i).

(** Lines 339-341, over the indices still to visit. *)
Fixpoint trigger_loop (v : WaveDesc) (npts : nat)
    (trigArray : list (spec_float * spec_float)) (range : list nat)
    (x : list (list spec_float)) : result (list (list spec_float)) :=
  match range with
  | [] => OK x
  | i :: range' =>
      match nth_error trigArray i with
      | None => Raise TruncatedInput
      | Some (trigTime, trigOffset) =>
          let horOffset := F64.add trigTime trigOffset in
          trigger_loop v npts trigArray range'
            (assign_from i (time_axis v npts horOffset) x)
      end
  end.

(** [a.reshape(nrows, ncols)] in row-major order. *)
Definition reshape {A} (nrows ncols : nat) (a : list A) : result (list (list A)) :=
  if (length a =? nrows * ncols)%nat
  then OK (map (fun i => firstn ncols (skipn (i * ncols) a)) (seq 0 nrows))
  else Raise ValueError.

(** [np.zeros((nrows, ncols))]. *)
Definition zeros (nrows ncols : Z) : result (list (list spec_float)) :=
  if (nrows <? 0) || (ncols <? 0) then Raise ValueError
  else OK (repeat (repeat (S754_zero false) (Z.to_nat ncols)) (Z.to_nat nrows)).

(** The record dtype of line 332: two doubles. *)
Definition trig_of_bytes (co : byteorder) (bs : list byte)
  : spec_float * spec_float :=
  (f8_of_bytes co (firstn 8 bs), f8_of_bytes co (skipn 8 bs)).

(** The sample dtype: [co+'i1'] when [COMM_TYPE_INDEX == 0], else [co+'i2']. *)
Definition read_samples (co : byteorder) (v : WaveDesc) : io (list Z) :=
  if COMM_TYPE_INDEX v =? 0
  then fromfile 1 (int_of_bytes co) (WAVE_ARRAY_COUNT v)
  else fromfile 2 (int_of_bytes co) (WAVE_ARRAY_COUNT v).

(** Lines 323-363. *)
Definition read_waveforms (co : byteorder) (v : WaveDesc)
  : io (ndarray * ndarray * ndarray) :=
  if SUBARRAY_COUNT v >? 1 then
    if negb (WAVE_ARRAY_COUNT v mod SUBARRAY_COUNT v =? 0)
    then raise UnevenSegmentSplit else
    let npts := WAVE_ARRAY_COUNT v / SUBARRAY_COUNT v in
    trigArray <- fromfile 16 (trig_of_bytes co) (SUBARRAY_COUNT v) ;;
    x0 <- lift (zeros (SUBARRAY_COUNT v) npts) ;;
    let nrows := Z.to_nat (SUBARRAY_COUNT v) in
    let ncols := Z.to_nat npts in
    x <- lift (trigger_loop v ncols trigArray (seq 0 nrows) x0) ;;
    raw <- read_samples co v ;;
    rows <- lift (reshape nrows ncols raw) ;;
    ret (Array2 nrows ncols x,
         Array2 nrows ncols (map (map (scale v)) rows),
         Array1 [])
  else
    raw1 <- read_samples co v ;;
    y2 <- (if WAVE_ARRAY_2 v >? 0
           then raw2 <- read_samples co v ;; ret (map (scale v) raw2)
           else ret []) ;;
    ret (Array1 (time_axis v (Z.to_nat (WAVE_ARRAY_COUNT v)) (HORIZ_OFFSET v)),
         Array1 (map (scale v) raw1),
         Array1 y2).

(** The function: [(WAVEDESC, TEXT, x, y1, y2)] or an exception, and the
    position at which the file was left. *)
Definition ReadBinaryTrace
  : io (WaveDesc * list byte * ndarray * ndarray * ndarray) :=
  ' (co, v, TEXT) <- read_header ;;
  ' (x, y1, y2) <- read_waveforms co v ;;
  ret (v, TEXT, x, y1, y2).

End Decoder.

(* ===================================================================== *)
(** ** A reference platform *)
(* ===================================================================== *)

(** A platform whose logarithm and power are computed to 160 fractional
    bits and then rounded to the nearest double.  It instantiates the
    parameter where a statement is evaluated on a concrete file. *)
Module RefPlatform.

Definition P : Z := 160.

(** The series of [atanh z] in fixed point: the sum of [z^i / i] over the
    odd [i]. *)
Fixpoint atanh_series (fuel : nat) (i term z2 acc : Z) : Z :=
  match fuel with
  | O => acc
  | S fuel' =>
      atanh_series fuel' (i + 2) ((term * z2) / 2 ^ P) z2 (acc + term / i)
  end.

(** [atanh (a / b)] for [0 <= a/b <= 1/3]. *)
Definition atanh_fix (a b : Z) : Z :=
  let z := (a * 2 ^ P) / b in
  atanh_series 60 1 z ((z * z) / 2 ^ P) 0.

Definition ln2_fix : Z := 2 * atanh_fix 1 3.

(** [ln (m * 2^e)] for [m > 0]: with [k] the binary logarithm of [m],
    [ln (m / 2^k) = 2 atanh ((m - 2^k) / (m + 2^k))]. *)
Definition ln_fix (m e : Z) : Z :=
  let k := Z.log2 m in
  2 * atanh_fix (m - 2 ^ k) (m + 2 ^ k) + (e + k) * ln2_fix.

Definition ln_round (m e : Z) : spec_float :=
  binary_normalize F64.prec F64.emax (ln_fix m e) (- P) false.

(** The natural logarithm as [math.log] takes it of one argument. *)
Definition ln (v : pynum) : result spec_float :=
  match v with
  | PyInt z => if z <=? 0 then Raise ValueError else OK (ln_round z 0)
  | PyFloat S754_nan => OK S754_nan
  | PyFloat (S754_infinity false) => OK (S754_infinity false)
  | PyFloat (S754_finite false m e) => OK (ln_round (Zpos m) e)
  | PyFloat _ => Raise ValueError
  end.

Definition log (x base : pynum) : result spec_float :=
  rbind (ln x) (fun num =>
  rbind (ln base) (fun den =>
  PyNum.float_truediv num den)).

(** [b ** e] for [e < 0]: the double nearest to [1 / b^(-e)]. *)
Definition pow_neg (b e : Z) : spec_float :=
  if b =? 0 then S754_infinity false
  else PyNum.round_ratio ((b <? 0) && Z.odd e) 1 (Z.abs b ^ (- e)).

Definition ref : platform :=
  {| math_log := log; int_pow_neg := pow_neg |}.

End RefPlatform.

(* ===================================================================== *)
(** ** Example files *)
(* ===================================================================== *)

Module Examples.

Definition byte_of_Z (z : Z) : byte :=
  match Byte.of_N (Z.to_N (z mod 256)) with
  | Some b => b
  | None => x00
  end.

(** The [n] bytes of [z] in two's complement, low byte first. *)
Fixpoint le_bytes (n : nat) (z : Z) : list byte :=
  match n with
  | O => []
  | S n' => byte_of_Z z :: le_bytes n' (z / 256)
  end.

Definition int_bytes (co : byteorder) (n : nat) (z : Z) : list byte :=
  in_order co (le_bytes n z).

(** A string field of [n] bytes, padded with NUL. *)
Definition padded (n : nat) (s : string) : list byte :=
  firstn n (list_byte_of_string s ++ repeat x00 n).

(** The settings of an example header; the fields not listed are zero. *)
Record settings : Type := {
  s_order : byteorder;
  s_comm_type : Z;
  s_wave_descriptor : Z;
  s_user_text : Z;
  s_wave_array_2 : Z;
  s_wave_array_count : Z;
  s_subarray_count : Z;
  s_vertical_gain : Z;       (* float32 bits *)
  s_vertical_offset : Z;     (* float32 bits *)
  s_horiz_interval : Z;      (* float32 bits *)
  s_horiz_offset : Z;        (* float64 bits *)
  s_vertunit : string;
  s_horunit : string;
  s_record_type : Z;
  s_timebase : Z;
  s_vert_coupling : Z;
  s_fixed_vert_gain : Z;
  s_bandwidth_limit : Z
}.

(** The 346 bytes of a wave descriptor block. *)
Definition header (s : settings) : list byte :=
  let co := s_order s in
  let i2 := int_bytes co 2 in
  let i4 := int_bytes co 4 in
  let i8 := int_bytes co 8 in
  padded 16 "WAVEDESC" ++ padded 16 "LECROY_2_3"
  ++ i2 (s_comm_type s)
  ++ le_bytes 2 (match co with LittleEndian => 1 | BigEndian => 0 end)
  ++ i4 (s_wave_descriptor s) ++ i4 (s_user_text s)
  ++ i4 0 ++ i4 0 ++ i4 0 ++ i4 0 ++ i4 0
  ++ i4 (s_wave_array_2 s) ++ i4 0 ++ i4 0
  ++ padded 16 "LECROYWR620Zi" ++ i4 4711 ++ padded 16 "trace"
  ++ i2 0 ++ i2 0
  ++ i4 (s_wave_array_count s)
  ++ i4 0 ++ i4 0 ++ i4 0 ++ i4 0 ++ i4 1 ++ i4 0
  ++ i4 (s_subarray_count s)
  ++ i4 1 ++ i2 0 ++ i2 0
  ++ i4 (s_vertical_gain s) ++ i4 (s_vertical_offset s) ++ i4 0 ++ i4 0
  ++ i2 8 ++ i2 1
  ++ i4 (s_horiz_interval s) ++ i8 (s_horiz_offset s) ++ i8 0
  ++ padded 48 (s_vertunit s) ++ padded 48 (s_horunit s)
  ++ i4 0
  ++ i8 0 ++ [x1e; x0c; x18; x0c] ++ i2 2018 ++ i2 0
  ++ i4 0
  ++ i2 (s_record_type s) ++ i2 0 ++ i2 0 ++ i2 1
  ++ i2 (s_timebase s) ++ i2 (s_vert_coupling s) ++ i4 1065353216
  ++ i2 (s_fixed_vert_gain s) ++ i2 (s_bandwidth_limit s)
  ++ i4 1065353216 ++ i4 0 ++ i2 1.

(** Settings that differ from a plain single sweep in the listed fields:
    gain 0.5, offset 0.25, interval 0.5, first sample at 2.0, units V and S
    unless [vertunit] says otherwise. *)
Definition make (comm_type wave_descriptor wave_array_2 count segments
    record_type timebase fixed_vert_gain bandwidth_limit : Z)
    (vertunit : string) : settings :=
  {| s_order := LittleEndian;
     s_comm_type := comm_type;
     s_wave_descriptor := wave_descriptor;
     s_user_text := 0;
     s_wave_array_2 := wave_array_2;
     s_wave_array_count := count;
     s_subarray_count := segments;
     s_vertical_gain := 1056964608;
     s_vertical_offset := 1048576000;
     s_horiz_interval := 1056964608;
     s_horiz_offset := 4611686018427387904;
     s_vertunit := vertunit;
     s_horunit := "S";
     s_record_type := record_type;
     s_timebase := timebase;
     s_vert_coupling := 2;
     s_fixed_vert_gain := fixed_vert_gain;
     s_bandwidth_limit := bandwidth_limit |}.

(** A single sweep of four one-byte samples at 1 ns/div and 50 mV/div. *)
Definition sweep : settings := make 0 346 0 4 1 0 9 14 0 "V".

Definition samples : list byte := [x01; xff; x02; x80].

Definition sweep_file : list byte := header sweep ++ samples.

(** The same file as an instrument sends it, behind a block header of
    eleven characters. *)
Definition prefixed_file : list byte :=
  list_byte_of_string "#9000000350" ++ sweep_file.

(** A sweep that declares a header of 345 bytes. *)
Definition short_header_file : list byte :=
  header (make 0 345 0 4 1 0 9 14 0 "V") ++ samples.

(** A sweep whose vertical unit is the lux, "lx". *)
Definition lux_file : list byte :=
  header (make 0 346 0 4 1 0 9 14 0 "lx") ++ samples.

(** A sweep on the external time base, code 100. *)
Definition external_file : list byte :=
  header (make 0 346 0 4 1 0 100 14 0 "V") ++ samples.

(** A sweep whose time base code is -1. *)
Definition negative_timebase_file : list byte :=
  header (make 0 346 0 4 1 0 (-1) 14 0 "V") ++ samples.

(** A sweep whose bandwidth limit code is -1. *)
Definition negative_bandwidth_file : list byte :=
  header (make 0 346 0 4 1 0 9 14 (-1) "V") ++ samples.

(** A sweep with a second channel of four samples. *)
Definition dual_file : list byte :=
  header (make 0 346 4 4 1 0 9 14 0 "V") ++ samples ++ [x05; x06; x07; x08].

(** Two trigger records: (1.0, 0.5) and (4.0, 0.25). *)
Definition triggers : list byte :=
  le_bytes 8 4607182418800017408 ++ le_bytes 8 4602678819172646912
  ++ le_bytes 8 4616189618054758400 ++ le_bytes 8 4598175219545276416.

(** Two segments of two one-byte samples. *)
Definition sequence_file : list byte :=
  header (make 0 346 0 4 2 0 9 14 0 "V") ++ triggers ++ samples.

(** Two segments declared for three samples. *)
Definition uneven_file : list byte :=
  header (make 0 346 0 3 2 0 9 14 0 "V") ++ triggers ++ samples.

(** Two segments whose communication type code is -2. *)
Definition wrapped_type_file : list byte :=
  header (make (-2) 346 0 4 2 0 9 14 0 "V") ++ triggers
  ++ samples ++ samples.

(** Two segments that declare -4 samples. *)
Definition negative_sequence_file : list byte :=
  header (make 0 346 0 (-4) 2 0 9 14 0 "V") ++ triggers ++ samples.

(** A sweep with a second channel that declares -1 samples. *)
Definition negative_count_file : list byte :=
  header (make 0 346 4 (-1) 1 0 9 14 0 "V") ++ samples.

(** A sweep whose time base code is 45: 1 * 10^3 seconds per division. *)
Definition kilo_timebase_file : list byte :=
  header (make 0 346 0 4 1 0 45 14 0 "V") ++ samples.

End Examples.


(* ===================================================================== *)
(** ** The vocabulary of the statements *)
(* ===================================================================== *)

Implicit Types (data : list byte) (p q size : nat) (co : byteorder)
  (v : WaveDesc) (pf : platform).

Definition header_of (r : WaveDesc * list byte * ndarray * ndarray * ndarray)
  : WaveDesc :=
  let '(v, _, _, _, _) := r in v.

(** The width in bytes of a sample: the test of lines 343 and 350. *)
Definition sample_size v : nat := if COMM_TYPE_INDEX v =? 0 then 1 else 2.

(** The [j]-th sample of the array that starts at position [p]. *)
Definition sample_at data co v p (j : nat) : Z :=
  int_of_bytes co (slice data (p + j * sample_size v) (sample_size v)).

(** The double at position [p]. *)
Definition f8_at data co p : spec_float := f8_of_bytes co (slice data p 8).

(** The row that iteration [i] of the loop writes. *)
Definition trigger_row v (npts : nat)
    (trigArray : list (spec_float * spec_float)) (i : nat)
  : list spec_float :=
  match nth_error trigArray i with
  | Some (trigTime, trigOffset) => time_axis v npts (F64.add trigTime trigOffset)
  | None => []
  end.

(** The trigger array as [fromfile] returns it at [p0]. *)
Definition trig_array data co v (p0 : nat) : list (spec_float * spec_float) :=
  map (fun i => trig_of_bytes co (slice data (p0 + i * 16) 16))
      (seq 0 (Z.to_nat (SUBARRAY_COUNT v))).

(** The samples that follow the trigger array. *)
Definition raw_samples data co v (p0 : nat) : list Z :=
  map (sample_at data co v (p0 + Z.to_nat (SUBARRAY_COUNT v) * 16))
      (seq 0 (Z.to_nat (WAVE_ARRAY_COUNT v))).

(** What a segmented decode returns, entry by entry: the time is
    [j * HORIZ_INTERVAL + (trigger_time + trigger_offset)] in float64, the
    amplitude is [raw * VERTICAL_GAIN - VERTICAL_OFFSET] in float32. *)
Definition segmented_arrays data co v p0 (x y1 : list (list spec_float)) : Prop :=
  let nrows := Z.to_nat (SUBARRAY_COUNT v) in
  let ncols := Z.to_nat (WAVE_ARRAY_COUNT v / SUBARRAY_COUNT v) in
  length x = nrows /\ length y1 = nrows /\
  forall i, (i < nrows)%nat ->
    exists xrow yrow,
      nth_error x i = Some xrow /\ nth_error y1 i = Some yrow /\
      length xrow = ncols /\ length yrow = ncols /\
      forall j, (j < ncols)%nat ->
        nth_error xrow j
        = Some (F64.add (F64.mul (F64.of_Z (Z.of_nat j))
                                 (F64.of_f32 (HORIZ_INTERVAL v)))
                        (F64.add (f8_at data co (p0 + 16 * i))
                                 (f8_at data co (p0 + 16 * i + 8))))
        /\ nth_error yrow j
           = Some (F32.sub
                     (F32.mul
                        (F32.of_Z (sample_at data co v (p0 + 16 * nrows)
                                     (i * ncols + j)))
                        (VERTICAL_GAIN v))
                     (VERTICAL_OFFSET v)).

(** The facts that tie a decoded descriptor to the file: where each string
    and each code was read, and how each label was resolved. *)
Record decoded pf data (k : nat) co v (p : nat) : Prop := {
  d_found : find b_WAVEDESC (slice data 0 32) = Some k;
  d_end : p = (k + 346)%nat;
  d_size : (k + 346 <= length data)%nat;
  d_descriptor_name :
    decode_utf8 (rstrip b_nul_x00 (pyslice (slice data 0 32) k (k + 16)))
    = OK (DESCRIPTOR_NAME v);
  d_template_name :
    decode_utf8 (rstrip b_nul_x00 (slice data (k + 16) 16)) = OK (TEMPLATE_NAME v);
  d_instrument_name :
    decode_utf8 (rstrip b_nul (slice data (k + 76) 16)) = OK (INSTRUMENT_NAME v);
  d_trace_label :
    decode_utf8 (rstrip b_nul (slice data (k + 96) 16)) = OK (TRACE_LABEL v);
  d_vertunit :
    decode_utf8 (rstrip b_nul_x00 (slice data (k + 196) 48)) = OK (VERTUNIT v);
  d_horunit :
    decode_utf8 (rstrip b_nul_x00 (slice data (k + 244) 48)) = OK (HORUNIT v);
  d_file_size :
    FILE_SIZE v
    = from_bytes_little (pyslice (slice data 0 32) 4 k) + Z.of_nat k;
  d_order :
    co = if String.eqb (COMM_ORDER v) "LOFIRST" then LittleEndian else BigEndian;
  d_comm_order_code :
    COMM_ORDER_INDEX v = int_of_bytes LittleEndian (slice data (k + 34) 2);
  d_comm_type_code :
    COMM_TYPE_INDEX v = int_of_bytes co (slice data (k + 32) 2);
  d_record_type_code :
    RECORD_TYPE_INDEX v = int_of_bytes co (slice data (k + 316) 2);
  d_processing_done_code :
    PROCESSING_DONE_INDEX v = int_of_bytes co (slice data (k + 318) 2);
  d_timebase_code :
    TIMEBASE_INDEX v = int_of_bytes co (slice data (k + 324) 2);
  d_vert_coupling_code :
    VERT_COUPLING_INDEX v = int_of_bytes co (slice data (k + 326) 2);
  d_fixed_vert_gain_code :
    FIXED_VERT_GAIN_INDEX v = int_of_bytes co (slice data (k + 332) 2);
  d_bandwidth_limit_code :
    BANDWIDTH_LIMIT_INDEX v = int_of_bytes co (slice data (k + 334) 2);
  d_comm_order :
    tuple_index COMM_ORDER_labels (COMM_ORDER_INDEX v) = OK (COMM_ORDER v);
  d_comm_type :
    tuple_index COMM_TYPE_labels (COMM_TYPE_INDEX v) = OK (COMM_TYPE v);
  d_record_type :
    tuple_index RECORD_TYPE_labels (RECORD_TYPE_INDEX v) = OK (RECORD_TYPE v);
  d_processing_done :
    tuple_index PROCESSING_DONE_labels (PROCESSING_DONE_INDEX v)
    = OK (PROCESSING_DONE v);
  d_vert_coupling :
    tuple_index VERT_COUPLING_labels (VERT_COUPLING_INDEX v)
    = OK (VERT_COUPLING v);
  d_bandwidth_limit :
    tuple_index BANDWIDTH_LIMIT_labels (BANDWIDTH_LIMIT_INDEX v)
    = OK (BANDWIDTH_LIMIT v);
  d_not_external : TIMEBASE_INDEX v <> 100;
  d_timebase :
    step_label pf (Some [1; 2; 5]) (TIMEBASE_INDEX v) 12 (HORUNIT v)
    = OK (TIMEBASE v);
  d_fixed_vert_gain :
    step_label pf (Some [1; 2; 5]) (FIXED_VERT_GAIN_INDEX v) 6 (VERTUNIT v)
    = OK (FIXED_VERT_GAIN v)
}.

(** The time base code of a file: the two bytes at offset 324 of the
    header, in the byte order that the header declares at offset 34. *)
Definition timebase_code_of data : option Z :=
  match find b_WAVEDESC (slice data 0 32) with
  | None => None
  | Some k =>
      match tuple_index COMM_ORDER_labels
              (int_of_bytes LittleEndian (slice data (k + 34) 2)) with
      | Raise _ => None
      | OK order =>
          let co := if String.eqb order "LOFIRST"
                    then LittleEndian else BigEndian in
          Some (int_of_bytes co (slice data (k + 324) 2))
      end
  end.

(** [int(code / 3)] truncates toward zero: checked on every int16. *)
Definition third_truncates (code : Z) : bool :=
  match third code with
  | OK q => q =? Z.quot code 3
  | Raise _ => false
  end.

Fixpoint all_from (f : Z -> bool) (lo : Z) (n : nat) : bool :=
  match n with
  | O => true
  | S n' => f lo && all_from f (lo + 1) n'
  end.

(** From the specification: the value that the label of a 1-2-5 setting
    formats, [mantissa * 10^exponent] with [mantissa = {1,2,5}[code mod 3]]
    and [exponent = code/3 - bias].  The integer division is a parameter:
    [Z.div] rounds down, as the specification words it, and [Z.quot]
    truncates toward zero. *)
Definition spec_step_value pf (divide : Z -> Z -> Z) (code bias : Z)
  : result pynum :=
  let mantissa := nth (Z.to_nat (code mod 3)) [1; 2; 5] 0 in
  let exponent := divide code 3 - bias in
  PyNum.mul (PyInt mantissa) (PyNum.int_pow pf 10 exponent).

(** From the specification: the formatted value, the unit and "/div". *)
Definition spec_step_label pf (divide : Z -> Z -> Z) (code bias : Z)
    (unit : string) : result string :=
  rbind (spec_step_value pf divide code bias) (fun value =>
  rbind (float2eng pf value) (fun s =>
  OK (s ++ unit ++ "/div")%string)).

(** From the specification: the label of the time base, the literal
    "EXTERNAL" for the code 100 and otherwise the label of a 1-2-5 setting
    with the exponent [code/3 - 12] and the horizontal unit. *)
Definition spec_timebase_label pf (divide : Z -> Z -> Z) (code : Z)
    (unit : string) : result string :=
  if code =? 100 then OK "EXTERNAL"%string
  else spec_step_label pf divide code 12 unit.

(** The two labels of a header as the specification builds them, with
    [code/3] truncated toward zero; for a code that is not negative the
    truncation is the floor. *)
Definition step_labels_truncated pf v : Prop :=
  spec_timebase_label pf Z.quot (TIMEBASE_INDEX v) (HORUNIT v)
  = OK (TIMEBASE v)
  /\ spec_step_label pf Z.quot (FIXED_VERT_GAIN_INDEX v) 6 (VERTUNIT v)
     = OK (FIXED_VERT_GAIN v)
  /\ (0 <= TIMEBASE_INDEX v ->
      spec_timebase_label pf Z.div (TIMEBASE_INDEX v) (HORUNIT v)
      = OK (TIMEBASE v))
  /\ (0 <= FIXED_VERT_GAIN_INDEX v ->
      spec_step_label pf Z.div (FIXED_VERT_GAIN_INDEX v) 6 (VERTUNIT v)
      = OK (FIXED_VERT_GAIN v)).

(** The six fields that are resolved through a tuple of labels. *)
Inductive enum_field : Type :=
| CommType | CommOrder | RecordType | ProcessingDone | VertCoupling
| BandwidthLimit.

(** Where the code of the field lies in the header. *)
Definition enum_offset (f : enum_field) : nat :=
  match f with
  | CommType => 32
  | CommOrder => 34
  | RecordType => 316
  | ProcessingDone => 318
  | VertCoupling => 326
  | BandwidthLimit => 334
  end.

Definition enum_labels (f : enum_field) : list string :=
  match f with
  | CommType => COMM_TYPE_labels
  | CommOrder => COMM_ORDER_labels
  | RecordType => RECORD_TYPE_labels
  | ProcessingDone => PROCESSING_DONE_labels
  | VertCoupling => VERT_COUPLING_labels
  | BandwidthLimit => BANDWIDTH_LIMIT_labels
  end.

Definition enum_code (f : enum_field) v : Z :=
  match f with
  | CommType => COMM_TYPE_INDEX v
  | CommOrder => COMM_ORDER_INDEX v
  | RecordType => RECORD_TYPE_INDEX v
  | ProcessingDone => PROCESSING_DONE_INDEX v
  | VertCoupling => VERT_COUPLING_INDEX v
  | BandwidthLimit => BANDWIDTH_LIMIT_INDEX v
  end.

Definition enum_label (f : enum_field) v : string :=
  match f with
  | CommType => COMM_TYPE v
  | CommOrder => COMM_ORDER v
  | RecordType => RECORD_TYPE v
  | ProcessingDone => PROCESSING_DONE v
  | VertCoupling => VERT_COUPLING v
  | BandwidthLimit => BANDWIDTH_LIMIT v
  end.

(** The byte order of a decoded header. *)
Definition order_of v : byteorder :=
  if String.eqb (COMM_ORDER v) "LOFIRST" then LittleEndian else BigEndian.

(** The byte order in which the code of the field is read: the
    communication order itself is always read low byte first. *)
Definition enum_order (f : enum_field) (co : byteorder) : byteorder :=
  match f with
  | CommOrder => LittleEndian
  | _ => co
  end.

(** [data] with the bytes [bs] written at offset [o]. *)
Definition overwrite data (o : nat) (bs : list byte) : list byte :=
  firstn o data ++ bs ++ skipn (o + length bs) data.

(** The number of channels of a single sweep: line 352. *)
Definition channels v : nat := if WAVE_ARRAY_2 v >? 0 then 2 else 1.

(** What a single sweep returns: the time array has [n] entries, entry
    [j] being [j * HORIZ_INTERVAL + HORIZ_OFFSET] in float64; the primary
    channel is the [n] samples found at [p0], each scaled as
    [raw * VERTICAL_GAIN - VERTICAL_OFFSET] in float32; the secondary
    channel is empty when [WAVE_ARRAY_2 <= 0], and otherwise the [n]
    samples of the same width that follow the primary ones, scaled by the
    same rule. *)
Definition single_sweep_result pf data co v (TEXT : list byte) p0 : Prop :=
  let n := Z.to_nat (WAVE_ARRAY_COUNT v) in
  exists x y1 y2 q,
    run (ReadBinaryTrace pf) data
    = (OK (v, TEXT, Array1 x, Array1 y1, Array1 y2), q)
    /\ length x = n /\ length y1 = n
    /\ (forall j, (j < n)%nat ->
          nth_error x j
          = Some (F64.add (F64.mul (F64.of_Z (Z.of_nat j))
                                   (F64.of_f32 (HORIZ_INTERVAL v)))
                          (HORIZ_OFFSET v))
          /\ nth_error y1 j
             = Some (F32.sub
                       (F32.mul (F32.of_Z (sample_at data co v p0 j))
                                (VERTICAL_GAIN v))
                       (VERTICAL_OFFSET v)))
    /\ (WAVE_ARRAY_2 v <= 0 -> y2 = [])
    /\ (0 < WAVE_ARRAY_2 v ->
        length y2 = n
        /\ forall j, (j < n)%nat ->
             nth_error y2 j
             = Some (F32.sub
                       (F32.mul
                          (F32.of_Z (sample_at data co v
                                       (p0 + n * sample_size v) j))
                          (VERTICAL_GAIN v))
                       (VERTICAL_OFFSET v))).

(** The accepted communication-type codes, their label and the sample
    width that the code selects. *)
Definition comm_type_cases v : Prop :=
  (COMM_TYPE_INDEX v = 0 /\ COMM_TYPE v = "byte"%string
   /\ sample_size v = 1%nat)
  \/ (COMM_TYPE_INDEX v = 1 /\ COMM_TYPE v = "word"%string
      /\ sample_size v = 2%nat)
  \/ (COMM_TYPE_INDEX v = -1 /\ COMM_TYPE v = "word"%string
      /\ sample_size v = 2%nat)
  \/ (COMM_TYPE_INDEX v = -2 /\ COMM_TYPE v = "byte"%string
      /\ sample_size v = 2%nat).

(** What a segmented decode returns: two arrays of shape (segments,
    samples per segment) with the entries of [segmented_arrays], no
    secondary channel, and a sample width selected by the code of the
    communication type. *)
Definition segmented_result pf data co v (TEXT : list byte) p0 : Prop :=
  exists x y1 q,
    run (ReadBinaryTrace pf) data
    = (OK (v, TEXT,
           Array2 (Z.to_nat (SUBARRAY_COUNT v))
                  (Z.to_nat (WAVE_ARRAY_COUNT v / SUBARRAY_COUNT v)) x,
           Array2 (Z.to_nat (SUBARRAY_COUNT v))
                  (Z.to_nat (WAVE_ARRAY_COUNT v / SUBARRAY_COUNT v)) y1,
           Array1 []), q)
    /\ segmented_arrays data co v p0 x y1
    /\ comm_type_cases v.

(** From the specification: the table of SI prefixes. *)
Definition si_prefix (exponent : Z) : string :=
  match exponent with
  | -24 => "y" | -21 => "z" | -18 => "a" | -15 => "f" | -12 => "p"
  | -9 => "n" | -6 => "u" | -3 => "m" | 0 => ""
  | 3 => "k" | 6 => "M" | 9 => "G" | 12 => "T" | 15 => "P" | 18 => "E"
  | 21 => "Z" | 24 => "Y"
  | _ => "?"
  end.

(** Lines 31-34: down to a multiple of 3, then into [-24, 24]. *)
Definition engineering_exponent (ex : Z) : Z :=
  let exeng := ex - ex mod 3 in
  if exeng <? -24 then -24 else if exeng >? 24 then 24 else exeng.

(* ===================================================================== *)
(** ** The vocabulary of the further properties *)
(* ===================================================================== *)

(** The scalars at a position of the file. *)
Definition i1_at data (o : nat) : Z := int_of_bytes LittleEndian (slice data o 1).
Definition i2_at data co (o : nat) : Z := int_of_bytes co (slice data o 2).
Definition i4_at data co (o : nat) : Z := int_of_bytes co (slice data o 4).
Definition f4_at data co (o : nat) : spec_float := f4_of_bytes co (slice data o 4).

(** Where each number of a decoded descriptor was read: the offsets count
    from the header start [k], the byte order is [co], except for the code
    of the byte order itself, which is read low byte first.  The file size
    is not a field of the descriptor: it is computed from the bytes that
    precede it. *)
Record layout data (k : nat) co v : Prop := {
  l_template_name : TEMPLATE_NAME v = "LECROY_2_3"%string;
  l_comm_type_index : COMM_TYPE_INDEX v = i2_at data co (k + 32);
  l_comm_order_index : COMM_ORDER_INDEX v = i2_at data LittleEndian (k + 34);
  l_wave_descriptor : WAVE_DESCRIPTOR v = i4_at data co (k + 36);
  l_user_text : USER_TEXT v = i4_at data co (k + 40);
  l_res_desc1 : RES_DESC1 v = i4_at data co (k + 44);
  l_trigtime_array : TRIGTIME_ARRAY v = i4_at data co (k + 48);
  l_ris_time_array : RIS_TIME_ARRAY v = i4_at data co (k + 52);
  l_res_array1 : RES_ARRAY1 v = i4_at data co (k + 56);
  l_wave_array_1 : WAVE_ARRAY_1 v = i4_at data co (k + 60);
  l_wave_array_2 : WAVE_ARRAY_2 v = i4_at data co (k + 64);
  l_res_array2 : RES_ARRAY2 v = i4_at data co (k + 68);
  l_res_array3 : RES_ARRAY3 v = i4_at data co (k + 72);
  l_instrument_number : INSTRUMENT_NUMBER v = i4_at data co (k + 92);
  l_reserved1 : RESERVED1 v = i2_at data co (k + 112);
  l_reserved2 : RESERVED2 v = i2_at data co (k + 114);
  l_wave_array_count : WAVE_ARRAY_COUNT v = i4_at data co (k + 116);
  l_pnts_per_screen : PNTS_PER_SCREEN v = i4_at data co (k + 120);
  l_first_valid_pnt : FIRST_VALID_PNT v = i4_at data co (k + 124);
  l_last_valid_pnt : LAST_VALID_PNT v = i4_at data co (k + 128);
  l_first_point : FIRST_POINT v = i4_at data co (k + 132);
  l_sparsing_factor : SPARSING_FACTOR v = i4_at data co (k + 136);
  l_segment_index : SEGMENT_INDEX v = i4_at data co (k + 140);
  l_subarray_count : SUBARRAY_COUNT v = i4_at data co (k + 144);
  l_sweeps_per_acq : SWEEPS_PER_ACQ v = i4_at data co (k + 148);
  l_points_per_pair : POINTS_PER_PAIR v = i2_at data co (k + 152);
  l_pair_offset : PAIR_OFFSET v = i2_at data co (k + 154);
  l_vertical_gain : VERTICAL_GAIN v = f4_at data co (k + 156);
  l_vertical_offset : VERTICAL_OFFSET v = f4_at data co (k + 160);
  l_max_value : MAX_VALUE v = f4_at data co (k + 164);
  l_min_value : MIN_VALUE v = f4_at data co (k + 168);
  l_nominal_bits : NOMINAL_BITS v = i2_at data co (k + 172);
  l_nom_subarray_count : NOM_SUBARRAY_COUNT v = i2_at data co (k + 174);
  l_horiz_interval : HORIZ_INTERVAL v = f4_at data co (k + 176);
  l_horiz_offset : HORIZ_OFFSET v = f8_at data co (k + 180);
  l_pixel_offset : PIXEL_OFFSET v = f8_at data co (k + 188);
  l_horiz_uncertainty : HORIZ_UNCERTAINTY v = f4_at data co (k + 292);
  l_trigger_time :
    TRIGGER_TIME v
    = (f8_at data co (k + 296), i1_at data (k + 304), i1_at data (k + 305),
       i1_at data (k + 306), i1_at data (k + 307), i2_at data co (k + 308),
       i2_at data co (k + 310));
  l_acq_duration : ACQ_DURATION v = f4_at data co (k + 312);
  l_record_type_index : RECORD_TYPE_INDEX v = i2_at data co (k + 316);
  l_processing_done_index :
    PROCESSING_DONE_INDEX v = i2_at data co (k + 318);
  l_reserved5 : RESERVED5 v = i2_at data co (k + 320);
  l_ris_sweeps : RIS_SWEEPS v = i2_at data co (k + 322);
  l_timebase_index : TIMEBASE_INDEX v = i2_at data co (k + 324);
  l_vert_coupling_index : VERT_COUPLING_INDEX v = i2_at data co (k + 326);
  l_probe_att : PROBE_ATT v = f4_at data co (k + 328);
  l_fixed_vert_gain_index :
    FIXED_VERT_GAIN_INDEX v = i2_at data co (k + 332);
  l_bandwidth_limit_index :
    BANDWIDTH_LIMIT_INDEX v = i2_at data co (k + 334);
  l_vertical_vernier : VERTICAL_VERNIER v = f4_at data co (k + 336);
  l_acq_vert_offset : ACQ_VERT_OFFSET v = f4_at data co (k + 340);
  l_wave_source_index : WAVE_SOURCE_INDEX v = i2_at data co (k + 344);
  l_wave_source :
    WAVE_SOURCE v = ("C" ++ PyNum.fmt_d (WAVE_SOURCE_INDEX v + 1))%string;
  l_file_size :
    FILE_SIZE v
    = from_bytes_little (pyslice (slice data 0 32) 4 k) + Z.of_nat k
}.

(** The four strings of the header that are stripped of padding, where
    each lies and which bytes [rstrip] removes from its end. *)
Inductive text_field : Type :=
| InstrumentName | TraceLabel | VertUnit | HorUnit.

Definition text_offset (f : text_field) : nat :=
  match f with
  | InstrumentName => 76
  | TraceLabel => 96
  | VertUnit => 196
  | HorUnit => 244
  end.

Definition text_width (f : text_field) : nat :=
  match f with
  | InstrumentName | TraceLabel => 16
  | VertUnit | HorUnit => 48
  end.

Definition text_padding (f : text_field) : list byte :=
  match f with
  | InstrumentName | TraceLabel => b_nul
  | VertUnit | HorUnit => b_nul_x00
  end.

Definition text_value (f : text_field) v : string :=
  match f with
  | InstrumentName => INSTRUMENT_NAME v
  | TraceLabel => TRACE_LABEL v
  | VertUnit => VERTUNIT v
  | HorUnit => HORUNIT v
  end.

(** [s.endswith(b)] for one byte [b]. *)
Definition ends_with (l : list byte) (b : byte) : Prop :=
  exists l', l = l' ++ [b].

(** The number of samples that [fromfile] finds at position [p]: those
    that are wholly present, [WAVE_ARRAY_COUNT] of them at most. *)
Definition present data v p : nat :=
  Nat.min (Z.to_nat (WAVE_ARRAY_COUNT v)) ((length data - p) / sample_size v).

(** The bytes of the waveforms that the header announces: the trigger
    times and the samples of a sequence, or the samples of each channel of
    a single sweep. *)
Definition payload_bytes v : nat :=
  if SUBARRAY_COUNT v >? 1
  then (Z.to_nat (SUBARRAY_COUNT v) * 16
        + Z.to_nat (WAVE_ARRAY_COUNT v) * sample_size v)%nat
  else (channels v * (Z.to_nat (WAVE_ARRAY_COUNT v) * sample_size v))%nat.

(** Variants of the example files. *)
Module Variants.

Import Examples.

(** The sweep behind 25 blanks: the token starts at offset 25. *)
Definition late_header_file : list byte := repeat x20 25 ++ sweep_file.

(** The sweep with the template name LECROY_2_2. *)
Definition foreign_template_file : list byte :=
  overwrite sweep_file 16 (padded 16 "LECROY_2_2").

(** The first 20 bytes of the sweep. *)
Definition cut_header_file : list byte := firstn 20 sweep_file.

(** The sweep with a user text of five bytes. *)
Definition text_file : list byte :=
  overwrite (header sweep) 40 (le_bytes 4 5)
  ++ list_byte_of_string "hello" ++ samples.

(** The sweep cut after two of its four samples. *)
Definition truncated_sweep_file : list byte := header sweep ++ [x01; xff].

(** The sequence cut after two of its four samples. *)
Definition truncated_sequence_file : list byte :=
  header (make 0 346 0 4 2 0 9 14 0 "V") ++ triggers ++ [x01; xff].

(** The sweep followed by four bytes. *)
Definition trailing_file : list byte := sweep_file ++ [xde; xad; xbe; xef].

(** A single sweep of two 16-bit samples, high byte first: 256 and -2. *)
Definition big_endian_sweep : settings :=
  {| s_order := BigEndian;
     s_comm_type := 1;
     s_wave_descriptor := 346;
     s_user_text := 0;
     s_wave_array_2 := 0;
     s_wave_array_count := 2;
     s_subarray_count := 1;
     s_vertical_gain := 1056964608;
     s_vertical_offset := 1048576000;
     s_horiz_interval := 1056964608;
     s_horiz_offset := 4611686018427387904;
     s_vertunit := "V";
     s_horunit := "S";
     s_record_type := 0;
     s_timebase := 9;
     s_vert_coupling := 2;
     s_fixed_vert_gain := 14;
     s_bandwidth_limit := 0 |}.

Definition big_endian_file : list byte :=
  header big_endian_sweep ++ [x01; x00; xff; xfe].

(** The double 1500.0. *)
Definition f1500 (sign : bool) : spec_float :=
  S754_finite sign 6597069766656000 (-42).

End Variants.

(* ===================================================================== *)
(** ** Running the monad *)
(* ===================================================================== *)

Section Run.

Context {A B : Type}.

Lemma bind_ok_inv (m : io A) (k : A -> io B) data p b p' :
  bind m k data p = (OK b, p') ->
  exists a p1, m data p = (OK a, p1) /\ k a data p1 = (OK b, p').
Proof.
  unfold bind. destruct (m data p) as [[a|e] p1]; intros H.
  - exists a, p1. split; [reflexivity | exact H].
  - discriminate H.
Qed.

Lemma bind_ok (m : io A) (k : A -> io B) data p a p1 :
  m data p = (OK a, p1) -> bind m k data p = k a data p1.
Proof. unfold bind. intros ->. reflexivity. Qed.

Lemma bind_raise (m : io A) (k : A -> io B) data p e p1 :
  m data p = (Raise e, p1) -> bind m k data p = (Raise e, p1).
Proof. unfold bind. intros ->. reflexivity. Qed.

Lemma lift_ok_inv (r : result A) data p a p' :
  lift r data p = (OK a, p') -> r = OK a /\ p' = p.
Proof. unfold lift. intros H. inversion H. split; reflexivity. Qed.

End Run.

Lemma slice_length data p n :
  (p + n <= length data)%nat -> length (slice data p n) = n.
Proof.
  intros H. unfold slice. rewrite length_firstn, length_skipn. lia.
Qed.

Lemma slice_length_le data p n : (length (slice data p n) <= n)%nat.
Proof. unfold slice. rewrite length_firstn. lia. Qed.

Lemma read_ok_inv n data p bs p' :
  read n data p = (OK bs, p') ->
  bs = slice data p n /\ p' = (p + length bs)%nat.
Proof. unfold read. intros H. inversion H. split; reflexivity. Qed.

(** ** [numpy.fromfile] *)

Lemma avail_ge data p size n :
  (0 < size)%nat -> (p + n * size <= length data)%nat ->
  (n <= (length data - p) / size)%nat.
Proof.
  intros Hs H. apply Nat.div_le_lower_bound; lia.
Qed.

Lemma avail_pos data p size :
  (0 < size)%nat -> (0 < (length data - p) / size)%nat ->
  (p + size <= length data)%nat.
Proof.
  intros Hs H.
  destruct (Nat.le_gt_cases size (length data - p)) as [Hle|Hgt]; [lia|].
  rewrite Nat.div_small in H by exact Hgt. lia.
Qed.

(** A read of [count >= 0] items that the file holds returns them all and
    advances by their size. *)
Lemma fromfile_full {A} size (dec : list byte -> A) count data p :
  (0 < size)%nat -> 0 <= count ->
  (p + Z.to_nat count * size <= length data)%nat ->
  fromfile size dec count data p =
  (OK (map (fun i => dec (slice data (p + i * size) size))
           (seq 0 (Z.to_nat count))),
   (p + Z.to_nat count * size)%nat).
Proof.
  intros Hs Hc Hlen. unfold fromfile.
  assert (Hneg : (count <? 0) = false) by (apply Z.ltb_ge; lia).
  rewrite Hneg.
  pose proof (avail_ge data p size (Z.to_nat count) Hs Hlen) as Hav.
  rewrite (Nat.min_l _ _ Hav).
  rewrite Z2Nat.id by lia. rewrite Z.eqb_refl. reflexivity.
Qed.

Lemma fromfile1_ok_inv {A} size (dec : list byte -> A) data p x p' :
  (0 < size)%nat ->
  fromfile1 size dec data p = (OK x, p') ->
  (p + size <= length data)%nat /\ p' = (p + size)%nat
  /\ x = dec (slice data p size).
Proof.
  intros Hs H. unfold fromfile1, bind, fromfile in H.
  change (1 <? 0) with false in H. cbv beta iota zeta in H.
  change (Z.to_nat 1) with 1%nat in H.
  destruct ((length data - p) / size)%nat as [|a] eqn:Hav.
  - cbn in H. discriminate H.
  - pose proof (avail_pos data p size Hs ltac:(lia)) as Hlen.
    change (Nat.min 1 (S a)) with (S (Nat.min 0 a)) in H.
    cbn in H. inversion H; subst.
    split; [exact Hlen|]. split; [lia|].
    rewrite Nat.add_0_r. reflexivity.
Qed.

Lemma fromfile1_run {A} size (dec : list byte -> A) data p :
  (0 < size)%nat -> (p + size <= length data)%nat ->
  fromfile1 size dec data p = (OK (dec (slice data p size)), (p + size)%nat).
Proof.
  intros Hs Hlen. unfold fromfile1.
  rewrite (bind_ok _ _ _ _ _ _
             (fromfile_full size dec 1 data p Hs ltac:(lia) ltac:(cbn; lia))).
  change (Z.to_nat 1) with 1%nat. cbn [seq map item0 ret].
  rewrite Nat.mul_0_l, Nat.mul_1_l, Nat.add_0_r. reflexivity.
Qed.

(* ===================================================================== *)
(** ** The two sanity checks *)
(* ===================================================================== *)

(** C7. When the header and the user text have been decoded, the segment
    count exceeds 1 and does not divide the sample count, the call raises
    the uneven-split error and the file is left where the user text
    ended: neither the trigger times nor the samples are read. *)
Theorem uneven_split_reads_nothing pf data co v TEXT p0 :
  run (read_header pf) data = (OK (co, v, TEXT), p0) ->
  1 < SUBARRAY_COUNT v ->
  WAVE_ARRAY_COUNT v mod SUBARRAY_COUNT v <> 0 ->
  run (ReadBinaryTrace pf) data = (Raise UnevenSegmentSplit, p0).
Proof.
  unfold run. intros Hh Hs Hm. unfold ReadBinaryTrace.
  rewrite (bind_ok _ _ _ _ _ _ Hh). cbv beta iota.
  apply bind_raise. unfold read_waveforms.
  apply Z.gtb_lt in Hs. rewrite Hs.
  apply Z.eqb_neq in Hm. rewrite Hm. reflexivity.
Qed.

(* ===================================================================== *)
(** ** The waveform arrays *)
(* ===================================================================== *)

Lemma nth_error_map_seq {A} (f : nat -> A) n i :
  (i < n)%nat -> nth_error (map f (seq 0 n)) i = Some (f i).
Proof.
  intros Hi. rewrite nth_error_map.
  rewrite (nth_error_nth' (seq 0 n) 0%nat) by (rewrite length_seq; exact Hi).
  rewrite seq_nth by exact Hi. reflexivity.
Qed.

Lemma slice_firstn data p n m :
  (m <= n)%nat -> firstn m (slice data p n) = slice data p m.
Proof.
  intros H. unfold slice. rewrite firstn_firstn. f_equal. lia.
Qed.

Lemma slice_skipn data p n m :
  skipn m (slice data p n) = slice data (p + m) (n - m).
Proof.
  unfold slice. rewrite skipn_firstn_comm, skipn_skipn.
  f_equal. f_equal. lia.
Qed.

Lemma read_samples_full data co v p :
  0 <= WAVE_ARRAY_COUNT v ->
  (p + Z.to_nat (WAVE_ARRAY_COUNT v) * sample_size v <= length data)%nat ->
  read_samples co v data p =
  (OK (map (sample_at data co v p) (seq 0 (Z.to_nat (WAVE_ARRAY_COUNT v)))),
   (p + Z.to_nat (WAVE_ARRAY_COUNT v) * sample_size v)%nat).
Proof.
  unfold read_samples, sample_at, sample_size.
  destruct (COMM_TYPE_INDEX v =? 0); intros Hc Hlen;
    apply fromfile_full; auto; lia.
Qed.

Section TriggerLoop.

Variable v : WaveDesc.
Variable npts : nat.
Variable trigArray : list (spec_float * spec_float).

Lemma assign_from_length {A} i (row : A) (x : list A) :
  (i <= length x)%nat -> length (assign_from i row x) = length x.
Proof.
  intros H. unfold assign_from.
  rewrite length_app, length_firstn, repeat_length. lia.
Qed.

Lemma assign_from_prefix {A} i (row : A) (x : list A) :
  (i < length x)%nat ->
  firstn (S i) (assign_from i row x) = firstn i x ++ [row].
Proof.
  intros H. unfold assign_from.
  rewrite firstn_app, length_firstn.
  replace (S i - Nat.min i (length x))%nat with 1%nat by lia.
  rewrite firstn_firstn.
  replace (Nat.min (S i) i) with i by lia.
  destruct (length x - i)%nat eqn:E; [lia|]. reflexivity.
Qed.

(** The invariant of the loop: when iteration [a] starts, the rows before
    [a] are final.  Each iteration overwrites the rows from [a] on, so the
    row [a] holds what iteration [a] wrote when the loop ends. *)
Lemma trigger_loop_rows k : forall a x,
  (a + k = length x)%nat ->
  (length x <= length trigArray)%nat ->
  firstn a x = map (trigger_row v npts trigArray) (seq 0 a) ->
  trigger_loop v npts trigArray (seq a k) x
  = OK (map (trigger_row v npts trigArray) (seq 0 (length x))).
Proof.
  induction k as [|k IH]; intros a x Hak Hlen Hpre.
  - cbn. rewrite Nat.add_0_r in Hak. subst a.
    rewrite firstn_all in Hpre. rewrite Hpre at 1. reflexivity.
  - cbn [seq trigger_loop].
    destruct (nth_error trigArray a) as [[tt to]|] eqn:Ea.
    + rewrite <- (assign_from_length a (time_axis v npts (F64.add tt to)) x)
        by lia.
      apply IH.
      * rewrite assign_from_length by lia. lia.
      * rewrite assign_from_length by lia. exact Hlen.
      * rewrite assign_from_prefix by lia. rewrite Hpre.
        rewrite seq_S, map_app. cbn [map Nat.add].
        f_equal. unfold trigger_row. rewrite Ea. reflexivity.
    + apply nth_error_None in Ea. lia.
Qed.

End TriggerLoop.

Lemma zeros_ok nrows ncols :
  0 <= nrows -> 0 <= ncols ->
  zeros nrows ncols
  = OK (repeat (repeat (S754_zero false) (Z.to_nat ncols)) (Z.to_nat nrows)).
Proof.
  intros H1 H2. unfold zeros.
  destruct (Z.ltb_spec nrows 0); [lia|].
  destruct (Z.ltb_spec ncols 0); [lia|]. reflexivity.
Qed.

Lemma reshape_nth {A} nrows ncols (a : list A) rows i :
  reshape nrows ncols a = OK rows -> (i < nrows)%nat ->
  nth_error rows i = Some (firstn ncols (skipn (i * ncols) a)).
Proof.
  unfold reshape. destruct (length a =? nrows * ncols)%nat; [|discriminate].
  intros H Hi. inversion H; subst.
  apply (nth_error_map_seq (fun i => firstn ncols (skipn (i * ncols) a))).
  exact Hi.
Qed.

Lemma nth_error_chunk {A} (a : list A) ncols i j :
  (j < ncols)%nat ->
  nth_error (firstn ncols (skipn (i * ncols) a)) j
  = nth_error a (i * ncols + j).
Proof.
  intros Hj. rewrite nth_error_firstn.
  destruct (Nat.ltb_spec j ncols); [|lia].
  rewrite nth_error_skipn. reflexivity.
Qed.

Lemma total_split v :
  1 < SUBARRAY_COUNT v ->
  WAVE_ARRAY_COUNT v mod SUBARRAY_COUNT v = 0 ->
  0 <= WAVE_ARRAY_COUNT v ->
  Z.to_nat (WAVE_ARRAY_COUNT v)
  = (Z.to_nat (SUBARRAY_COUNT v)
     * Z.to_nat (WAVE_ARRAY_COUNT v / SUBARRAY_COUNT v))%nat.
Proof.
  intros Hs Hm Hc.
  rewrite <- Z2Nat.inj_mul.
  - f_equal. apply Z.div_exact in Hm; lia.
  - lia.
  - apply Z.div_pos; lia.
Qed.

Section Segmented.

Variables (data : list byte) (co : byteorder) (v : WaveDesc) (p0 : nat).

Let nrows := Z.to_nat (SUBARRAY_COUNT v).
Let ncols := Z.to_nat (WAVE_ARRAY_COUNT v / SUBARRAY_COUNT v).
Let total := Z.to_nat (WAVE_ARRAY_COUNT v).

Hypothesis segments : 1 < SUBARRAY_COUNT v.
Hypothesis even_split : WAVE_ARRAY_COUNT v mod SUBARRAY_COUNT v = 0.
Hypothesis count_nonneg : 0 <= WAVE_ARRAY_COUNT v.
Hypothesis enough :
  (p0 + nrows * 16 + total * sample_size v <= length data)%nat.

Lemma read_waveforms_segmented :
  read_waveforms co v data p0 =
  (OK (Array2 nrows ncols
         (map (trigger_row v ncols (trig_array data co v p0)) (seq 0 nrows)),
       Array2 nrows ncols
         (map (map (scale v))
              (map (fun i => firstn ncols
                               (skipn (i * ncols) (raw_samples data co v p0)))
                   (seq 0 nrows))),
       Array1 []),
   (p0 + nrows * 16 + total * sample_size v)%nat).
Proof.
  unfold read_waveforms.
  assert (Hs : (SUBARRAY_COUNT v >? 1) = true) by (apply Z.gtb_lt; lia).
  rewrite Hs, even_split. cbn [Z.eqb negb].
  assert (Hq : 0 <= WAVE_ARRAY_COUNT v / SUBARRAY_COUNT v)
    by (apply Z.div_pos; lia).
  rewrite (bind_ok _ _ _ _ _ _
    (fromfile_full 16 (trig_of_bytes co) (SUBARRAY_COUNT v) data p0
       ltac:(lia) ltac:(lia) ltac:(fold nrows; lia))).
  fold (trig_array data co v p0). fold nrows.
  unfold lift at 1. unfold bind at 1.
  rewrite zeros_ok by lia. fold nrows ncols.
  unfold lift at 1. unfold bind at 1.
  pose proof (trigger_loop_rows v ncols (trig_array data co v p0) nrows 0
                (repeat (repeat (S754_zero false) ncols) nrows)) as Hloop.
  rewrite repeat_length in Hloop.
  rewrite Hloop;
    [ | reflexivity | unfold trig_array; rewrite length_map, length_seq; lia
      | reflexivity ].
  rewrite (bind_ok _ _ _ _ _ _
    (read_samples_full data co v (p0 + nrows * 16) count_nonneg enough)).
  change (map (sample_at data co v (p0 + nrows * 16))
              (seq 0 (Z.to_nat (WAVE_ARRAY_COUNT v))))
    with (raw_samples data co v p0).
  fold total.
  unfold lift at 1. unfold bind at 1. unfold reshape.
  assert (Hl : length (raw_samples data co v p0) = (nrows * ncols)%nat).
  { unfold raw_samples. rewrite length_map, length_seq.
    apply total_split; assumption. }
  rewrite Hl, Nat.eqb_refl. reflexivity.
Qed.

End Segmented.

Lemma time_axis_length v n offset : length (time_axis v n offset) = n.
Proof. unfold time_axis. rewrite length_map, length_seq. reflexivity. Qed.

Lemma time_axis_nth v n offset j :
  (j < n)%nat ->
  nth_error (time_axis v n offset) j
  = Some (F64.add (F64.mul (F64.of_Z (Z.of_nat j))
                           (F64.of_f32 (HORIZ_INTERVAL v))) offset).
Proof.
  intros Hj. unfold time_axis.
  exact (nth_error_map_seq _ n j Hj).
Qed.

(** The time row of segment [i]: its trigger time and trigger offset are
    the doubles at [p0 + 16 i] and [p0 + 16 i + 8]. *)
Lemma trigger_row_eq data co v p0 nrows ncols i :
  (i < nrows)%nat ->
  trigger_row v ncols
    (map (fun i => trig_of_bytes co (slice data (p0 + i * 16) 16)) (seq 0 nrows)) i
  = time_axis v ncols (F64.add (f8_at data co (p0 + 16 * i))
                               (f8_at data co (p0 + 16 * i + 8))).
Proof.
  intros Hi. unfold trigger_row.
  rewrite (nth_error_map_seq
             (fun i => trig_of_bytes co (slice data (p0 + i * 16) 16)) nrows i Hi).
  unfold trig_of_bytes, f8_at.
  rewrite slice_firstn by lia. rewrite slice_skipn.
  replace (p0 + i * 16)%nat with (p0 + 16 * i)%nat by lia.
  reflexivity.
Qed.

Lemma chunk_length {A} (a : list A) nrows ncols i :
  length a = (nrows * ncols)%nat -> (i < nrows)%nat ->
  length (firstn ncols (skipn (i * ncols) a)) = ncols.
Proof.
  intros Hl Hi. rewrite length_firstn, length_skipn, Hl. nia.
Qed.

Lemma segmented_arrays_hold data co v p0 :
  1 < SUBARRAY_COUNT v ->
  WAVE_ARRAY_COUNT v mod SUBARRAY_COUNT v = 0 ->
  0 <= WAVE_ARRAY_COUNT v ->
  segmented_arrays data co v p0
    (map (trigger_row v (Z.to_nat (WAVE_ARRAY_COUNT v / SUBARRAY_COUNT v))
            (trig_array data co v p0))
         (seq 0 (Z.to_nat (SUBARRAY_COUNT v))))
    (map (map (scale v))
         (map (fun i => firstn (Z.to_nat (WAVE_ARRAY_COUNT v / SUBARRAY_COUNT v))
                 (skipn (i * Z.to_nat (WAVE_ARRAY_COUNT v / SUBARRAY_COUNT v))
                    (raw_samples data co v p0)))
              (seq 0 (Z.to_nat (SUBARRAY_COUNT v))))).
Proof.
  intros Hs Hm Hc. unfold segmented_arrays.
  set (nrows := Z.to_nat (SUBARRAY_COUNT v)).
  set (ncols := Z.to_nat (WAVE_ARRAY_COUNT v / SUBARRAY_COUNT v)).
  pose proof (total_split v Hs Hm Hc) as Ht. fold nrows ncols in Ht.
  assert (Hraw : length (raw_samples data co v p0) = (nrows * ncols)%nat).
  { unfold raw_samples. rewrite length_map, length_seq. exact Ht. }
  split; [rewrite length_map, length_seq; reflexivity|].
  split; [rewrite !length_map, length_seq; reflexivity|].
  intros i Hi.
  eexists. eexists.
  split; [apply (nth_error_map_seq _ nrows i Hi)|].
  split.
  { rewrite map_map. apply (nth_error_map_seq _ nrows i Hi). }
  unfold trig_array. fold nrows. rewrite trigger_row_eq by exact Hi.
  split; [apply time_axis_length|].
  split; [rewrite length_map; apply (chunk_length _ nrows); assumption|].
  intros j Hj. split; [apply time_axis_nth; exact Hj|].
  rewrite nth_error_map, nth_error_chunk by exact Hj.
  unfold raw_samples. fold nrows.
  rewrite (nth_error_map_seq _ (Z.to_nat (WAVE_ARRAY_COUNT v)) (i * ncols + j))
    by (rewrite Ht; nia).
  cbn [option_map]. unfold scale.
  replace (p0 + nrows * 16)%nat with (p0 + 16 * nrows)%nat by lia.
  reflexivity.
Qed.

(* ===================================================================== *)
(** ** What a decoded descriptor says about the bytes of the file *)
(* ===================================================================== *)

Lemma read_then_more data p n m :
  (p + length (slice data p n) + m <= length data)%nat -> (0 < m)%nat ->
  length (slice data p n) = n.
Proof.
  unfold slice. rewrite length_firstn, length_skipn. lia.
Qed.

Lemma slice_at data p q n : p = q -> slice data p n = slice data q n.
Proof. intros ->. reflexivity. Qed.

Lemma seek_ok_inv n data p (u : unit) p' :
  seek n data p = (OK u, p') -> p' = n.
Proof. unfold seek. intros H. inversion H. reflexivity. Qed.

Lemma ret_ok_inv {A} (a b : A) data p p' :
  ret a data p = (OK b, p') -> a = b /\ p' = p.
Proof. unfold ret. intros H. inversion H. split; reflexivity. Qed.

(** One step of a successful run: the first computation of a [bind]
    succeeded; [a] names what it returned and [Hm] what is known of it. *)
Ltac run_core H a Hm :=
  let q := fresh "q" in
  let Hl := fresh "Hlen" in
  apply bind_ok_inv in H; destruct H as (a & q & Hm & H); cbv beta in H;
  lazymatch type of Hm with
  | read _ _ _ = _ =>
      apply read_ok_inv in Hm; destruct Hm as [Hm ->]; subst a
  | seek _ _ _ = _ =>
      apply seek_ok_inv in Hm; subst q
  | lift _ _ _ = _ =>
      apply lift_ok_inv in Hm; destruct Hm as [Hm ->]
  | _ =>
      apply fromfile1_ok_inv in Hm; [destruct Hm as (Hl & -> & Hm) | lia]
  end.

Ltac run_next H :=
  let a := fresh "a" in
  let Hm := fresh "Hm" in
  run_core H a Hm.

Tactic Notation "run_step" hyp(H) "as" ident(a) ident(Hm) := run_core H a Hm.

Ltac same_slice := apply slice_at; lia.

Lemma read_wavedesc_decoded pf data k co v p :
  run (read_wavedesc pf) data = (OK (k, co, v), p) -> decoded pf data k co v p.
Proof.
  unfold run, read_wavedesc. intros H.
  run_next H.
  destruct (find b_WAVEDESC (slice data 0 32)) as [k0|] eqn:Hfind;
    [|discriminate H].
  run_step H as descriptor_name Hdescriptor.
  cbv zeta in H.
  run_next H.
  run_step H as order_code Hordercode.
  run_step H as order Horder.
  remember (if String.eqb order "LOFIRST" then LittleEndian else BigEndian)
    as co0 eqn:Hco in H.
  run_next H.
  run_next H.
  run_step H as template_name Htemplate.
  destruct (String.eqb template_name "LECROY_2_3"); cbn [negb] in H;
    [|discriminate H].
  run_step H as type_code Htypecode.
  assert (Hn1 : length (slice data (k0 + 16) 16) = 16%nat)
    by (apply read_then_more with 2%nat; lia).
  run_step H as type_label Htype.
  run_next H.
  do 10 (run_next H).
  run_next H.
  run_step H as instrument_name Hinstrument.
  run_next H.
  match type of Hinstrument with
  | context [slice data ?q 16] =>
      assert (Hn2 : length (slice data q 16) = 16%nat)
        by (apply read_then_more with 4%nat; lia)
  end.
  run_next H.
  run_step H as trace_label Htrace.
  run_next H.
  match type of Htrace with
  | context [slice data ?q 16] =>
      assert (Hn3 : length (slice data q 16) = 16%nat)
        by (apply read_then_more with 2%nat; lia)
  end.
  do 21 (run_next H).
  run_next H.
  run_step H as vertunit Hvertunit.
  run_next H.
  run_step H as horunit Hhorunit.
  run_next H.
  match type of Hhorunit with
  | context [slice data ?q 48] =>
      assert (Hn5 : length (slice data q 48) = 48%nat)
        by (apply read_then_more with 4%nat; lia)
  end.
  match type of Hvertunit with
  | context [slice data ?q 48] =>
      assert (Hn4 : length (slice data q 48) = 48%nat)
        by (apply read_then_more with 1%nat; lia)
  end.
  do 8 (run_next H).
  run_step H as record_code Hrecordcode.
  run_step H as record_label Hrecord.
  run_step H as processing_code Hprocessingcode.
  run_step H as processing_label Hprocessing.
  do 2 (run_next H).
  run_step H as timebase_code Htimebasecode.
  run_step H as timebase_label Htimebase.
  run_step H as coupling_code Hcouplingcode.
  run_step H as coupling_label Hcoupling.
  run_next H.
  run_step H as gain_code Hgaincode.
  run_step H as gain_label Hgain.
  run_step H as bandwidth_code Hbandwidthcode.
  run_step H as bandwidth_label Hbandwidth.
  do 3 (run_next H).
  apply ret_ok_inv in H. destruct H as [H Hp].
  destruct (Z.eqb_spec timebase_code 100) as [Hext|Hext];
    [discriminate Hgain|].
  injection H as Hk Hc Hv.
  subst k0 co v p.
  constructor; cbn [DESCRIPTOR_NAME TEMPLATE_NAME INSTRUMENT_NAME TRACE_LABEL
    VERTUNIT HORUNIT FILE_SIZE COMM_ORDER COMM_ORDER_INDEX COMM_TYPE
    COMM_TYPE_INDEX RECORD_TYPE RECORD_TYPE_INDEX PROCESSING_DONE
    PROCESSING_DONE_INDEX TIMEBASE TIMEBASE_INDEX VERT_COUPLING
    VERT_COUPLING_INDEX FIXED_VERT_GAIN FIXED_VERT_GAIN_INDEX
    BANDWIDTH_LIMIT BANDWIDTH_LIMIT_INDEX];
    try assumption; try reflexivity; try lia;
    try (match goal with
         | Hx : decode_utf8 _ = OK ?s |- decode_utf8 _ = OK ?s =>
             rewrite <- Hx; do 2 f_equal; same_slice
         | Hx : ?c = int_of_bytes _ _ |- ?c = int_of_bytes _ _ =>
             rewrite Hx; f_equal; same_slice
         end).
Qed.

(** A call that returns has gone through the three stages. *)
Lemma ReadBinaryTrace_ok_inv pf data w q :
  run (ReadBinaryTrace pf) data = (OK w, q) ->
  exists k co v TEXT x y1 y2 p p0,
    w = (v, TEXT, x, y1, y2)
    /\ run (read_wavedesc pf) data = (OK (k, co, v), p)
    /\ run (read_header pf) data = (OK (co, v, TEXT), p0)
    /\ read_waveforms co v data p0 = (OK (x, y1, y2), q).
Proof.
  unfold run, ReadBinaryTrace. intros H.
  apply bind_ok_inv in H. destruct H as ([[co v] TEXT] & p0 & Hh & H).
  cbv beta iota in H.
  apply bind_ok_inv in H. destruct H as ([[x y1] y2] & q' & Hw & H).
  cbv beta iota in H. apply ret_ok_inv in H. destruct H as [<- ->].
  pose proof Hh as Hh'. unfold read_header in Hh'.
  apply bind_ok_inv in Hh'. destruct Hh' as ([[k co'] v'] & p & Hd & Hh').
  cbv beta iota in Hh'.
  apply bind_ok_inv in Hh'. destruct Hh' as (t & p1 & Ht & Hh').
  cbv beta in Hh'. apply ret_ok_inv in Hh'. destruct Hh' as [Hh' _].
  injection Hh' as -> -> ->.
  exists k, co, v, TEXT, x, y1, y2, p, p0.
  repeat split; assumption.
Qed.

Lemma decoded_header pf data w q :
  run (ReadBinaryTrace pf) data = (OK w, q) ->
  exists k co p, decoded pf data k co (header_of w) p.
Proof.
  intros H. apply ReadBinaryTrace_ok_inv in H.
  destruct H as (k & co & v & TEXT & x & y1 & y2 & p & p0 & -> & Hd & _).
  exists k, co, p. apply read_wavedesc_decoded. exact Hd.
Qed.

(* ===================================================================== *)
(** ** The declared header length *)
(* ===================================================================== *)

(** C6. When every field of the descriptor has been decoded, 346 bytes
    have been consumed since the header start; if the declared
    [WAVE_DESCRIPTOR] is any other number, the call raises the
    length-mismatch error and returns nothing. *)
Theorem header_length_mismatch pf data startOffset co v p :
  run (read_wavedesc pf) data = (OK (startOffset, co, v), p) ->
  WAVE_DESCRIPTOR v <> Z.of_nat p - Z.of_nat startOffset ->
  Z.of_nat p - Z.of_nat startOffset = 346
  /\ run (ReadBinaryTrace pf) data = (Raise HeaderLengthMismatch, p).
Proof.
  intros Hw Hne. split.
  - apply read_wavedesc_decoded in Hw.
    pose proof (d_end _ _ _ _ _ _ Hw). lia.
  - unfold run in *. unfold ReadBinaryTrace. apply bind_raise.
    unfold read_header. rewrite (bind_ok _ _ _ _ _ _ Hw). cbv beta iota.
    apply bind_raise. unfold check_and_read_text, bind, tell.
    assert (Hb : (Z.of_nat p - Z.of_nat startOffset =? WAVE_DESCRIPTOR v) = false)
      by (apply Z.eqb_neq; lia).
    rewrite Hb. reflexivity.
Qed.

(* ===================================================================== *)
(** ** The file size *)
(* ===================================================================== *)

Lemma from_bytes_little_nonneg bs : 0 <= from_bytes_little bs.
Proof.
  induction bs as [|b bs IH]; cbn [from_bytes_little]; [lia|].
  pose proof (N2Z.is_nonneg (Byte.to_N b)). lia.
Qed.

(** C3, as the code has it. [FILE_SIZE] is the little-endian value of the
    bytes of the 32-byte window from index 4 up to the match (none when
    the match is at index 4 or before), plus the index [k] of the match;
    it is 0 exactly when [k = 0]. *)
Theorem file_size_from_index_4 pf data v TEXT x y1 y2 q k :
  run (ReadBinaryTrace pf) data = (OK (v, TEXT, x, y1, y2), q) ->
  find b_WAVEDESC (slice data 0 32) = Some k ->
  FILE_SIZE v = from_bytes_little (pyslice (slice data 0 32) 4 k) + Z.of_nat k
  /\ (FILE_SIZE v = 0 <-> k = 0%nat).
Proof.
  intros H Hk. apply decoded_header in H. destruct H as (k' & co & p & D).
  cbn [header_of] in D.
  pose proof (d_found _ _ _ _ _ _ D) as Hf.
  rewrite Hk in Hf. injection Hf as <-.
  pose proof (d_file_size _ _ _ _ _ _ D) as Hs.
  split; [exact Hs|].
  rewrite Hs. split.
  - pose proof (from_bytes_little_nonneg (pyslice (slice data 0 32) 4 k)). lia.
  - intros ->. reflexivity.
Qed.

(* ===================================================================== *)
(** ** The external time base *)
(* ===================================================================== *)

(** It is the code the decoder puts in the header. *)
Lemma timebase_code_decoded pf data k co v p :
  decoded pf data k co v p -> timebase_code_of data = Some (TIMEBASE_INDEX v).
Proof.
  intros D. unfold timebase_code_of.
  rewrite (d_found _ _ _ _ _ _ D), <- (d_comm_order_code _ _ _ _ _ _ D),
    (d_comm_order _ _ _ _ _ _ D).
  cbv zeta. rewrite <- (d_order _ _ _ _ _ _ D), (d_timebase_code _ _ _ _ _ _ D).
  reflexivity.
Qed.

(** C10. A file whose time base code is 100 is never decoded: the call
    ends with an exception. *)
Theorem external_timebase_aborts pf data :
  timebase_code_of data = Some 100 ->
  exists e q, run (ReadBinaryTrace pf) data = (Raise e, q).
Proof.
  intros Hc.
  destruct (run (ReadBinaryTrace pf) data) as [[w|e] q] eqn:H.
  - apply decoded_header in H. destruct H as (k & co & p & D).
    rewrite (timebase_code_decoded _ _ _ _ _ _ D) in Hc.
    pose proof (d_not_external _ _ _ _ _ _ D). congruence.
  - exists e, q. reflexivity.
Qed.

(* ===================================================================== *)
(** ** The labels of the 1-2-5 settings *)
(* ===================================================================== *)

Lemma all_from_spec f n : forall lo c,
  all_from f lo n = true -> lo <= c < lo + Z.of_nat n -> f c = true.
Proof.
  induction n as [|n IH]; intros lo c H Hc; [lia|].
  cbn [all_from] in H. apply andb_prop in H. destruct H as [H0 H1].
  destruct (Z.eq_dec c lo) as [->|Hne]; [exact H0|].
  apply (IH (lo + 1)); [exact H1 | lia].
Qed.

Lemma third_truncates_int16 :
  all_from third_truncates (-32768) (2 ^ 16) = true.
Proof. vm_compute. reflexivity. Qed.

Lemma third_quot code :
  -32768 <= code < 32768 -> third code = OK (Z.quot code 3).
Proof.
  intros Hc.
  assert (H : third_truncates code = true).
  { apply (all_from_spec _ _ _ _ third_truncates_int16).
    change (Z.of_nat (2 ^ 16)) with 65536. lia. }
  unfold third_truncates in H.
  destruct (third code) as [q|e]; [|discriminate H].
  f_equal. apply Z.eqb_eq. exact H.
Qed.

Lemma from_bytes_little_bound bs :
  0 <= from_bytes_little bs < 256 ^ Z.of_nat (length bs).
Proof.
  induction bs as [|b bs IH].
  - cbn. lia.
  - cbn [from_bytes_little length]. rewrite Nat2Z.inj_succ, Z.pow_succ_r by lia.
    assert (Hb : 0 <= Z.of_N (Byte.to_N b) < 256).
    { pose proof (Byte.to_N_bounded b). lia. }
    lia.
Qed.

Lemma in_order_length co bs : length (in_order co bs) = length bs.
Proof. destruct co; cbn; [reflexivity | apply length_rev]. Qed.

Lemma int_of_bytes_int16 co bs :
  length bs = 2%nat -> -32768 <= int_of_bytes co bs < 32768.
Proof.
  intros Hl. unfold int_of_bytes, unsigned_of_bytes, wrap_signed.
  pose proof (from_bytes_little_bound (in_order co bs)) as Hb.
  rewrite in_order_length in Hb. rewrite Hl in *.
  change (8 * Z.of_nat 2) with 16. change (256 ^ Z.of_nat 2) with 65536 in Hb.
  change (2 ^ (16 - 1)) with 32768. change (2 ^ 16) with 65536.
  destruct (Z.ltb_spec (from_bytes_little (in_order co bs)) 32768); lia.
Qed.

Lemma step_label_truncates pf code bias unit :
  -32768 <= code < 32768 ->
  step_label pf (Some [1; 2; 5]) code bias unit
  = spec_step_label pf Z.quot code bias unit.
Proof.
  intros Hc. unfold step_label, spec_step_label, spec_step_value.
  rewrite (third_quot code Hc). cbn [rbind].
  pose proof (Z.mod_pos_bound code 3 ltac:(lia)) as Hm.
  assert (Hcases : code mod 3 = 0 \/ code mod 3 = 1 \/ code mod 3 = 2) by lia.
  destruct Hcases as [-> | [-> | ->]]; reflexivity.
Qed.

Lemma spec_step_label_nonneg pf code bias unit :
  0 <= code ->
  spec_step_label pf Z.quot code bias unit
  = spec_step_label pf Z.div code bias unit.
Proof.
  intros Hc. unfold spec_step_label, spec_step_value.
  rewrite Z.quot_div_nonneg by lia. reflexivity.
Qed.

(** C5, as the code has it. In every decoded header the label [TIMEBASE]
    is "EXTERNAL" when the time base code is 100, and otherwise the
    formatted value of [{1,2,5}[code mod 3] * 10^(t - 12)], the horizontal
    unit and "/div"; the label [FIXED_VERT_GAIN] is the formatted value of
    [{1,2,5}[code mod 3] * 10^(t - 6)], the vertical unit and "/div".  In
    both [t] is [code/3] truncated toward zero, which is the floor of
    [code/3] when the code is not negative. *)
Theorem step_labels_truncate pf data v TEXT x y1 y2 q :
  run (ReadBinaryTrace pf) data = (OK (v, TEXT, x, y1, y2), q) ->
  step_labels_truncated pf v.
Proof.
  intros H. unfold step_labels_truncated.
  apply decoded_header in H. destruct H as (k & co & p & D).
  cbn [header_of] in D.
  pose proof (d_size _ _ _ _ _ _ D) as Hsize.
  pose proof (d_timebase _ _ _ _ _ _ D) as Htb.
  pose proof (d_fixed_vert_gain _ _ _ _ _ _ D) as Hfg.
  assert (Ht : -32768 <= TIMEBASE_INDEX v < 32768).
  { rewrite (d_timebase_code _ _ _ _ _ _ D). apply int_of_bytes_int16.
    apply slice_length. lia. }
  assert (Hg : -32768 <= FIXED_VERT_GAIN_INDEX v < 32768).
  { rewrite (d_fixed_vert_gain_code _ _ _ _ _ _ D). apply int_of_bytes_int16.
    apply slice_length. lia. }
  rewrite step_label_truncates in Htb by exact Ht.
  rewrite step_label_truncates in Hfg by exact Hg.
  unfold spec_timebase_label.
  destruct (Z.eqb_spec (TIMEBASE_INDEX v) 100) as [Hext|_];
    [destruct (d_not_external _ _ _ _ _ _ D Hext)|].
  split; [exact Htb|]. split; [exact Hfg|]. split.
  - intros Hn. rewrite <- spec_step_label_nonneg by exact Hn. exact Htb.
  - intros Hn. rewrite <- spec_step_label_nonneg by exact Hn. exact Hfg.
Qed.

(* ===================================================================== *)
(** ** The codes of the enumerated fields *)
(* ===================================================================== *)

Lemma tuple_index_raises {A} (t : list A) i :
  i < - Z.of_nat (length t) \/ Z.of_nat (length t) <= i ->
  tuple_index t i = Raise EnumOutOfRange.
Proof.
  intros H. unfold tuple_index.
  destruct (Z.ltb_spec i 0).
  - destruct (Z.leb_spec 0 (i + Z.of_nat (length t))); [lia|]. reflexivity.
  - destruct (Z.leb_spec 0 i); [|reflexivity].
    destruct (Z.ltb_spec i (Z.of_nat (length t))); [lia|]. reflexivity.
Qed.

Lemma tuple_index_ok_inv {A} (t : list A) i x :
  tuple_index t i = OK x ->
  - Z.of_nat (length t) <= i < Z.of_nat (length t)
  /\ nth_error t (Z.to_nat (i mod Z.of_nat (length t))) = Some x.
Proof.
  unfold tuple_index. intros H.
  set (n := Z.of_nat (length t)) in *.
  destruct (Z.ltb_spec i 0).
  - destruct (Z.leb_spec 0 (i + n)); [|discriminate H].
    destruct (Z.ltb_spec (i + n) n); [|discriminate H]. cbn [andb] in H.
    destruct (nth_error t (Z.to_nat (i + n))) eqn:E; [|discriminate H].
    injection H as ->. split; [lia|].
    replace (i mod n) with (i + n); [exact E|].
    apply Z.mod_unique with (q := -1); lia.
  - destruct (Z.leb_spec 0 i); [|lia].
    destruct (Z.ltb_spec i n); [|discriminate H]. cbn [andb] in H.
    destruct (nth_error t (Z.to_nat i)) eqn:E; [|discriminate H].
    injection H as ->. split; [lia|].
    rewrite Z.mod_small by lia. exact E.
Qed.

Lemma overwrite_length data o bs :
  (o + length bs <= length data)%nat ->
  length (overwrite data o bs) = length data.
Proof.
  intros H. unfold overwrite.
  rewrite !length_app, length_firstn, length_skipn. lia.
Qed.

Lemma slice_overwrite_outside data o bs p n :
  (o + length bs <= length data)%nat ->
  (p + n <= o \/ o + length bs <= p)%nat ->
  slice (overwrite data o bs) p n = slice data p n.
Proof.
  intros Hlen [H|H]; unfold slice, overwrite.
  - rewrite skipn_app, firstn_app.
    rewrite length_skipn, !length_firstn.
    replace (n - (Nat.min o (length data) - p))%nat with 0%nat by lia.
    rewrite firstn_0, app_nil_r.
    rewrite skipn_firstn_comm, firstn_firstn.
    f_equal. lia.
  - rewrite app_assoc, skipn_app.
    rewrite (skipn_all2 (firstn o data ++ bs))
      by (rewrite length_app, length_firstn; lia).
    rewrite length_app, length_firstn. cbn [app].
    rewrite skipn_skipn. do 2 f_equal. lia.
Qed.

Lemma slice_overwrite_at data o bs :
  (o + length bs <= length data)%nat ->
  slice (overwrite data o bs) o (length bs) = bs.
Proof.
  intros Hlen. unfold slice, overwrite.
  rewrite skipn_app, length_firstn.
  rewrite (skipn_all2 (firstn o data)) by (rewrite length_firstn; lia).
  replace (o - Nat.min o (length data))%nat with 0%nat by lia.
  cbn [app skipn]. rewrite firstn_app, Nat.sub_diag, firstn_0, app_nil_r.
  apply firstn_all.
Qed.

(** A computation that reads outside the overwritten bytes does not see
    them. *)
Lemma read_frame data data' p n :
  slice data' p n = slice data p n -> read n data' p = read n data p.
Proof. unfold read. intros ->. reflexivity. Qed.

Lemma fromfile1_frame {A} size (dec : list byte -> A) data data' p :
  length data' = length data ->
  slice data' p size = slice data p size ->
  fromfile1 size dec data' p = fromfile1 size dec data p.
Proof.
  intros Hl Hs. unfold fromfile1, bind, fromfile.
  change (1 <? 0) with false. cbv beta iota zeta.
  change (Z.to_nat 1) with 1%nat. rewrite Hl.
  destruct ((length data - p) / size)%nat as [|a].
  - reflexivity.
  - change (Nat.min 1 (S a)) with 1%nat.
    cbn [seq map]. rewrite Nat.mul_0_l, Nat.add_0_r, Hs. reflexivity.
Qed.

Lemma bind_ok_goal {A B} (m : io A) (k : A -> io B) data p a q X :
  m data p = (OK a, q) -> k a data q = X -> bind m k data p = X.
Proof. intros Hm Hk. rewrite (bind_ok _ _ _ _ _ _ Hm). exact Hk. Qed.

(** One step of two runs side by side: [H] is a successful run on [data],
    the goal is a run of the same computation on a file that differs from
    [data] only in bytes that the step does not read. *)
Ltac learn_step Hm :=
  let Hl := fresh "Hlen" in
  lazymatch type of Hm with
  | read ?n ?d ?p = _ =>
      apply read_ok_inv in Hm; destruct Hm as [-> ->];
      pose proof (slice_length_le d p n)
  | seek _ _ _ = _ =>
      apply seek_ok_inv in Hm;
      match type of Hm with ?x = _ => subst x end
  | lift _ _ _ = _ =>
      apply lift_ok_inv in Hm; destruct Hm as [Hm ->]
  | _ ?d ?p = _ =>
      apply fromfile1_ok_inv in Hm; [destruct Hm as (Hl & -> & ->) | lia];
      repeat match goal with
      | Hold : (_ <= length d)%nat |- _ =>
          lazymatch Hold with Hl => fail | _ => clear Hold end
      end
  end.

Ltac note_lengths :=
  repeat match goal with
  | Hl : (?e <= length ?d)%nat |- _ =>
      match e with
      | context [length (slice d ?q ?n)] =>
          lazymatch goal with
          | _ : length (slice d q n) = n |- _ => fail
          | _ => assert (length (slice d q n) = n)
                   by (apply read_then_more with 1%nat; lia)
          end
      end
  end.

Ltac frame_step Hsame Hframe :=
  lazymatch goal with
  | |- read _ _ _ = _ => apply read_frame; apply Hframe; lia
  | |- seek _ _ _ = _ => reflexivity
  | |- lift _ _ _ = _ => reflexivity
  | |- _ => apply fromfile1_frame; [exact Hsame | apply Hframe; lia]
  end.

Ltac sync H Hsame Hframe :=
  let a := fresh "a" in
  let q := fresh "q" in
  let Hm := fresh "Hm" in
  let Hm0 := fresh "Hm0" in
  apply bind_ok_inv in H; destruct H as (a & q & Hm & H); cbv beta in H;
  pose proof Hm as Hm0;
  learn_step Hm; note_lengths;
  (eapply bind_ok_goal;
   [ etransitivity; [ frame_step Hsame Hframe | exact Hm0 ] | cbv beta ]);
  clear Hm0.


(** The step that reads the overwritten code: the code is read, and the
    tuple of labels rejects it. *)
Ltac rejected Hsame Hat Hout :=
  unfold read_i2;
  (eapply bind_ok_goal;
   [ apply fromfile1_run; [lia | rewrite Hsame; lia] | cbv beta ]);
  apply bind_raise; unfold lift;
  match goal with
  | |- context [slice ?d ?q 2] =>
      match type of Hat with
      | slice d ?q' 2 = _ => rewrite (slice_at d q q' 2) by lia
      end
  end;
  rewrite Hat; f_equal; [ | lia ];
  f_equal; apply tuple_index_raises; exact Hout.

Lemma overwritten_code_raises pf data k v p (f : enum_field) (b1 b2 : byte) :
  run (read_wavedesc pf) data = (OK (k, order_of v, v), p) ->
  let c := int_of_bytes (enum_order f (order_of v)) [b1; b2] in
  c < - Z.of_nat (length (enum_labels f))
  \/ Z.of_nat (length (enum_labels f)) <= c ->
  read_wavedesc pf (overwrite data (k + enum_offset f) [b1; b2]) 0%nat
  = (Raise EnumOutOfRange, (k + enum_offset f + 2)%nat).
Proof.
  intros run_ok c Hout. subst c.
  pose proof (read_wavedesc_decoded _ _ _ _ _ _ run_ok) as D.
  pose proof (d_found _ _ _ _ _ _ D) as Hfind.
  assert (Hsize : (length data >= k + 346)%nat)
    by (pose proof (d_size _ _ _ _ _ _ D); lia).
  pose proof (d_comm_order _ _ _ _ _ _ D) as Hlabel.
  rewrite (d_comm_order_code _ _ _ _ _ _ D) in Hlabel.
  clear D.
  remember (enum_offset f) as o eqn:Heqo.
  set (data' := overwrite data (k + o) [b1; b2]).
  assert (Ho : (o = 32 \/ o = 34 \/ o = 316 \/ o = 318 \/ o = 326 \/ o = 334)%nat)
    by (subst o; destruct f; cbn; lia).
  assert (Hsame : length data' = length data)
    by (apply overwrite_length; cbn [length]; lia).
  assert (Hframe : forall q n, (q + n <= k + o \/ k + o + 2 <= q)%nat ->
                               slice data' q n = slice data q n).
  { intros q n Hq. apply slice_overwrite_outside; cbn [length]; lia. }
  assert (Hat : slice data' (k + o) 2 = [b1; b2])
    by (apply (slice_overwrite_at data (k + o) [b1; b2]); cbn [length]; lia).
  clearbody data'.
  pose proof run_ok as H. unfold run, read_wavedesc in H.
  unfold read_wavedesc.
  sync H Hsame Hframe.
  rewrite Hfind in H |- *.
  sync H Hsame Hframe.
  cbv zeta in H |- *.
  sync H Hsame Hframe.
  (* COMM_ORDER *)
  destruct (Nat.eq_dec o 34) as [Heq|Hne].
  { destruct f; cbn [enum_offset] in Heqo; try lia.
    cbn [enum_order enum_labels] in Hout. rejected Hsame Hat Hout. }
  sync H Hsame Hframe.
  sync H Hsame Hframe.
  match goal with
  | Hm : tuple_index COMM_ORDER_labels _ = OK ?order |- _ =>
      rewrite Hlabel in Hm; injection Hm as <-
  end.
  fold (order_of v) in H |- *.
  do 3 (sync H Hsame Hframe).
  match type of H with
  | context [String.eqb ?s "LECROY_2_3"] =>
      destruct (String.eqb s "LECROY_2_3"); cbn [negb] in H |- *;
        [|discriminate H]
  end.
  (* COMM_TYPE *)
  destruct (Nat.eq_dec o 32) as [Heq|Hne'].
  { destruct f; cbn [enum_offset] in Heqo; try lia.
    cbn [enum_order enum_labels] in Hout.
    apply bind_ok_inv in H. destruct H as (a' & q' & Hm' & _).
    apply fromfile1_ok_inv in Hm'; [|lia]. destruct Hm' as (Hl & _ & _).
    note_lengths.
    rejected Hsame Hat Hout. }
  do 53 (sync H Hsame Hframe).
  (* RECORD_TYPE *)
  destruct (Nat.eq_dec o 316) as [Heq|Hne1].
  { destruct f; cbn [enum_offset] in Heqo; try lia.
    cbn [enum_order enum_labels] in Hout. rejected Hsame Hat Hout. }
  do 2 (sync H Hsame Hframe).
  (* PROCESSING_DONE *)
  destruct (Nat.eq_dec o 318) as [Heq|Hne2].
  { destruct f; cbn [enum_offset] in Heqo; try lia.
    cbn [enum_order enum_labels] in Hout. rejected Hsame Hat Hout. }
  do 6 (sync H Hsame Hframe).
  (* VERT_COUPLING *)
  destruct (Nat.eq_dec o 326) as [Heq|Hne3].
  { destruct f; cbn [enum_offset] in Heqo; try lia.
    cbn [enum_order enum_labels] in Hout. rejected Hsame Hat Hout. }
  do 5 (sync H Hsame Hframe).
  (* BANDWIDTH_LIMIT *)
  destruct f; cbn [enum_offset] in Heqo; try lia.
  cbn [enum_order enum_labels] in Hout. rejected Hsame Hat Hout.
Qed.

Lemma enum_decoded pf data k co v p (f : enum_field) :
  decoded pf data k co v p ->
  co = order_of v
  /\ enum_code f v
     = int_of_bytes (enum_order f (order_of v)) (slice data (k + enum_offset f) 2)
  /\ tuple_index (enum_labels f) (enum_code f v) = OK (enum_label f v).
Proof.
  intros D. pose proof (d_order _ _ _ _ _ _ D) as Hco.
  fold (order_of v) in Hco. split; [exact Hco|]. rewrite <- Hco.
  destruct D, f; cbn [enum_code enum_order enum_offset enum_labels enum_label];
    split; assumption.
Qed.

(** C4, as the code has it. In a decoded header the code of each of the
    six enumerated fields lies in [-n, n), [n] being the number of labels,
    and its label is the one at index [code mod n]: a negative code down
    to [-n] is accepted and counts from the end of the tuple.  Writing any
    code outside [-n, n) in the field of a file that decodes makes the
    call fail with the out-of-range error as soon as the code is read. *)
Theorem enum_code_out_of_range pf data v TEXT x y1 y2 q k
    (f : enum_field) (b1 b2 : byte) :
  run (ReadBinaryTrace pf) data = (OK (v, TEXT, x, y1, y2), q) ->
  find b_WAVEDESC (slice data 0 32) = Some k ->
  let n := Z.of_nat (length (enum_labels f)) in
  let c := int_of_bytes (enum_order f (order_of v)) [b1; b2] in
  c < - n \/ n <= c ->
  (enum_code f v
   = int_of_bytes (enum_order f (order_of v)) (slice data (k + enum_offset f) 2)
   /\ - n <= enum_code f v < n
   /\ nth_error (enum_labels f) (Z.to_nat (enum_code f v mod n))
      = Some (enum_label f v))
  /\ run (ReadBinaryTrace pf) (overwrite data (k + enum_offset f) [b1; b2])
     = (Raise EnumOutOfRange, (k + enum_offset f + 2)%nat).
Proof.
  intros H Hk n c Hc.
  apply ReadBinaryTrace_ok_inv in H.
  destruct H as (k' & co & v' & TEXT' & x' & y1' & y2' & p & p0 & E & Hd & _).
  injection E as <- <- <- <- <-.
  pose proof (read_wavedesc_decoded _ _ _ _ _ _ Hd) as D.
  pose proof (d_found _ _ _ _ _ _ D) as Hfind.
  rewrite Hk in Hfind. injection Hfind as <-.
  destruct (enum_decoded _ _ _ _ _ _ f D) as (Hco & Hcode & Hlabel).
  split.
  - split; [exact Hcode|]. apply tuple_index_ok_inv. exact Hlabel.
  - subst co. unfold run, ReadBinaryTrace. apply bind_raise.
    unfold read_header. apply bind_raise.
    apply (overwritten_code_raises pf data k v p f b1 b2 Hd). exact Hc.
Qed.

(* ===================================================================== *)
(** ** The decoded arrays *)
(* ===================================================================== *)

Lemma read_waveforms_single data co v p0 :
  SUBARRAY_COUNT v <= 1 ->
  0 <= WAVE_ARRAY_COUNT v ->
  let n := Z.to_nat (WAVE_ARRAY_COUNT v) in
  (p0 + channels v * (n * sample_size v) <= length data)%nat ->
  read_waveforms co v data p0 =
  (OK (Array1 (time_axis v n (HORIZ_OFFSET v)),
       Array1 (map (scale v) (map (sample_at data co v p0) (seq 0 n))),
       Array1 (if WAVE_ARRAY_2 v >? 0
               then map (scale v)
                      (map (sample_at data co v (p0 + n * sample_size v))
                           (seq 0 n))
               else [])),
   (p0 + channels v * (n * sample_size v))%nat).
Proof.
  intros Hs Hc n Hlen. unfold read_waveforms.
  assert (Hs' : (SUBARRAY_COUNT v >? 1) = false).
  { destruct (Z.gtb_spec (SUBARRAY_COUNT v) 1); [lia | reflexivity]. }
  rewrite Hs'. unfold channels in *.
  pose proof (read_samples_full data co v p0 Hc) as R1.
  pose proof (read_samples_full data co v (p0 + n * sample_size v) Hc) as R2.
  fold n in R1, R2 |- *. clearbody n.
  destruct (WAVE_ARRAY_2 v >? 0); cbv iota in Hlen |- *.
  - assert (E1 : (p0 + n * sample_size v <= length data)%nat) by lia.
    assert (E2 : (p0 + n * sample_size v + n * sample_size v
                  <= length data)%nat) by lia.
    rewrite (bind_ok _ _ _ _ _ _ (R1 E1)).
    unfold bind at 1.
    rewrite (bind_ok _ _ _ _ _ _ (R2 E2)).
    unfold ret. f_equal. lia.
  - assert (E1 : (p0 + n * sample_size v <= length data)%nat) by lia.
    rewrite (bind_ok _ _ _ _ _ _ (R1 E1)).
    unfold bind, ret. f_equal. lia.
Qed.

(** C2, as the code has it. A single sweep (segment count at most 1) of
    a non-negative number of samples, in a file that holds them for each
    channel: the primary channel is the samples scaled as
    [raw * VERTICAL_GAIN - VERTICAL_OFFSET]; the secondary channel is empty
    when [WAVE_ARRAY_2 <= 0] and otherwise has the count and the width of
    the primary one, is read right after it and scaled by the same rule;
    the time array is one-dimensional with entry [j] equal to
    [j * HORIZ_INTERVAL + HORIZ_OFFSET]. *)
Theorem single_sweep_arrays pf data co v TEXT p0 :
  run (read_header pf) data = (OK (co, v, TEXT), p0) ->
  SUBARRAY_COUNT v <= 1 ->
  0 <= WAVE_ARRAY_COUNT v ->
  (p0 + channels v * (Z.to_nat (WAVE_ARRAY_COUNT v) * sample_size v)
   <= length data)%nat ->
  single_sweep_result pf data co v TEXT p0.
Proof.
  intros Hh Hs Hc Hlen. unfold single_sweep_result.
  set (n := Z.to_nat (WAVE_ARRAY_COUNT v)) in *.
  pose proof (read_waveforms_single data co v p0 Hs Hc Hlen) as Hw.
  fold n in Hw.
  eexists. eexists. eexists. eexists.
  split.
  { unfold run in *. unfold ReadBinaryTrace.
    rewrite (bind_ok _ _ _ _ _ _ Hh). cbv beta iota.
    rewrite (bind_ok _ _ _ _ _ _ Hw). cbv beta iota. reflexivity. }
  split; [apply time_axis_length|].
  split; [rewrite !length_map, length_seq; reflexivity|].
  split.
  { intros j Hj. split; [apply time_axis_nth; exact Hj|].
    rewrite map_map.
    apply (nth_error_map_seq
             (fun x => scale v (sample_at data co v p0 x)) n j Hj). }
  split.
  { intros H2. destruct (Z.gtb_spec (WAVE_ARRAY_2 v) 0); [lia | reflexivity]. }
  intros H2. destruct (Z.gtb_spec (WAVE_ARRAY_2 v) 0); [|lia].
  split; [rewrite !length_map, length_seq; reflexivity|].
  intros j Hj. rewrite map_map.
  apply (nth_error_map_seq
           (fun x => scale v (sample_at data co v (p0 + n * sample_size v) x))
           n j Hj).
Qed.

Lemma read_header_decoded pf data co v TEXT p0 :
  run (read_header pf) data = (OK (co, v, TEXT), p0) ->
  exists k p, decoded pf data k co v p.
Proof.
  unfold run, read_header. intros H.
  apply bind_ok_inv in H. destruct H as ([[k co'] v'] & p & Hd & H).
  cbv beta iota in H.
  apply bind_ok_inv in H. destruct H as (t & p1 & Ht & H).
  cbv beta in H. apply ret_ok_inv in H. destruct H as [H _].
  injection H as -> -> ->.
  exists k, p. apply read_wavedesc_decoded. exact Hd.
Qed.

Lemma comm_type_decoded pf data k co v p :
  decoded pf data k co v p -> comm_type_cases v.
Proof.
  intros D. pose proof (d_comm_type _ _ _ _ _ _ D) as Hl.
  destruct (tuple_index_ok_inv _ _ _ Hl) as [Hr _].
  change (Z.of_nat (length COMM_TYPE_labels)) with 2 in Hr.
  unfold comm_type_cases, sample_size.
  assert (Hcases : COMM_TYPE_INDEX v = 0 \/ COMM_TYPE_INDEX v = 1
                   \/ COMM_TYPE_INDEX v = -1 \/ COMM_TYPE_INDEX v = -2) by lia.
  destruct Hcases as [E | [E | [E | E]]]; rewrite E in *; cbn in Hl;
    injection Hl as <-; cbn; tauto.
Qed.

(** C1, as the code has it. A sequence of more than one segment whose
    count divides a non-negative sample count, in a file that holds the
    trigger records and the samples: both arrays have shape
    (segments, samples per segment); the time at row [i], column [j] is
    [j * HORIZ_INTERVAL + (trigger_time i + trigger_offset i)], the two
    doubles of the [i]-th record after the user text; the amplitudes are
    the samples that follow the records, row after row, each scaled as
    [raw * VERTICAL_GAIN - VERTICAL_OFFSET]; samples are one byte wide
    when the communication-type code is 0 and two bytes wide for every
    other accepted code, -2 with its label "byte" included; there is no
    secondary channel. *)
Theorem segmented_arrays_decoded pf data co v TEXT p0 :
  run (read_header pf) data = (OK (co, v, TEXT), p0) ->
  1 < SUBARRAY_COUNT v ->
  WAVE_ARRAY_COUNT v mod SUBARRAY_COUNT v = 0 ->
  0 <= WAVE_ARRAY_COUNT v ->
  (p0 + Z.to_nat (SUBARRAY_COUNT v) * 16
   + Z.to_nat (WAVE_ARRAY_COUNT v) * sample_size v <= length data)%nat ->
  segmented_result pf data co v TEXT p0.
Proof.
  intros Hh Hs Hm Hc Hlen. unfold segmented_result.
  pose proof (read_waveforms_segmented data co v p0 Hs Hm Hc Hlen) as Hw.
  eexists. eexists. eexists.
  split.
  { unfold run in *. unfold ReadBinaryTrace.
    rewrite (bind_ok _ _ _ _ _ _ Hh). cbv beta iota.
    rewrite (bind_ok _ _ _ _ _ _ Hw). cbv beta iota. reflexivity. }
  split; [apply segmented_arrays_hold; assumption|].
  destruct (read_header_decoded _ _ _ _ _ _ Hh) as (k & p & D).
  exact (comm_type_decoded _ _ _ _ _ _ D).
Qed.

(* ===================================================================== *)
(** ** The prefix table of [float2eng] *)
(* ===================================================================== *)

Lemma engineering_exponent_range ex :
  -24 <= engineering_exponent ex <= 24
  /\ engineering_exponent ex mod 3 = 0
  /\ (-24 <= ex < 27 -> engineering_exponent ex = 3 * (ex / 3)).
Proof.
  unfold engineering_exponent.
  pose proof (Z.div_mod ex 3 ltac:(lia)) as Hd.
  pose proof (Z.mod_pos_bound ex 3 ltac:(lia)) as Hb.
  replace (ex - ex mod 3) with (3 * (ex / 3)) by lia.
  destruct (Z.ltb_spec (3 * (ex / 3)) (-24));
    [|destruct (Z.gtb_spec (3 * (ex / 3)) 24)].
  - repeat split; try lia; reflexivity.
  - repeat split; try lia; reflexivity.
  - repeat split; try lia.
    rewrite Z.mul_comm. apply Z.mod_mul. lia.
Qed.

(** Lines 36-39: the index [int((exeng+24)/3)] stays inside the string of
    prefixes, and the prefix found is the one of the table. *)
Lemma prefix_lookup ex :
  rbind (rbind (PyNum.truediv (PyInt (engineering_exponent ex + 24)) (PyInt 3))
               PyNum.to_int)
        (fun id => if id =? 8 then OK EmptyString
                   else PyNum.str_index "yzafpnum kMGTPEZY" id)
  = OK (si_prefix (engineering_exponent ex)).
Proof.
  destruct (engineering_exponent_range ex) as (Hr & Hm & _).
  set (e := engineering_exponent ex) in *.
  assert (He : exists t, e = 3 * t /\ -8 <= t <= 8).
  { exists (e / 3). pose proof (Z.div_mod e 3 ltac:(lia)). lia. }
  destruct He as (t & -> & Ht).
  assert (Hcases : t = -8 \/ t = -7 \/ t = -6 \/ t = -5 \/ t = -4 \/ t = -3
                   \/ t = -2 \/ t = -1 \/ t = 0 \/ t = 1 \/ t = 2 \/ t = 3
                   \/ t = 4 \/ t = 5 \/ t = 6 \/ t = 7 \/ t = 8) by lia.
  repeat (destruct Hcases as [-> | Hcases]; [vm_compute; reflexivity|]).
  subst t. vm_compute. reflexivity.
Qed.

(** [float2eng] is the mantissa [f / 10**exeng] under ['%g'], a space and
    the prefix of the clamped exponent, whenever the logarithm and the
    division give a value. *)
Lemma float2eng_shape pf f :
  float2eng pf f
  = rbind (if PyNum.nonzero f
           then rbind (math_log pf (PyNum.abs f) (PyInt 10)) PyNum.floor
           else OK 0) (fun ex =>
    rbind (PyNum.truediv f (PyNum.int_pow pf 10 (engineering_exponent ex)))
          (fun mant =>
    OK (PyNum.fmt_g mant ++ " " ++ si_prefix (engineering_exponent ex))%string)).
Proof.
  unfold float2eng.
  destruct (if PyNum.nonzero f
            then rbind (math_log pf (PyNum.abs f) (PyInt 10)) PyNum.floor
            else OK 0) as [ex|e]; [|reflexivity].
  cbn [rbind]. fold (engineering_exponent ex).
  destruct (PyNum.truediv f (PyNum.int_pow pf 10 (engineering_exponent ex)))
    as [mant|e]; [|reflexivity].
  cbn [rbind]. pose proof (prefix_lookup ex) as Hp.
  cbn zeta.
  destruct (rbind (PyNum.truediv (PyInt (engineering_exponent ex + 24))
                     (PyInt 3)) PyNum.to_int) as [id|e];
    cbn [rbind] in Hp |- *; [rewrite Hp; reflexivity | discriminate Hp].
Qed.

(** Zero has exponent 0 on every platform. *)
Lemma float2eng_zero pf :
  float2eng pf (PyFloat (S754_zero false)) = OK "0 "%string.
Proof. reflexivity. Qed.

(** On the reference platform: 1500, 1e-9, 1e30 and 1e-30 as the
    specification gives them; 1000, whose logarithm in base 10 is computed
    as 2.9999999999999996; and the infinities, which have no floor. *)
Example float2eng_reference :
  let f2e := float2eng RefPlatform.ref in
  let ratio n d := PyFloat (PyNum.round_ratio false n d) in
  f2e (ratio 1500 1) = OK "1.5 k"%string
  /\ f2e (ratio 1 (10 ^ 9)) = OK "1 n"%string
  /\ f2e (ratio (10 ^ 30) 1) = OK "1e+06 Y"%string
  /\ f2e (ratio 1 (10 ^ 30)) = OK "1e-06 y"%string
  /\ f2e (ratio 1000 1) = OK "1000 "%string
  /\ f2e (PyFloat (S754_infinity true)) = Raise OverflowError.
Proof. vm_compute. repeat split; reflexivity. Qed.

(* ===================================================================== *)
(** ** The theorems on the example files *)
(* ===================================================================== *)

(** Evaluates the left-hand side of an equation and reads the right-hand
    side off the result. *)
Ltac evaluate :=
  lazymatch goal with
  | |- ?l = _ =>
      let r := eval vm_compute in l in
      transitivity r; [vm_compute; reflexivity | reflexivity]
  end.

Import Examples.

Lemma uneven_split_reads_nothing_witness :
  exists co v TEXT,
    run (read_header RefPlatform.ref) uneven_file = (OK (co, v, TEXT), 346%nat)
    /\ 1 < SUBARRAY_COUNT v
    /\ WAVE_ARRAY_COUNT v mod SUBARRAY_COUNT v <> 0
    /\ run (ReadBinaryTrace RefPlatform.ref) uneven_file
       = (Raise UnevenSegmentSplit, 346%nat).
Proof.
  do 3 eexists.
  split; [evaluate|].
  split; [vm_compute; reflexivity|].
  split; [vm_compute; discriminate|].
  eapply (uneven_split_reads_nothing RefPlatform.ref uneven_file);
    [evaluate | vm_compute; reflexivity | vm_compute; discriminate].
Defined.

Lemma header_length_mismatch_witness :
  exists co v,
    run (read_wavedesc RefPlatform.ref) short_header_file
    = (OK (0%nat, co, v), 346%nat)
    /\ WAVE_DESCRIPTOR v <> Z.of_nat 346 - Z.of_nat 0
    /\ Z.of_nat 346 - Z.of_nat 0 = 346
    /\ run (ReadBinaryTrace RefPlatform.ref) short_header_file
       = (Raise HeaderLengthMismatch, 346%nat).
Proof.
  do 2 eexists.
  split; [evaluate|].
  split; [vm_compute; discriminate|].
  eapply (header_length_mismatch RefPlatform.ref short_header_file);
    [evaluate | vm_compute; discriminate].
Defined.

Lemma external_timebase_aborts_witness :
  timebase_code_of external_file = Some 100
  /\ exists e q,
       run (ReadBinaryTrace RefPlatform.ref) external_file = (Raise e, q).
Proof.
  split; [vm_compute; reflexivity|].
  apply (external_timebase_aborts RefPlatform.ref external_file).
  vm_compute. reflexivity.
Defined.

(** The exception is the unbound [divisions], raised once the code of the
    fixed vertical gain has been read. *)
Example external_timebase_unbound :
  run (ReadBinaryTrace RefPlatform.ref) external_file
  = (Raise UnboundLocalError, 334%nat).
Proof. vm_compute. reflexivity. Qed.

Lemma file_size_from_index_4_witness :
  exists v TEXT x y1 y2 q,
    run (ReadBinaryTrace RefPlatform.ref) prefixed_file
    = (OK (v, TEXT, x, y1, y2), q)
    /\ find b_WAVEDESC (slice prefixed_file 0 32) = Some 11%nat
    /\ FILE_SIZE v
       = from_bytes_little (pyslice (slice prefixed_file 0 32) 4 11)
         + Z.of_nat 11
    /\ (FILE_SIZE v = 0 <-> 11%nat = 0%nat).
Proof.
  do 6 eexists.
  split; [evaluate|].
  split; [vm_compute; reflexivity|].
  eapply (file_size_from_index_4 RefPlatform.ref prefixed_file);
    [evaluate | vm_compute; reflexivity].
Defined.

(** C3, as stated, fails on a file behind a block header: the size is not
    the value of all the eleven bytes before the match, plus 11. *)
Lemma file_size_skips_four_bytes :
  exists v TEXT x y1 y2 q,
    run (ReadBinaryTrace RefPlatform.ref) prefixed_file
    = (OK (v, TEXT, x, y1, y2), q)
    /\ find b_WAVEDESC (slice prefixed_file 0 32) = Some 11%nat
    /\ FILE_SIZE v
       <> from_bytes_little (pyslice (slice prefixed_file 0 32) 0 11)
          + Z.of_nat 11.
Proof.
  do 6 eexists.
  split; [evaluate|].
  split; [vm_compute; reflexivity|].
  vm_compute. discriminate.
Qed.

Lemma step_labels_truncate_witness :
  exists v TEXT x y1 y2 q,
    run (ReadBinaryTrace RefPlatform.ref) negative_timebase_file
    = (OK (v, TEXT, x, y1, y2), q)
    /\ step_labels_truncated RefPlatform.ref v.
Proof.
  do 6 eexists.
  split; [evaluate|].
  eapply (step_labels_truncate RefPlatform.ref negative_timebase_file).
  evaluate.
Defined.

(** C5, as stated, fails on the time base code -1: the label is that of
    [5 * 10^-12], the floor of [-1/3] would give [5 * 10^-13]. *)
Lemma negative_timebase_not_floored :
  exists v TEXT x y1 y2 q,
    run (ReadBinaryTrace RefPlatform.ref) negative_timebase_file
    = (OK (v, TEXT, x, y1, y2), q)
    /\ TIMEBASE_INDEX v = -1
    /\ TIMEBASE v = "5 pS/div"%string
    /\ spec_timebase_label RefPlatform.ref Z.div (TIMEBASE_INDEX v) (HORUNIT v)
       = OK "500 fS/div"%string.
Proof.
  do 6 eexists.
  split; [evaluate|].
  vm_compute. repeat split; reflexivity.
Qed.

Lemma enum_code_out_of_range_witness :
  exists v TEXT x y1 y2 q,
    run (ReadBinaryTrace RefPlatform.ref) sweep_file
    = (OK (v, TEXT, x, y1, y2), q)
    /\ find b_WAVEDESC (slice sweep_file 0 32) = Some 0%nat
    /\ (let n := Z.of_nat (length (enum_labels RecordType)) in
        let c := int_of_bytes (enum_order RecordType (order_of v)) [x0a; x00] in
        (c < - n \/ n <= c)
        /\ (enum_code RecordType v
            = int_of_bytes (enum_order RecordType (order_of v))
                (slice sweep_file (0 + enum_offset RecordType) 2)
            /\ - n <= enum_code RecordType v < n
            /\ nth_error (enum_labels RecordType)
                 (Z.to_nat (enum_code RecordType v mod n))
               = Some (enum_label RecordType v))
        /\ run (ReadBinaryTrace RefPlatform.ref)
             (overwrite sweep_file (0 + enum_offset RecordType) [x0a; x00])
           = (Raise EnumOutOfRange, (0 + enum_offset RecordType + 2)%nat)).
Proof.
  do 6 eexists.
  split; [evaluate|].
  split; [vm_compute; reflexivity|].
  cbv zeta.
  split; [right; vm_compute; discriminate|].
  eapply (enum_code_out_of_range RefPlatform.ref sweep_file);
    [evaluate | vm_compute; reflexivity | right; vm_compute; discriminate].
Defined.

(** C4, as stated, fails on a negative code: the bandwidth limit code -1
    is decoded, with the label "on". *)
Lemma negative_code_accepted :
  exists v TEXT x y1 y2 q,
    run (ReadBinaryTrace RefPlatform.ref) negative_bandwidth_file
    = (OK (v, TEXT, x, y1, y2), q)
    /\ int_of_bytes LittleEndian (slice negative_bandwidth_file 334 2) = -1
    /\ BANDWIDTH_LIMIT_INDEX v = -1
    /\ BANDWIDTH_LIMIT v = "on"%string.
Proof.
  do 6 eexists.
  split; [evaluate|].
  vm_compute. repeat split; reflexivity.
Qed.

(** C8 on a file whose vertical unit is "lx": the field holds "lx" and
    NUL bytes, the decoded unit is "l". *)
Lemma vertunit_loses_trailing_x :
  exists v TEXT x y1 y2 q,
    run (ReadBinaryTrace RefPlatform.ref) lux_file
    = (OK (v, TEXT, x, y1, y2), q)
    /\ slice lux_file 196 48 = padded 48 "lx"
    /\ decode_utf8 (rstrip b_nul (slice lux_file 196 48)) = OK "lx"%string
    /\ VERTUNIT v = "l"%string.
Proof.
  do 6 eexists.
  split; [evaluate|].
  vm_compute. repeat split; reflexivity.
Qed.

Lemma single_sweep_arrays_witness :
  exists co v TEXT p0,
    run (read_header RefPlatform.ref) dual_file = (OK (co, v, TEXT), p0)
    /\ SUBARRAY_COUNT v <= 1
    /\ 0 <= WAVE_ARRAY_COUNT v
    /\ (p0 + channels v * (Z.to_nat (WAVE_ARRAY_COUNT v) * sample_size v)
        <= length dual_file)%nat
    /\ single_sweep_result RefPlatform.ref dual_file co v TEXT p0.
Proof.
  do 4 eexists.
  split; [evaluate|].
  split; [vm_compute; discriminate|].
  split; [vm_compute; discriminate|].
  split; [vm_compute; lia|].
  eapply (single_sweep_arrays RefPlatform.ref dual_file);
    [evaluate | vm_compute; discriminate | vm_compute; discriminate
     | vm_compute; lia].
Defined.

Lemma segmented_arrays_decoded_witness :
  exists co v TEXT p0,
    run (read_header RefPlatform.ref) sequence_file = (OK (co, v, TEXT), p0)
    /\ 1 < SUBARRAY_COUNT v
    /\ WAVE_ARRAY_COUNT v mod SUBARRAY_COUNT v = 0
    /\ 0 <= WAVE_ARRAY_COUNT v
    /\ (p0 + Z.to_nat (SUBARRAY_COUNT v) * 16
        + Z.to_nat (WAVE_ARRAY_COUNT v) * sample_size v
        <= length sequence_file)%nat
    /\ segmented_result RefPlatform.ref sequence_file co v TEXT p0.
Proof.
  do 4 eexists.
  split; [evaluate|].
  split; [vm_compute; reflexivity|].
  split; [vm_compute; reflexivity|].
  split; [vm_compute; discriminate|].
  split; [vm_compute; lia|].
  eapply (segmented_arrays_decoded RefPlatform.ref sequence_file);
    [evaluate | vm_compute; reflexivity | vm_compute; reflexivity
     | vm_compute; discriminate | vm_compute; lia].
Defined.

(** C1, as stated, fails twice.  On the communication-type code -2 the
    label is "byte", and the amplitudes are not the one-byte samples that
    follow the trigger records.  On a sample count of -4 in two segments
    the count is divisible and nothing is missing from the file, yet no
    array is returned: the array of zeros cannot have -2 columns. *)
Lemma byte_label_and_negative_count :
  (exists v TEXT x y1 q,
     run (ReadBinaryTrace RefPlatform.ref) wrapped_type_file
     = (OK (v, TEXT, x, Array2 2 2 y1, Array1 []), q)
     /\ 1 < SUBARRAY_COUNT v
     /\ WAVE_ARRAY_COUNT v mod SUBARRAY_COUNT v = 0
     /\ COMM_TYPE v = "byte"%string
     /\ y1 <> map (map (fun j =>
                     F32.sub
                       (F32.mul
                          (F32.of_Z (int_of_bytes LittleEndian
                                       (slice wrapped_type_file (378 + j) 1)))
                          (VERTICAL_GAIN v))
                       (VERTICAL_OFFSET v)))
                [[0; 1]; [2; 3]]%nat)
  /\ (exists co v TEXT p0,
        run (read_header RefPlatform.ref) negative_sequence_file
        = (OK (co, v, TEXT), p0)
        /\ 1 < SUBARRAY_COUNT v
        /\ WAVE_ARRAY_COUNT v = -4
        /\ WAVE_ARRAY_COUNT v mod SUBARRAY_COUNT v = 0
        /\ (p0 + Z.to_nat (SUBARRAY_COUNT v) * 16
            + Z.to_nat (WAVE_ARRAY_COUNT v) * sample_size v
            <= length negative_sequence_file)%nat
        /\ run (ReadBinaryTrace RefPlatform.ref) negative_sequence_file
           = (Raise ValueError, 378%nat)).
Proof.
  split.
  - do 5 eexists.
    split; [evaluate|].
    split; [vm_compute; reflexivity|].
    split; [vm_compute; reflexivity|].
    split; [vm_compute; reflexivity|].
    vm_compute. discriminate.
  - do 4 eexists.
    split; [evaluate|].
    split; [vm_compute; reflexivity|].
    split; [vm_compute; reflexivity|].
    split; [vm_compute; reflexivity|].
    split; [vm_compute; lia|].
    vm_compute. reflexivity.
Qed.

(** C2, as stated, fails on a sample count of -1 with a second channel:
    [numpy.fromfile] reads the rest of the file for the primary channel,
    four samples, and finds nothing left for the secondary one. *)
Lemma negative_count_channels_differ :
  exists v TEXT x y1 y2 q,
    run (ReadBinaryTrace RefPlatform.ref) negative_count_file
    = (OK (v, TEXT, Array1 x, Array1 y1, Array1 y2), q)
    /\ SUBARRAY_COUNT v <= 1
    /\ 0 < WAVE_ARRAY_2 v
    /\ WAVE_ARRAY_COUNT v = -1
    /\ length y1 = 4%nat
    /\ length y2 = 0%nat.
Proof.
  do 6 eexists.
  split; [evaluate|].
  split; [vm_compute; discriminate|].
  split; [vm_compute; reflexivity|].
  split; [vm_compute; reflexivity|].
  split; vm_compute; reflexivity.
Qed.

(** C9 on the double 1000: its logarithm in base 10 is computed as
    2.9999999999999996, the floor is 2 and the exponent 0, so that the
    text is "1000 "; the exponent of the claim, 3, gives "1 k".  The time
    base code 45, one kilosecond per division, is labelled accordingly. *)
Lemma thousand_is_not_kilo :
  let f := PyFloat (F64.of_Z 1000) in
  F64.of_Z 1000 = S754_finite false 8796093022208000 (-43)
  /\ math_log RefPlatform.ref (PyNum.abs f) (PyInt 10)
     = OK (S754_finite false 6755399441055743 (-51))
  /\ PyNum.floor (S754_finite false 6755399441055743 (-51)) = OK 2
  /\ float2eng RefPlatform.ref f = OK "1000 "%string
  /\ rbind (PyNum.truediv f (PyNum.int_pow RefPlatform.ref 10 3))
           (fun mant => OK (PyNum.fmt_g mant ++ " " ++ si_prefix 3)%string)
     = OK "1 k"%string
  /\ exists v TEXT x y1 y2 q,
       run (ReadBinaryTrace RefPlatform.ref) kilo_timebase_file
       = (OK (v, TEXT, x, y1, y2), q)
       /\ TIMEBASE_INDEX v = 45
       /\ TIMEBASE v = "1000 S/div"%string.
Proof.
  cbv zeta.
  split; [vm_compute; reflexivity|].
  split; [vm_compute; reflexivity|].
  split; [vm_compute; reflexivity|].
  split; [vm_compute; reflexivity|].
  split; [vm_compute; reflexivity|].
  do 6 eexists.
  split; [evaluate|].
  split; vm_compute; reflexivity.
Qed.

(* ===================================================================== *)
(** ** The header search *)
(* ===================================================================== *)

Lemma byte_eqb_eq (x y : byte) : byte_eqb x y = true <-> x = y.
Proof.
  unfold byte_eqb. split.
  - intros H. apply Byte.byte_dec_bl. exact H.
  - intros ->. apply Byte.byte_dec_lb. reflexivity.
Qed.

Lemma starts_with_firstn needle : forall l,
  starts_with needle l = true <-> firstn (length needle) l = needle.
Proof.
  induction needle as [|x needle IH]; intros l; cbn.
  - split; reflexivity.
  - destruct l as [|y l]; cbn.
    + split; discriminate.
    + rewrite andb_true_iff, byte_eqb_eq, IH. split.
      * intros [-> ->]. reflexivity.
      * intros H. injection H as -> H. split; [reflexivity | exact H].
Qed.

Lemma find_from_some needle : forall l i k,
  find_from needle l i = Some k ->
  (i <= k)%nat
  /\ firstn (length needle) (skipn (k - i) l) = needle
  /\ forall j, (i <= j < k)%nat ->
       firstn (length needle) (skipn (j - i) l) <> needle.
Proof.
  induction l as [|y l IH]; intros i k H; cbn [find_from] in H.
  - destruct (starts_with needle []) eqn:E; [|discriminate H].
    injection H as <-. rewrite Nat.sub_diag.
    split; [lia|]. split; [apply starts_with_firstn; exact E|]. intros j Hj. lia.
  - destruct (starts_with needle (y :: l)) eqn:E.
    + injection H as <-. rewrite Nat.sub_diag.
      split; [lia|]. split; [apply starts_with_firstn; exact E|]. intros j Hj. lia.
    + apply IH in H. destruct H as (Hik & Hat & Hbefore).
      split; [lia|]. split.
      * replace (k - i)%nat with (S (k - S i)) by lia. exact Hat.
      * intros j Hj. destruct (Nat.eq_dec j i) as [->|Hne].
        -- rewrite Nat.sub_diag. cbn [skipn]. intros Hs.
           apply starts_with_firstn in Hs. congruence.
        -- replace (j - i)%nat with (S (j - S i)) by lia. apply Hbefore. lia.
Qed.

Lemma find_from_none needle : forall l i,
  find_from needle l i = None ->
  forall j, firstn (length needle) (skipn j l) <> needle.
Proof.
  induction l as [|y l IH]; intros i H j; cbn [find_from] in H.
  - destruct (starts_with needle []) eqn:E; [discriminate H|].
    rewrite skipn_nil. intros Hs. apply starts_with_firstn in Hs. congruence.
  - destruct (starts_with needle (y :: l)) eqn:E; [discriminate H|].
    destruct j as [|j].
    + cbn [skipn]. intros Hs. apply starts_with_firstn in Hs. congruence.
    + cbn [skipn]. apply (IH _ H).
Qed.

(** A slice of the 32-byte window is a slice of the file when it ends
    inside the window. *)
Lemma slice_window data j n :
  (j + n <= 32)%nat -> slice (slice data 0 32) j n = slice data j n.
Proof.
  intros H. unfold slice. cbn [skipn].
  rewrite skipn_firstn_comm, firstn_firstn. f_equal. lia.
Qed.

Lemma slice_full_length data j n :
  length (slice data j n) = n -> (n = 0 \/ j + n <= length data)%nat.
Proof. unfold slice. rewrite length_firstn, length_skipn. lia. Qed.

Lemma window_token data j :
  slice (slice data 0 32) j 8 = b_WAVEDESC ->
  (j <= 24)%nat /\ slice data j 8 = b_WAVEDESC.
Proof.
  intros H.
  assert (Hl : length (slice (slice data 0 32) j 8) = 8%nat)
    by (rewrite H; reflexivity).
  apply slice_full_length in Hl. destruct Hl as [Hl|Hl]; [discriminate Hl|].
  pose proof (slice_length_le data 0 32).
  split; [lia|]. rewrite <- H. symmetry. apply slice_window. lia.
Qed.

(** [str2.find(b'WAVEDESC')] on the 32-byte window, in terms of the file. *)
Lemma find_window_some data k :
  find b_WAVEDESC (slice data 0 32) = Some k ->
  (k <= 24)%nat /\ slice data k 8 = b_WAVEDESC
  /\ forall j, (j < k)%nat -> slice data j 8 <> b_WAVEDESC.
Proof.
  intros H. apply find_from_some in H. destruct H as (_ & Hat & Hbefore).
  rewrite Nat.sub_0_r in Hat. change (length b_WAVEDESC) with 8%nat in *.
  apply window_token in Hat. destruct Hat as [Hk Hat].
  split; [exact Hk|]. split; [exact Hat|].
  intros j Hj Hs. apply (Hbefore j); [lia|].
  rewrite Nat.sub_0_r. fold (slice (slice data 0 32) j 8).
  rewrite slice_window by lia. exact Hs.
Qed.

Lemma find_window_none data :
  find b_WAVEDESC (slice data 0 32) = None <->
  forall j, slice data j 8 = b_WAVEDESC -> (24 < j)%nat.
Proof.
  split.
  - intros H j Hs. destruct (Nat.le_gt_cases j 24) as [Hj|Hj]; [|exact Hj].
    exfalso. apply (find_from_none _ _ _ H j).
    change (length b_WAVEDESC) with 8%nat. fold (slice (slice data 0 32) j 8).
    rewrite slice_window by lia. exact Hs.
  - intros H. destruct (find b_WAVEDESC (slice data 0 32)) as [k|] eqn:E;
      [|reflexivity].
    apply find_window_some in E. destruct E as (Hk & Hat & _).
    apply H in Hat. lia.
Qed.

(** X1. A file in which no occurrence of the token [WAVEDESC] starts at
    an offset of 24 or less is rejected as unrecognizable, whatever
    follows: the token must lie wholly inside the first 32 bytes.  The
    empty file is such a file.  Nothing but those 32 bytes is read. *)
Theorem unrecognised_file_rejected pf data :
  (forall j, slice data j 8 = b_WAVEDESC -> (24 < j)%nat) ->
  run (ReadBinaryTrace pf) data
  = (Raise HeaderNotFound, Nat.min 32 (length data)).
Proof.
  intros H. apply find_window_none in H.
  unfold run, ReadBinaryTrace, read_header, read_wavedesc.
  unfold bind at 1. unfold bind at 1. unfold bind at 1.
  unfold read at 1. cbv zeta. rewrite H. cbn [raise].
  unfold raise. f_equal. unfold slice. cbn [skipn].
  rewrite length_firstn. lia.
Qed.

(* ===================================================================== *)
(** ** The numbers of the descriptor *)
(* ===================================================================== *)

Ltac field_eq := solve [reflexivity | same_slice | progress f_equal; field_eq].

Lemma read_wavedesc_layout pf data k co v p :
  run (read_wavedesc pf) data = (OK (k, co, v), p) -> layout data k co v.
Proof.
  unfold run, read_wavedesc. intros H.
  run_next H.
  destruct (find b_WAVEDESC (slice data 0 32)) as [k0|] eqn:Hfind;
    [|discriminate H].
  run_step H as descriptor_name Hdescriptor.
  cbv zeta in H.
  run_next H.
  run_step H as order_code Hordercode.
  run_step H as order Horder.
  remember (if String.eqb order "LOFIRST" then LittleEndian else BigEndian)
    as co0 eqn:Hco in H.
  run_next H.
  run_next H.
  run_step H as template_name Htemplate.
  destruct (String.eqb_spec template_name "LECROY_2_3") as [Htn|Htn];
    cbn [negb] in H; [|discriminate H].
  run_step H as type_code Htypecode.
  assert (Hn1 : length (slice data (k0 + 16) 16) = 16%nat)
    by (apply read_then_more with 2%nat; lia).
  rewrite Hn1 in *.
  run_step H as type_label Htype.
  run_next H.
  do 10 (run_next H).
  run_next H.
  run_step H as instrument_name Hinstrument.
  run_next H.
  match type of Hinstrument with
  | context [slice data ?q 16] =>
      assert (Hn2 : length (slice data q 16) = 16%nat)
        by (apply read_then_more with 4%nat; lia)
  end.
  rewrite Hn2 in *.
  run_next H.
  run_step H as trace_label Htrace.
  run_next H.
  match type of Htrace with
  | context [slice data ?q 16] =>
      assert (Hn3 : length (slice data q 16) = 16%nat)
        by (apply read_then_more with 2%nat; lia)
  end.
  rewrite Hn3 in *.
  do 21 (run_next H).
  run_next H.
  run_step H as vertunit Hvertunit.
  run_next H.
  run_step H as horunit Hhorunit.
  run_next H.
  match type of Hhorunit with
  | context [slice data ?q 48] =>
      assert (Hn5 : length (slice data q 48) = 48%nat)
        by (apply read_then_more with 4%nat; lia)
  end.
  match type of Hvertunit with
  | context [slice data ?q 48] =>
      assert (Hn4 : length (slice data q 48) = 48%nat)
        by (apply read_then_more with 1%nat; lia)
  end.
  rewrite Hn4 in *. rewrite Hn5 in *.
  do 8 (run_next H).
  run_step H as record_code Hrecordcode.
  run_step H as record_label Hrecord.
  run_step H as processing_code Hprocessingcode.
  run_step H as processing_label Hprocessing.
  do 2 (run_next H).
  run_step H as timebase_code Htimebasecode.
  run_step H as timebase_label Htimebase.
  run_step H as coupling_code Hcouplingcode.
  run_step H as coupling_label Hcoupling.
  run_next H.
  run_step H as gain_code Hgaincode.
  run_step H as gain_label Hgain.
  run_step H as bandwidth_code Hbandwidthcode.
  run_step H as bandwidth_label Hbandwidth.
  do 3 (run_next H).
  apply ret_ok_inv in H. destruct H as [H Hp].
  injection H as Hk Hc Hv.
  subst k0 co v p.
  constructor; unfold i1_at, i2_at, i4_at, f4_at, f8_at;
    cbn [COMM_TYPE_INDEX COMM_ORDER_INDEX RECORD_TYPE_INDEX
    PROCESSING_DONE_INDEX TIMEBASE_INDEX VERT_COUPLING_INDEX
    FIXED_VERT_GAIN_INDEX BANDWIDTH_LIMIT_INDEX FILE_SIZE
    TEMPLATE_NAME WAVE_DESCRIPTOR USER_TEXT RES_DESC1
    TRIGTIME_ARRAY RIS_TIME_ARRAY RES_ARRAY1 WAVE_ARRAY_1 WAVE_ARRAY_2
    RES_ARRAY2 RES_ARRAY3 INSTRUMENT_NUMBER RESERVED1 RESERVED2
    WAVE_ARRAY_COUNT PNTS_PER_SCREEN FIRST_VALID_PNT LAST_VALID_PNT
    FIRST_POINT SPARSING_FACTOR SEGMENT_INDEX SUBARRAY_COUNT SWEEPS_PER_ACQ
    POINTS_PER_PAIR PAIR_OFFSET VERTICAL_GAIN VERTICAL_OFFSET MAX_VALUE
    MIN_VALUE NOMINAL_BITS NOM_SUBARRAY_COUNT HORIZ_INTERVAL HORIZ_OFFSET
    PIXEL_OFFSET HORIZ_UNCERTAINTY TRIGGER_TIME ACQ_DURATION RESERVED5
    RIS_SWEEPS PROBE_ATT VERTICAL_VERNIER ACQ_VERT_OFFSET WAVE_SOURCE_INDEX
    WAVE_SOURCE];
    try exact Htn; try reflexivity;
    repeat match goal with
           | Hx : ?c = _ (slice _ _ _) |- context [?c] =>
               is_var c; rewrite Hx; clear Hx
           end;
    field_eq.
Qed.

(* ===================================================================== *)
(** ** The header, the user text and the strings *)
(* ===================================================================== *)

Lemma read_header_ok_inv pf data co v TEXT p0 :
  run (read_header pf) data = (OK (co, v, TEXT), p0) ->
  exists k p,
    run (read_wavedesc pf) data = (OK (k, co, v), p)
    /\ WAVE_DESCRIPTOR v = Z.of_nat p - Z.of_nat k
    /\ TEXT = (if USER_TEXT v >? 0
               then slice data p (Z.to_nat (USER_TEXT v)) else [])
    /\ p0 = (p + length TEXT)%nat.
Proof.
  unfold run, read_header. intros H.
  apply bind_ok_inv in H. destruct H as ([[k co'] v'] & p & Hd & H).
  cbv beta iota in H.
  apply bind_ok_inv in H. destruct H as (t & p1 & Ht & H).
  cbv beta in H. apply ret_ok_inv in H. destruct H as [H ->].
  injection H as -> -> ->.
  exists k, p. split; [exact Hd|].
  unfold check_and_read_text in Ht.
  apply bind_ok_inv in Ht. destruct Ht as (p' & q & Htell & Ht).
  unfold tell in Htell. injection Htell as <- <-. cbv beta zeta in Ht.
  destruct (Z.eqb_spec (Z.of_nat p - Z.of_nat k) (WAVE_DESCRIPTOR v)) as [E|E];
    cbn [negb] in Ht; [|discriminate Ht].
  split; [symmetry; exact E|].
  destruct (USER_TEXT v >? 0).
  - apply read_ok_inv in Ht. destruct Ht as [-> ->]. split; reflexivity.
  - apply ret_ok_inv in Ht. destruct Ht as [<- ->]. split; [reflexivity|].
    cbn [length]. lia.
Qed.

(** What a returned header rests on: the descriptor and the text. *)
Lemma returned_header pf data v TEXT x y1 y2 q k :
  run (ReadBinaryTrace pf) data = (OK (v, TEXT, x, y1, y2), q) ->
  find b_WAVEDESC (slice data 0 32) = Some k ->
  exists co p0,
    run (read_wavedesc pf) data = (OK (k, co, v), (k + 346)%nat)
    /\ run (read_header pf) data = (OK (co, v, TEXT), p0)
    /\ read_waveforms co v data p0 = (OK (x, y1, y2), q)
    /\ co = order_of v
    /\ decoded pf data k co v (k + 346)%nat.
Proof.
  intros H Hk. apply ReadBinaryTrace_ok_inv in H.
  destruct H as (k' & co & v' & T' & x' & y1' & y2' & p & p0 & E & Hd & Hh & Hw).
  injection E as <- <- <- <- <-.
  pose proof (read_wavedesc_decoded _ _ _ _ _ _ Hd) as D.
  pose proof (d_found _ _ _ _ _ _ D) as Hf. rewrite Hk in Hf.
  injection Hf as <-.
  pose proof (d_end _ _ _ _ _ _ D) as ->.
  exists co, p0.
  split; [exact Hd|]. split; [exact Hh|]. split; [exact Hw|].
  split; [exact (d_order _ _ _ _ _ _ D) | exact D].
Qed.

Lemma string_of_list_byte_app (a b : list byte) :
  string_of_list_byte (a ++ b)
  = (string_of_list_byte a ++ string_of_list_byte b)%string.
Proof.
  unfold string_of_list_byte.
  induction a as [|x a IH]; cbn; [reflexivity|]. rewrite IH. reflexivity.
Qed.

Lemma string_of_list_byte_length (l : list byte) :
  String.length (string_of_list_byte l) = length l.
Proof.
  unfold string_of_list_byte.
  induction l as [|x l IH]; cbn; [reflexivity|]. rewrite IH. reflexivity.
Qed.

Lemma decode_utf8_ok_inv bs s :
  decode_utf8 bs = OK s -> list_byte_of_string s = bs /\ utf8_valid bs = true.
Proof.
  unfold decode_utf8. destruct (utf8_valid bs); [|discriminate].
  intros H. injection H as <-.
  split; [apply list_byte_of_string_of_list_byte | reflexivity].
Qed.

Lemma lstrip_spec chars : forall l,
  exists dropped,
    l = dropped ++ lstrip chars l
    /\ forallb (fun b => mem b chars) dropped = true
    /\ match lstrip chars l with
       | [] => True
       | b :: _ => mem b chars = false
       end.
Proof.
  induction l as [|b l IH]; cbn [lstrip].
  - exists []. repeat split.
  - destruct (mem b chars) eqn:E.
    + destruct IH as (d & Hl & Hd & Hh). exists (b :: d).
      split; [cbn; f_equal; exact Hl|].
      split; [cbn; rewrite E; exact Hd | exact Hh].
    + exists []. repeat split. exact E.
Qed.

(** [rstrip] removes a suffix made of bytes of [chars], and what it leaves
    does not end with one. *)
Lemma rstrip_spec chars l :
  exists dropped,
    l = rstrip chars l ++ dropped
    /\ forallb (fun b => mem b chars) dropped = true
    /\ forall b, ends_with (rstrip chars l) b -> mem b chars = false.
Proof.
  unfold rstrip.
  destruct (lstrip_spec chars (rev l)) as (d & Hl & Hd & Hh).
  exists (rev d). split; [|split].
  - rewrite <- rev_app_distr, <- Hl, rev_involutive. reflexivity.
  - rewrite forallb_forall in *. intros b Hb. apply Hd.
    apply in_rev. exact Hb.
  - intros b [l' E].
    assert (E' : lstrip chars (rev l) = b :: rev l').
    { rewrite <- (rev_involutive (lstrip chars (rev l))), E, rev_app_distr.
      reflexivity. }
    rewrite E' in Hh. exact Hh.
Qed.

Lemma lstrip_app_keep chars b : forall a,
  lstrip chars b = b -> lstrip chars (a ++ b) = lstrip chars a ++ b.
Proof.
  intros a Hb. induction a as [|x a IH]; cbn [lstrip app]; [exact Hb|].
  destruct (mem x chars); [exact IH | reflexivity].
Qed.

(** A suffix after a byte that is not stripped does not reach before it. *)
Lemma rstrip_app_keep chars l b r :
  mem b chars = false ->
  rstrip chars ((l ++ [b]) ++ r) = (l ++ [b]) ++ rstrip chars r.
Proof.
  intros Hb. unfold rstrip.
  rewrite rev_app_distr, lstrip_app_keep.
  - rewrite rev_app_distr, rev_involutive. reflexivity.
  - rewrite rev_app_distr. cbn [rev app lstrip]. rewrite Hb. reflexivity.
Qed.

Lemma firstn_split_app {A} (l : list A) n m :
  (n <= m)%nat -> firstn m l = firstn n l ++ firstn (m - n) (skipn n l).
Proof.
  intros H. rewrite <- (firstn_skipn n l) at 1.
  rewrite firstn_app, firstn_firstn.
  replace (Nat.min m n) with n by lia.
  rewrite length_firstn.
  destruct (Nat.le_gt_cases n (length l)) as [Hl|Hl].
  - replace (Nat.min n (length l)) with n by lia. reflexivity.
  - rewrite (skipn_all2 l) by lia. rewrite !firstn_nil. reflexivity.
Qed.

(** X3. Three fields of a returned header are constants.  The template
    name is LECROY_2_3: the 16 bytes of its field are that name followed
    by NUL, 'x' or '0' bytes only.  The declared descriptor length is 346.
    The descriptor name begins with WAVEDESC and has at most 8 characters
    more. *)
Theorem returned_header_constants pf data v TEXT x y1 y2 q k :
  run (ReadBinaryTrace pf) data = (OK (v, TEXT, x, y1, y2), q) ->
  find b_WAVEDESC (slice data 0 32) = Some k ->
  TEMPLATE_NAME v = "LECROY_2_3"%string
  /\ (exists dropped,
        slice data (k + 16) 16 = list_byte_of_string "LECROY_2_3" ++ dropped
        /\ forallb (fun b => mem b b_nul_x00) dropped = true)
  /\ WAVE_DESCRIPTOR v = 346
  /\ (exists rest, DESCRIPTOR_NAME v = ("WAVEDESC" ++ rest)%string
                   /\ (String.length rest <= 8)%nat).
Proof.
  intros H Hk.
  destruct (returned_header _ _ _ _ _ _ _ _ _ H Hk)
    as (co & p0 & Hd & Hh & _ & _ & D).
  pose proof (read_wavedesc_layout _ _ _ _ _ _ Hd) as L.
  pose proof (l_template_name _ _ _ _ L) as Ht.
  split; [exact Ht|]. split; [|split].
  - pose proof (d_template_name _ _ _ _ _ _ D) as Hn.
    apply decode_utf8_ok_inv in Hn. destruct Hn as [Hn _].
    rewrite Ht in Hn.
    destruct (rstrip_spec b_nul_x00 (slice data (k + 16) 16))
      as (d & Hl & Hdrop & _).
    rewrite <- Hn in Hl. exists d. split; assumption.
  - apply read_header_ok_inv in Hh.
    destruct Hh as (k' & p' & Hd' & Hwd & _).
    unfold run in *. rewrite Hd in Hd'. injection Hd' as <- <-.
    lia.
  - pose proof (d_found _ _ _ _ _ _ D) as Hf.
    pose proof (d_descriptor_name _ _ _ _ _ _ D) as Hn.
    apply find_from_some in Hf. destruct Hf as (_ & Hat & _).
    rewrite Nat.sub_0_r in Hat. change (length b_WAVEDESC) with 8%nat in Hat.
    unfold pyslice in Hn.
    replace (k + 16 - k)%nat with 16%nat in Hn by lia.
    rewrite (firstn_split_app _ 8 16) in Hn by lia. rewrite Hat in Hn.
    change b_WAVEDESC
      with (list_byte_of_string "WAVEDES" ++ [x43]) in Hn.
    rewrite rstrip_app_keep in Hn by reflexivity.
    apply decode_utf8_ok_inv in Hn. destruct Hn as [Hn _].
    rewrite <- (string_of_list_byte_of_string (DESCRIPTOR_NAME v)), Hn.
    rewrite string_of_list_byte_app.
    eexists. split; [reflexivity|].
    destruct (rstrip_spec b_nul_x00
                (firstn (16 - 8) (skipn 8 (skipn k (slice data 0 32)))))
      as (d & Hl & _).
    rewrite string_of_list_byte_length.
    apply (f_equal (@length byte)) in Hl.
    rewrite length_app, length_firstn in Hl. lia.
Qed.

(** X2. A call that returns has found the header at the first occurrence
    of [WAVEDESC] in the file, at an offset [k] of 24 at most, and the file
    holds the 346 bytes of the descriptor from there on. *)
Theorem header_at_first_occurrence pf data v TEXT x y1 y2 q :
  run (ReadBinaryTrace pf) data = (OK (v, TEXT, x, y1, y2), q) ->
  exists k,
    (k <= 24)%nat
    /\ slice data k 8 = b_WAVEDESC
    /\ (forall j, (j < k)%nat -> slice data j 8 <> b_WAVEDESC)
    /\ (k + 346 <= length data)%nat.
Proof.
  intros H. destruct (decoded_header _ _ _ _ H) as (k & co & p & D).
  exists k.
  destruct (find_window_some _ _ (d_found _ _ _ _ _ _ D)) as (Hk & Hat & Hb).
  split; [exact Hk|]. split; [exact Hat|]. split; [exact Hb|].
  exact (d_size _ _ _ _ _ _ D).
Qed.

Lemma order_of_cases pf data k co v p :
  decoded pf data k co v p ->
  (order_of v = LittleEndian
   <-> COMM_ORDER_INDEX v = 1 \/ COMM_ORDER_INDEX v = -1).
Proof.
  intros D. pose proof (d_comm_order _ _ _ _ _ _ D) as Hl.
  apply tuple_index_ok_inv in Hl. destruct Hl as [Hr Hl].
  unfold order_of. cbn [COMM_ORDER_labels length] in Hr, Hl.
  assert (Hc : COMM_ORDER_INDEX v = -2 \/ COMM_ORDER_INDEX v = -1
               \/ COMM_ORDER_INDEX v = 0 \/ COMM_ORDER_INDEX v = 1) by lia.
  destruct Hc as [Hc|[Hc|[Hc|Hc]]]; rewrite Hc in Hl |- *;
    cbn in Hl; injection Hl as <-; cbn; split; intros; try lia;
    try reflexivity; try discriminate.
Qed.

(** X4. Every number of a returned header is the value found at a fixed
    offset from the header start, in the byte order of the header: the
    code of the communication type at offset 32, the block lengths from
    36, the counts from 116, the scaling from 156, the time of the trigger
    at 296, the codes of the record type, the processing, the time base,
    the coupling, the fixed gain and the bandwidth limit between 316 and
    334, up to the source at 344, from which [WAVE_SOURCE] is formed.  The
    four one-byte fields of the trigger time have no byte order.  The code
    of the byte order is read low byte first at offset 34, and the order
    is little-endian exactly for the codes 1 and -1.  [FILE_SIZE], the one
    number that is no field of the descriptor, is the little-endian value
    of the bytes from index 4 to the header start, plus that start. *)
Theorem header_numbers_layout pf data v TEXT x y1 y2 q k :
  run (ReadBinaryTrace pf) data = (OK (v, TEXT, x, y1, y2), q) ->
  find b_WAVEDESC (slice data 0 32) = Some k ->
  layout data k (order_of v) v
  /\ COMM_ORDER_INDEX v = i2_at data LittleEndian (k + 34)
  /\ (order_of v = LittleEndian
      <-> COMM_ORDER_INDEX v = 1 \/ COMM_ORDER_INDEX v = -1).
Proof.
  intros H Hk.
  destruct (returned_header _ _ _ _ _ _ _ _ _ H Hk)
    as (co & p0 & Hd & _ & _ & Hco & D).
  subst co. split; [|split].
  - exact (read_wavedesc_layout _ _ _ _ _ _ Hd).
  - exact (d_comm_order_code _ _ _ _ _ _ D).
  - exact (order_of_cases _ _ _ _ _ _ D).
Qed.

(** X5. The user text of a returned result is empty when [USER_TEXT] is
    not positive; otherwise it is what the file holds of the [USER_TEXT]
    bytes that follow the descriptor, cut short at the end of the file
    without an error.  No maximum length is enforced. *)
Theorem user_text_follows_header pf data v TEXT x y1 y2 q k :
  run (ReadBinaryTrace pf) data = (OK (v, TEXT, x, y1, y2), q) ->
  find b_WAVEDESC (slice data 0 32) = Some k ->
  (USER_TEXT v <= 0 -> TEXT = [])
  /\ (0 < USER_TEXT v ->
      TEXT = slice data (k + 346) (Z.to_nat (USER_TEXT v))
      /\ length TEXT
         = Nat.min (Z.to_nat (USER_TEXT v)) (length data - (k + 346))).
Proof.
  intros H Hk.
  destruct (returned_header _ _ _ _ _ _ _ _ _ H Hk)
    as (co & p0 & Hd & Hh & _).
  apply read_header_ok_inv in Hh. destruct Hh as (k' & p & Hd' & _ & Ht & _).
  unfold run in *. rewrite Hd in Hd'. injection Hd' as <- <-.
  split.
  - intros Hu. destruct (Z.gtb_spec (USER_TEXT v) 0); [lia | exact Ht].
  - intros Hu. destruct (Z.gtb_spec (USER_TEXT v) 0); [|lia].
    split; [exact Ht|]. rewrite Ht. unfold slice.
    rewrite length_firstn, length_skipn. reflexivity.
Qed.

Lemma text_field_decoded pf data k co v p (f : text_field) :
  decoded pf data k co v p ->
  decode_utf8 (rstrip (text_padding f)
                 (slice data (k + text_offset f) (text_width f)))
  = OK (text_value f v).
Proof.
  intros D. destruct f.
  - exact (d_instrument_name _ _ _ _ _ _ D).
  - exact (d_trace_label _ _ _ _ _ _ D).
  - exact (d_vertunit _ _ _ _ _ _ D).
  - exact (d_horunit _ _ _ _ _ _ D).
Qed.

(** X6. The instrument name, the trace label and the two units of a
    returned header are their field without a padding at its end: the
    field is the value followed by padding bytes only, the value does not
    end with a padding byte, and it is valid UTF-8.  The padding is NUL
    for the name and the label; for the units it is NUL, 'x' and '0', so
    that no unit ever ends with 'x' or '0'. *)
Theorem text_fields_stripped pf data v TEXT x y1 y2 q k (f : text_field) :
  run (ReadBinaryTrace pf) data = (OK (v, TEXT, x, y1, y2), q) ->
  find b_WAVEDESC (slice data 0 32) = Some k ->
  let value := list_byte_of_string (text_value f v) in
  (exists dropped,
     slice data (k + text_offset f) (text_width f) = value ++ dropped
     /\ forallb (fun b => mem b (text_padding f)) dropped = true)
  /\ (forall b, ends_with value b -> mem b (text_padding f) = false)
  /\ utf8_valid value = true.
Proof.
  intros H Hk value.
  destruct (returned_header _ _ _ _ _ _ _ _ _ H Hk) as (co & p0 & _ & _ & _ & _ & D).
  pose proof (text_field_decoded _ _ _ _ _ _ f D) as Hf.
  apply decode_utf8_ok_inv in Hf. destruct Hf as [Hv Hu].
  fold value in Hv. rewrite <- Hv in Hu.
  destruct (rstrip_spec (text_padding f)
              (slice data (k + text_offset f) (text_width f)))
    as (d & Hl & Hd & He).
  rewrite <- Hv in Hl, He.
  split; [exists d; split; assumption|]. split; assumption.
Qed.

(* ===================================================================== *)
(** ** Payloads that are cut short *)
(* ===================================================================== *)

(** A read of [count >= 0] items returns those that are wholly present;
    when some are missing the file is left at its end. *)
Lemma fromfile_some {A} size (dec : list byte -> A) count data p :
  0 <= count ->
  let m := Nat.min (Z.to_nat count) ((length data - p) / size) in
  fromfile size dec count data p =
  (OK (map (fun i => dec (slice data (p + i * size) size)) (seq 0 m)),
   if (m =? Z.to_nat count)%nat then (p + m * size)%nat
   else Nat.max p (length data)).
Proof.
  intros Hc m. unfold fromfile.
  assert (Hneg : (count <? 0) = false) by (apply Z.ltb_ge; lia).
  rewrite Hneg. fold m. cbn [orb]. f_equal.
  destruct (Nat.eqb_spec m (Z.to_nat count)) as [E|E].
  - rewrite E, Z2Nat.id by lia. rewrite Z.eqb_refl. reflexivity.
  - destruct (Z.eqb_spec (Z.of_nat m) count) as [E'|E']; [|reflexivity].
    exfalso. apply E. rewrite <- E'. rewrite Nat2Z.id. reflexivity.
Qed.

Lemma read_samples_some data co v p :
  0 <= WAVE_ARRAY_COUNT v ->
  read_samples co v data p =
  (OK (map (sample_at data co v p) (seq 0 (present data v p))),
   if (present data v p =? Z.to_nat (WAVE_ARRAY_COUNT v))%nat
   then (p + present data v p * sample_size v)%nat
   else Nat.max p (length data)).
Proof.
  intros Hc. unfold read_samples, present, sample_at, sample_size.
  destruct (COMM_TYPE_INDEX v =? 0); apply fromfile_some; exact Hc.
Qed.

Lemma present_at_end data v p :
  (length data <= p)%nat -> present data v p = 0%nat.
Proof.
  intros H. unfold present.
  replace (length data - p)%nat with 0%nat by lia.
  unfold sample_size. destruct (COMM_TYPE_INDEX v =? 0); cbn; lia.
Qed.

Lemma sample_size_pos v : (0 < sample_size v)%nat.
Proof. unfold sample_size. destruct (COMM_TYPE_INDEX v =? 0); lia. Qed.

(** The header and the user text end inside the file. *)
Lemma read_header_position pf data co v TEXT p0 :
  run (read_header pf) data = (OK (co, v, TEXT), p0) ->
  (p0 <= length data)%nat.
Proof.
  intros H. apply read_header_ok_inv in H.
  destruct H as (k & p & Hd & _ & Ht & ->).
  apply read_wavedesc_decoded in Hd.
  pose proof (d_size _ _ _ _ _ _ Hd) as Hsz.
  pose proof (d_end _ _ _ _ _ _ Hd) as ->.
  rewrite Ht. destruct (USER_TEXT v >? 0); cbn [length]; [|lia].
  unfold slice. rewrite length_firstn, length_skipn. lia.
Qed.

Lemma read_waveforms_single_some data co v p0 :
  SUBARRAY_COUNT v <= 1 ->
  0 <= WAVE_ARRAY_COUNT v ->
  let n := Z.to_nat (WAVE_ARRAY_COUNT v) in
  let m := present data v p0 in
  exists y2 q,
    read_waveforms co v data p0
    = (OK (Array1 (time_axis v n (HORIZ_OFFSET v)),
           Array1 (map (fun j => scale v (sample_at data co v p0 j)) (seq 0 m)),
           Array1 y2), q)
    /\ (m < n -> y2 = [])%nat.
Proof.
  intros Hs Hc n m.
  assert (Hs' : (SUBARRAY_COUNT v >? 1) = false).
  { destruct (Z.gtb_spec (SUBARRAY_COUNT v) 1); [lia | reflexivity]. }
  pose proof (read_samples_some data co v p0 Hc) as R1.
  fold m in R1. fold n in R1.
  set (p1 := if (m =? n)%nat then (p0 + m * sample_size v)%nat
             else Nat.max p0 (length data)) in R1.
  pose proof (read_samples_some data co v p1 Hc) as R2.
  unfold read_waveforms. rewrite Hs'.
  rewrite (bind_ok _ _ _ _ _ _ R1). fold n. rewrite map_map.
  destruct (WAVE_ARRAY_2 v >? 0) eqn:H2.
  - rewrite (bind_ok _ _ _ _ _ _ (bind_ok _ _ _ _ _ _ R2)).
    unfold ret. eexists. eexists. split; [reflexivity|].
    intros Hlt.
    assert (Hp1 : (length data <= p1)%nat).
    { unfold p1. destruct (Nat.eqb_spec m n); lia. }
    rewrite (present_at_end _ _ _ Hp1). reflexivity.
  - unfold bind, ret. exists [], p1. split; reflexivity.
Qed.

(** X7. Once the header is decoded, a single sweep of a non-negative
    number of samples always returns.  The time array has
    [WAVE_ARRAY_COUNT] entries whatever the file holds; the primary channel
    has only the samples that are wholly present.  When some are missing
    the secondary channel is empty, and no error is raised. *)
Theorem single_sweep_short_payload pf data co v TEXT p0 :
  run (read_header pf) data = (OK (co, v, TEXT), p0) ->
  SUBARRAY_COUNT v <= 1 ->
  0 <= WAVE_ARRAY_COUNT v ->
  let n := Z.to_nat (WAVE_ARRAY_COUNT v) in
  let m := present data v p0 in
  exists y2 q,
    run (ReadBinaryTrace pf) data
    = (OK (v, TEXT,
           Array1 (time_axis v n (HORIZ_OFFSET v)),
           Array1 (map (fun j => scale v (sample_at data co v p0 j)) (seq 0 m)),
           Array1 y2), q)
    /\ (m <= n)%nat
    /\ (m < n -> y2 = [])%nat.
Proof.
  intros Hh Hs Hc n m.
  destruct (read_waveforms_single_some data co v p0 Hs Hc)
    as (y2 & q & Hw & Hy).
  exists y2, q. split; [|split; [|exact Hy]].
  - unfold run in *. unfold ReadBinaryTrace.
    rewrite (bind_ok _ _ _ _ _ _ Hh). cbv beta iota.
    rewrite (bind_ok _ _ _ _ _ _ Hw). cbv beta iota. reflexivity.
  - unfold m, present. fold n. lia.
Qed.

Section ShortTriggers.

Variable v : WaveDesc.
Variable npts : nat.
Variable trigArray : list (spec_float * spec_float).

(** The loop fails at the first index that the trigger array lacks. *)
Lemma trigger_loop_short k : forall a x,
  (a <= length trigArray < a + k)%nat ->
  trigger_loop v npts trigArray (seq a k) x = Raise TruncatedInput.
Proof.
  induction k as [|k IH]; intros a x Hk; [lia|].
  cbn [seq trigger_loop].
  destruct (nth_error trigArray a) as [[t o]|] eqn:Ea.
  - apply IH.
    assert (a < length trigArray)%nat
      by (apply nth_error_Some; rewrite Ea; discriminate).
    lia.
  - reflexivity.
Qed.

End ShortTriggers.

(** X8. A sequence whose payload is cut short is never decoded.  When
    the trigger times are incomplete the loop over the segments indexes
    past the array that was read; when they are complete and samples are
    missing, the samples cannot be reshaped.  Either way the file has been
    read to its end. *)
Theorem segmented_short_payload_raises pf data co v TEXT p0 :
  run (read_header pf) data = (OK (co, v, TEXT), p0) ->
  1 < SUBARRAY_COUNT v ->
  WAVE_ARRAY_COUNT v mod SUBARRAY_COUNT v = 0 ->
  0 <= WAVE_ARRAY_COUNT v ->
  (length data < p0 + Z.to_nat (SUBARRAY_COUNT v) * 16
                 + Z.to_nat (WAVE_ARRAY_COUNT v) * sample_size v)%nat ->
  run (ReadBinaryTrace pf) data
  = (Raise (if (length data <? p0 + Z.to_nat (SUBARRAY_COUNT v) * 16)%nat
            then TruncatedInput else ValueError),
     length data).
Proof.
  intros Hh Hs Hd Hc Hlen.
  pose proof (read_header_position _ _ _ _ _ _ Hh) as Hp0.
  set (nrows := Z.to_nat (SUBARRAY_COUNT v)) in *.
  set (total := Z.to_nat (WAVE_ARRAY_COUNT v)) in *.
  set (ncols := Z.to_nat (WAVE_ARRAY_COUNT v / SUBARRAY_COUNT v)).
  assert (Hs' : (SUBARRAY_COUNT v >? 1) = true).
  { destruct (Z.gtb_spec (SUBARRAY_COUNT v) 1); [reflexivity | lia]. }
  assert (Hd' : (WAVE_ARRAY_COUNT v mod SUBARRAY_COUNT v =? 0) = true)
    by (apply Z.eqb_eq; exact Hd).
  assert (Hq : 0 <= WAVE_ARRAY_COUNT v / SUBARRAY_COUNT v)
    by (apply Z.div_pos; lia).
  unfold run in *. unfold ReadBinaryTrace.
  rewrite (bind_ok _ _ _ _ _ _ Hh). cbv beta iota.
  apply bind_raise.
  unfold read_waveforms. rewrite Hs', Hd'. cbn [negb]. cbv zeta.
  fold nrows. fold ncols.
  pose proof (fromfile_some 16 (trig_of_bytes co) (SUBARRAY_COUNT v) data p0
                ltac:(lia)) as R1.
  cbv zeta in R1. fold nrows in R1.
  rewrite (bind_ok _ _ _ _ _ _ R1).
  unfold lift at 1. unfold bind at 1.
  rewrite (zeros_ok (SUBARRAY_COUNT v) (WAVE_ARRAY_COUNT v / SUBARRAY_COUNT v)
             ltac:(lia) Hq). fold nrows. fold ncols.
  destruct (Nat.ltb_spec (length data) (p0 + nrows * 16)) as [Hshort|Hfull].
  - (* the trigger array is short *)
    assert (Hm : (Nat.min nrows ((length data - p0) / 16) < nrows)%nat).
    { destruct (Nat.le_gt_cases nrows ((length data - p0) / 16)) as [Hle|Hgt];
        [|lia].
      pose proof (Nat.Div0.mul_div_le (length data - p0) 16). nia. }
    destruct (Nat.eqb_spec (Nat.min nrows ((length data - p0) / 16)) nrows)
      as [E|_]; [lia|].
    unfold lift at 1. unfold bind at 1.
    rewrite trigger_loop_short
      by (rewrite length_map, length_seq; lia).
    f_equal. lia.
  - (* the samples are short *)
    assert (Hm : Nat.min nrows ((length data - p0) / 16) = nrows).
    { apply Nat.min_l. apply avail_ge; lia. }
    rewrite Hm in *. rewrite Nat.eqb_refl.
    unfold lift at 1. unfold bind at 1.
    pose proof (trigger_loop_rows v ncols
                  (map (fun i => trig_of_bytes co (slice data (p0 + i * 16) 16))
                       (seq 0 nrows)) nrows 0
                  (repeat (repeat (S754_zero false) ncols) nrows)) as Hloop.
    rewrite repeat_length in Hloop.
    rewrite Hloop;
      [ | reflexivity | rewrite length_map, length_seq; lia | reflexivity ].
    pose proof (read_samples_some data co v (p0 + nrows * 16) Hc) as R2.
    fold total in R2.
    rewrite (bind_ok _ _ _ _ _ _ R2).
    assert (Hpres : (present data v (p0 + nrows * 16) < total)%nat).
    { unfold present. fold total.
      pose proof (sample_size_pos v) as Hsz.
      destruct (Nat.le_gt_cases total
                  ((length data - (p0 + nrows * 16)) / sample_size v))
        as [Hle|Hgt]; [|lia].
      pose proof (Nat.Div0.mul_div_le (length data - (p0 + nrows * 16))
                    (sample_size v)). nia. }
    destruct (Nat.eqb_spec (present data v (p0 + nrows * 16)) total)
      as [E|_]; [lia|].
    unfold lift at 1. unfold bind at 1. unfold reshape.
    rewrite length_map, length_seq.
    pose proof (total_split v Hs Hd Hc) as Ht. fold nrows ncols total in Ht.
    destruct (Nat.eqb_spec (present data v (p0 + nrows * 16)) (nrows * ncols))
      as [E|_]; [lia|].
    f_equal. lia.
Qed.

(* ===================================================================== *)
(** ** The template check and a header that is cut short *)
(* ===================================================================== *)

Lemma decode_utf8_valid bs :
  utf8_valid bs = true -> decode_utf8 bs = OK (string_of_list_byte bs).
Proof. unfold decode_utf8. intros ->. reflexivity. Qed.

Lemma tuple_index_in_range {A} (t : list A) i :
  - Z.of_nat (length t) <= i < Z.of_nat (length t) ->
  exists x, tuple_index t i = OK x.
Proof.
  intros Hi. unfold tuple_index. cbv zeta.
  set (j := if i <? 0 then i + Z.of_nat (length t) else i).
  assert (Hj : 0 <= j < Z.of_nat (length t)).
  { unfold j. destruct (Z.ltb_spec i 0); lia. }
  destruct (Z.leb_spec 0 j); [|lia]. destruct (Z.ltb_spec j (Z.of_nat (length t))); [|lia].
  cbn [andb].
  destruct (nth_error t (Z.to_nat j)) as [x|] eqn:E.
  - exists x. reflexivity.
  - apply nth_error_None in E. lia.
Qed.

Lemma string_of_list_byte_inj (a b : list byte) :
  string_of_list_byte a = string_of_list_byte b -> a = b.
Proof.
  intros H. apply (f_equal list_byte_of_string) in H.
  rewrite !list_byte_of_string_of_list_byte in H. exact H.
Qed.

(** X9. A header whose template name, stripped of its padding, is valid
    UTF-8 other than LECROY_2_3 is rejected with the template error, right
    after the 16 bytes of the name.  The check comes after the descriptor
    name has been decoded and the byte order has been read and resolved,
    so these must be in order for it to be reached. *)
Theorem foreign_template_rejected pf data k :
  find b_WAVEDESC (slice data 0 32) = Some k ->
  (k + 36 <= length data)%nat ->
  utf8_valid (rstrip b_nul_x00 (pyslice (slice data 0 32) k (k + 16))) = true ->
  -2 <= i2_at data LittleEndian (k + 34) < 2 ->
  utf8_valid (rstrip b_nul_x00 (slice data (k + 16) 16)) = true ->
  rstrip b_nul_x00 (slice data (k + 16) 16) <> list_byte_of_string "LECROY_2_3" ->
  run (ReadBinaryTrace pf) data
  = (Raise UnsupportedTemplateVersion, (k + 32)%nat).
Proof.
  intros Hk Hlen Hname Horder Hvalid Hother.
  unfold run, ReadBinaryTrace. apply bind_raise.
  unfold read_header. apply bind_raise.
  unfold read_wavedesc.
  eapply bind_ok_goal; [reflexivity|]. cbv beta.
  rewrite Hk.
  eapply bind_ok_goal;
    [unfold lift; rewrite (decode_utf8_valid _ Hname); reflexivity|].
  cbv beta zeta.
  eapply bind_ok_goal; [reflexivity|]. cbv beta.
  eapply bind_ok_goal; [apply fromfile1_run; lia|]. cbv beta.
  destruct (tuple_index_in_range COMM_ORDER_labels
              (i2_at data LittleEndian (k + 34)) Horder) as (order & Ho).
  unfold i2_at in Ho.
  eapply bind_ok_goal; [unfold lift; rewrite Ho; reflexivity|]. cbv beta.
  eapply bind_ok_goal; [reflexivity|]. cbv beta.
  assert (Hl : length (slice data (k + 16) 16) = 16%nat)
    by (apply slice_length; lia).
  eapply bind_ok_goal; [reflexivity|]. cbv beta. rewrite Hl.
  eapply bind_ok_goal;
    [unfold lift; rewrite (decode_utf8_valid _ Hvalid); reflexivity|].
  cbv beta.
  destruct (String.eqb_spec
              (string_of_list_byte (rstrip b_nul_x00 (slice data (k + 16) 16)))
              "LECROY_2_3") as [E|E].
  - exfalso. apply Hother.
    apply string_of_list_byte_inj. rewrite E.
    rewrite string_of_list_byte_of_string. reflexivity.
  - cbn [negb]. unfold raise. f_equal. lia.
Qed.

Lemma fromfile1_short {A} size (dec : list byte -> A) data p :
  (0 < size)%nat -> (length data < p + size)%nat ->
  fromfile1 size dec data p = (Raise TruncatedInput, Nat.max p (length data)).
Proof.
  intros Hs Hl. unfold fromfile1, bind, fromfile.
  change (1 <? 0) with false. cbv beta iota zeta.
  assert (Hav : ((length data - p) / size = 0)%nat)
    by (apply Nat.div_small; lia).
  rewrite Hav. reflexivity.
Qed.

(** X13. A file that holds the token but ends before the four bytes of
    the communication type and order (fewer than 36 bytes from the header
    start) is not reported as unrecognizable: the read of the byte order
    returns an empty array, and indexing it raises [IndexError]. *)
Theorem header_cut_before_byte_order pf data k :
  find b_WAVEDESC (slice data 0 32) = Some k ->
  utf8_valid (rstrip b_nul_x00 (pyslice (slice data 0 32) k (k + 16))) = true ->
  (length data < k + 36)%nat ->
  exists q, run (ReadBinaryTrace pf) data = (Raise TruncatedInput, q).
Proof.
  intros Hk Hname Hlen. eexists.
  unfold run, ReadBinaryTrace. apply bind_raise.
  unfold read_header. apply bind_raise.
  unfold read_wavedesc.
  eapply bind_ok_goal; [reflexivity|]. cbv beta.
  rewrite Hk.
  eapply bind_ok_goal;
    [unfold lift; rewrite (decode_utf8_valid _ Hname); reflexivity|].
  cbv beta zeta.
  eapply bind_ok_goal; [reflexivity|]. cbv beta.
  apply bind_raise. unfold read_i2. apply fromfile1_short; lia.
Qed.

(* ===================================================================== *)
(** ** The bytes that the result depends on *)
(* ===================================================================== *)

Lemma fromfile1_frame_within {A} size (dec : list byte -> A) data data' p :
  (0 < size)%nat ->
  (p + size <= length data)%nat -> (p + size <= length data')%nat ->
  slice data' p size = slice data p size ->
  fromfile1 size dec data' p = fromfile1 size dec data p.
Proof.
  intros Hs Hl Hl' E.
  rewrite !fromfile1_run by assumption. rewrite E. reflexivity.
Qed.

Ltac frame_step_within Hframe :=
  lazymatch goal with
  | |- read _ _ _ = _ => apply read_frame; apply Hframe; lia
  | |- seek _ _ _ = _ => reflexivity
  | |- lift _ _ _ = _ => reflexivity
  | |- _ =>
      apply fromfile1_frame_within; [ | | | apply Hframe; lia ]; lia
  end.

(** One step of two runs side by side, on two files that agree up to the
    end of the descriptor. *)
Ltac sync_within H Hframe :=
  let a := fresh "a" in
  let q := fresh "q" in
  let Hm := fresh "Hm" in
  let Hm0 := fresh "Hm0" in
  apply bind_ok_inv in H; destruct H as (a & q & Hm & H); cbv beta in H;
  pose proof Hm as Hm0;
  learn_step Hm; note_lengths;
  (eapply bind_ok_goal;
   [ etransitivity; [ frame_step_within Hframe | exact Hm0 ] | cbv beta ]);
  clear Hm0;
  repeat match goal with
         | Hn : length (slice ?d ?q ?n) = ?n |- _ =>
             progress (rewrite Hn in H |- *)
         end.

(** The descriptor is a function of the bytes up to its end: a file that
    agrees with [data] on them gives the same descriptor. *)
Lemma read_wavedesc_frame pf data data' k co v p :
  run (read_wavedesc pf) data = (OK (k, co, v), p) ->
  (length data' >= k + 346)%nat ->
  (forall q n, (q + n <= k + 346)%nat -> slice data' q n = slice data q n) ->
  run (read_wavedesc pf) data' = (OK (k, co, v), p).
Proof.
  intros run_ok Hsize' Hframe.
  pose proof (read_wavedesc_decoded _ _ _ _ _ _ run_ok) as D.
  pose proof (d_found _ _ _ _ _ _ D) as Hfind.
  assert (Hsize : (length data >= k + 346)%nat)
    by (pose proof (d_size _ _ _ _ _ _ D); lia).
  clear D.
  pose proof run_ok as H. unfold run, read_wavedesc in H.
  unfold run, read_wavedesc.
  sync_within H Hframe.
  rewrite Hfind in H |- *.
  sync_within H Hframe.
  cbv zeta in H |- *.
  do 6 (sync_within H Hframe).
  match type of H with
  | context [String.eqb ?s "LECROY_2_3"] =>
      destruct (String.eqb s "LECROY_2_3"); cbn [negb] in H |- *;
        [|discriminate H]
  end.
  do 10 (sync_within H Hframe).
  do 61 (sync_within H Hframe).
  unfold ret in H |- *. exact H.
Qed.

Section Frame.

Variables (data data' : list byte) (N : nat).

Hypothesis agree :
  forall q n, (q + n <= N)%nat -> slice data' q n = slice data q n.

Lemma sample_at_frame co v p j :
  (p + (j + 1) * sample_size v <= N)%nat ->
  sample_at data' co v p j = sample_at data co v p j.
Proof. intros H. unfold sample_at. rewrite agree by lia. reflexivity. Qed.

Lemma samples_frame co v p n :
  (p + n * sample_size v <= N)%nat ->
  map (sample_at data' co v p) (seq 0 n) = map (sample_at data co v p) (seq 0 n).
Proof.
  intros H. apply map_ext_in. intros j Hj. apply in_seq in Hj.
  apply sample_at_frame. nia.
Qed.

Lemma read_waveforms_frame co v p0 r q :
  0 <= WAVE_ARRAY_COUNT v ->
  (N <= length data)%nat -> (N <= length data')%nat ->
  (p0 + payload_bytes v <= N)%nat ->
  read_waveforms co v data p0 = (OK r, q) ->
  read_waveforms co v data' p0 = (OK r, q).
Proof.
  intros Hc Hl Hl' Hp Hw. unfold payload_bytes in Hp.
  destruct (Z.gtb_spec (SUBARRAY_COUNT v) 1) as [Hs|Hs].
  - destruct (Z.eq_dec (WAVE_ARRAY_COUNT v mod SUBARRAY_COUNT v) 0) as [Hd|Hd].
    + rewrite read_waveforms_segmented in Hw |- * by (try assumption; lia).
      rewrite <- Hw.
      assert (Et : trig_array data' co v p0 = trig_array data co v p0).
      { unfold trig_array. apply map_ext_in. intros i Hi. apply in_seq in Hi.
        rewrite agree by nia. reflexivity. }
      assert (Er : raw_samples data' co v p0 = raw_samples data co v p0)
        by (unfold raw_samples; apply samples_frame; lia).
      rewrite Et, Er. reflexivity.
    + exfalso. unfold read_waveforms in Hw.
      destruct (Z.gtb_spec (SUBARRAY_COUNT v) 1); [|lia].
      destruct (Z.eqb_spec (WAVE_ARRAY_COUNT v mod SUBARRAY_COUNT v) 0);
        [contradiction|].
      discriminate Hw.
  - rewrite read_waveforms_single in Hw |- * by (try assumption; lia).
    rewrite <- Hw. unfold channels in Hp.
    rewrite samples_frame by (destruct (WAVE_ARRAY_2 v >? 0); lia).
    destruct (WAVE_ARRAY_2 v >? 0); [|reflexivity].
    rewrite samples_frame by lia. reflexivity.
Qed.

(** Two files that agree on the [N] bytes of the header, the user text
    and the payload give the same result. *)
Lemma ReadBinaryTrace_frame pf v TEXT x y1 y2 q k :
  run (ReadBinaryTrace pf) data = (OK (v, TEXT, x, y1, y2), q) ->
  find b_WAVEDESC (slice data 0 32) = Some k ->
  0 <= WAVE_ARRAY_COUNT v ->
  N = (k + 346 + Z.to_nat (USER_TEXT v) + payload_bytes v)%nat ->
  (N <= length data)%nat -> (N <= length data')%nat ->
  run (ReadBinaryTrace pf) data' = (OK (v, TEXT, x, y1, y2), q).
Proof.
  intros H Hk Hc HN Hl Hl'.
  destruct (returned_header _ _ _ _ _ _ _ _ _ H Hk)
    as (co & p0 & Hd & Hh & Hw & _ & _).
  pose proof (read_wavedesc_frame pf data data' k co v _ Hd ltac:(lia)) as Hd'.
  specialize (Hd' ltac:(intros; apply agree; lia)).
  apply read_header_ok_inv in Hh.
  destruct Hh as (k' & p & Hd0 & Hwd & Ht & Hp0).
  unfold run in *. rewrite Hd in Hd0. injection Hd0 as <- <-.
  assert (Hlen : length TEXT = Z.to_nat (USER_TEXT v)).
  { rewrite Ht. destruct (Z.gtb_spec (USER_TEXT v) 0); cbn [length]; [|lia].
    apply slice_length. lia. }
  assert (Ht' : check_and_read_text k v data' (k + 346)%nat = (OK TEXT, p0)).
  { unfold check_and_read_text.
    eapply bind_ok_goal; [reflexivity|]. cbv beta zeta.
    rewrite <- Hwd, Z.eqb_refl. cbn [negb].
    destruct (USER_TEXT v >? 0).
    - unfold read. rewrite agree by lia. rewrite <- Ht, Hp0. reflexivity.
    - unfold ret. rewrite Hp0, Ht. cbn [length].
      rewrite Nat.add_0_r. reflexivity. }
  assert (Hh' : read_header pf data' 0%nat = (OK (co, v, TEXT), p0)).
  { unfold read_header. rewrite (bind_ok _ _ _ _ _ _ Hd'). cbv beta iota.
    rewrite (bind_ok _ _ _ _ _ _ Ht'). reflexivity. }
  unfold ReadBinaryTrace.
  rewrite (bind_ok _ _ _ _ _ _ Hh'). cbv beta iota.
  rewrite (bind_ok _ _ _ _ _ _
             (read_waveforms_frame co v p0 _ _ Hc Hl Hl' ltac:(lia) Hw)).
  reflexivity.
Qed.

End Frame.

Lemma slice_firstn_within data N q n :
  (q + n <= N)%nat -> slice (firstn N data) q n = slice data q n.
Proof.
  intros H. unfold slice. rewrite skipn_firstn_comm, firstn_firstn.
  f_equal. lia.
Qed.

(** X10. The result is a function of the bytes that the header announces:
    the descriptor, [USER_TEXT] bytes of text and the payload (the trigger
    times and the samples of a sequence, or the samples of each channel of
    a single sweep).  When a file holds them all and is decoded, every
    file that begins with the same bytes is decoded to the same result;
    what follows the payload is never read. *)
Theorem result_depends_on_announced_bytes pf data data' v TEXT x y1 y2 q k :
  run (ReadBinaryTrace pf) data = (OK (v, TEXT, x, y1, y2), q) ->
  find b_WAVEDESC (slice data 0 32) = Some k ->
  0 <= WAVE_ARRAY_COUNT v ->
  let N := (k + 346 + Z.to_nat (USER_TEXT v) + payload_bytes v)%nat in
  (N <= length data)%nat ->
  firstn N data' = firstn N data ->
  run (ReadBinaryTrace pf) data' = (OK (v, TEXT, x, y1, y2), q).
Proof.
  intros H Hk Hc N Hlen Hsame.
  assert (Hlen' : (N <= length data')%nat).
  { apply (f_equal (@length byte)) in Hsame.
    rewrite !length_firstn in Hsame. lia. }
  apply (ReadBinaryTrace_frame data data' N) with (k := k);
    try assumption; [|reflexivity].
  intros q' n Hq.
  rewrite <- (slice_firstn_within data' N q' n Hq), Hsame.
  apply slice_firstn_within. exact Hq.
Qed.

(* ===================================================================== *)
(** ** The text of [float2eng] *)
(* ===================================================================== *)

Lemma engineering_exponent_clamp ex :
  engineering_exponent ex = Z.max (-24) (Z.min 24 (3 * (ex / 3))).
Proof.
  unfold engineering_exponent.
  pose proof (Z.div_mod ex 3 ltac:(lia)) as Hd.
  replace (ex - ex mod 3) with (3 * (ex / 3)) by lia.
  destruct (Z.ltb_spec (3 * (ex / 3)) (-24));
    [|destruct (Z.gtb_spec (3 * (ex / 3)) 24)]; lia.
Qed.

(** The text of [float2eng] from the exponent and the mantissa. *)
Lemma float2eng_value pf f ex mant :
  (if PyNum.nonzero f
   then rbind (math_log pf (PyNum.abs f) (PyInt 10)) PyNum.floor
   else OK 0) = OK ex ->
  let exeng := Z.max (-24) (Z.min 24 (3 * (ex / 3))) in
  PyNum.truediv f (PyNum.int_pow pf 10 exeng) = OK mant ->
  float2eng pf f = OK (PyNum.fmt_g mant ++ " " ++ si_prefix exeng)%string.
Proof.
  intros Hex exeng Hm. rewrite float2eng_shape, Hex. cbn [rbind].
  rewrite engineering_exponent_clamp. fold exeng. rewrite Hm. reflexivity.
Qed.

(** X11. [float2eng] returns a text exactly when the floor of the
    logarithm in base 10 of [abs(f)] (0 for a zero [f], without a call of
    the logarithm) and the division [f / 10**exeng] have a value, where
    [exeng] is the exponent rounded down to a multiple of 3 and kept
    within -24 and 24; the text is then the mantissa under ['%g'], a space
    and the SI prefix of [exeng], nothing for [exeng = 0].  The look-up in
    the string of prefixes never fails. *)
Theorem float2eng_result pf f s :
  float2eng pf f = OK s <->
  exists ex mant,
    (if PyNum.nonzero f
     then rbind (math_log pf (PyNum.abs f) (PyInt 10)) PyNum.floor
     else OK 0) = OK ex
    /\ let exeng := Z.max (-24) (Z.min 24 (3 * (ex / 3))) in
       PyNum.truediv f (PyNum.int_pow pf 10 exeng) = OK mant
       /\ s = (PyNum.fmt_g mant ++ " " ++ si_prefix exeng)%string.
Proof.
  split.
  - rewrite float2eng_shape. intros H.
    destruct (if PyNum.nonzero f
              then rbind (math_log pf (PyNum.abs f) (PyInt 10)) PyNum.floor
              else OK 0) as [ex|e]; [|discriminate H].
    cbn [rbind] in H. rewrite engineering_exponent_clamp in H.
    destruct (PyNum.truediv f _) as [mant|e] eqn:Hm; [|discriminate H].
    cbn [rbind] in H. injection H as <-.
    exists ex, mant. split; [reflexivity|]. split; [exact Hm | reflexivity].
  - intros (ex & mant & Hex & Hm & ->).
    exact (float2eng_value pf f ex mant Hex Hm).
Qed.

Lemma binary_round_aux_negb prec emax s m e l :
  binary_round_aux prec emax (negb s) m e l
  = SFopp (binary_round_aux prec emax s m e l).
Proof.
  unfold binary_round_aux.
  destruct (shr_fexp prec emax m e l) as [mrs' e'].
  destruct (shr_fexp prec emax _ e' loc_Exact) as [mrs'' e''].
  destruct (shr_m mrs''); [reflexivity | | reflexivity].
  destruct (e'' <=? emax - prec); reflexivity.
Qed.

(** Negating a finite dividend negates the quotient. *)
Lemma div_negb s m e y :
  F64.div (S754_finite (negb s) m e) y = SFopp (F64.div (S754_finite s m e) y).
Proof.
  unfold F64.div, SFdiv. destruct y as [sy| sy | |sy my ey]; try reflexivity.
  - destruct s, sy; reflexivity.
  - destruct s, sy; reflexivity.
  - destruct (SFdiv_core_binary F64.prec F64.emax (Z.pos m) e (Z.pos my) ey)
      as [[mz ez] lz].
    rewrite <- binary_round_aux_negb. destruct s, sy; reflexivity.
Qed.

Lemma truediv_negb s m e d mant :
  PyNum.truediv (PyFloat (S754_finite s m e)) d = OK mant ->
  PyNum.truediv (PyFloat (S754_finite (negb s) m e)) d = OK (SFopp mant).
Proof.
  assert (Hf : forall y,
            PyNum.float_truediv (S754_finite s m e) y = OK mant ->
            PyNum.float_truediv (S754_finite (negb s) m e) y = OK (SFopp mant)).
  { intros y. unfold PyNum.float_truediv.
    destruct (PyNum.is_zero y); [discriminate|].
    intros H. injection H as <-. rewrite div_negb. reflexivity. }
  destruct d as [z|y]; cbn [PyNum.truediv].
  - destruct (PyNum.float_of_int z) as [y|err]; cbn [rbind];
      [apply Hf | discriminate].
  - apply Hf.
Qed.

(** X12. The sign of a finite non-zero float reaches the mantissa only:
    the exponent is taken from [abs(f)], so [float2eng(f)] and
    [float2eng(-f)] carry the same prefix, and the mantissa of the one is
    the negated mantissa of the other. *)
Theorem float2eng_negated pf s m e ex mant :
  rbind (math_log pf (PyFloat (S754_finite false m e)) (PyInt 10)) PyNum.floor
  = OK ex ->
  let exeng := Z.max (-24) (Z.min 24 (3 * (ex / 3))) in
  PyNum.truediv (PyFloat (S754_finite s m e)) (PyNum.int_pow pf 10 exeng)
  = OK mant ->
  float2eng pf (PyFloat (S754_finite s m e))
  = OK (PyNum.fmt_g mant ++ " " ++ si_prefix exeng)%string
  /\ float2eng pf (PyFloat (S754_finite (negb s) m e))
     = OK (PyNum.fmt_g (SFopp mant) ++ " " ++ si_prefix exeng)%string.
Proof.
  intros Hex exeng Hm. split.
  - exact (float2eng_value pf (PyFloat (S754_finite s m e)) ex mant Hex Hm).
  - apply (float2eng_value pf (PyFloat (S754_finite (negb s) m e)) ex
             (SFopp mant) Hex).
    apply truediv_negb. exact Hm.
Qed.

(* ===================================================================== *)
(** ** The further properties on the example files *)
(* ===================================================================== *)

Import Variants.

Lemma unrecognised_file_rejected_witness :
  (forall j, slice late_header_file j 8 = b_WAVEDESC -> (24 < j)%nat)
  /\ run (ReadBinaryTrace RefPlatform.ref) late_header_file
     = (Raise HeaderNotFound, Nat.min 32 (length late_header_file)).
Proof.
  assert (H : forall j, slice late_header_file j 8 = b_WAVEDESC -> (24 < j)%nat)
    by (apply find_window_none; vm_compute; reflexivity).
  split; [exact H|].
  exact (unrecognised_file_rejected RefPlatform.ref late_header_file H).
Defined.

Lemma header_at_first_occurrence_witness :
  exists v TEXT x y1 y2 q,
    run (ReadBinaryTrace RefPlatform.ref) prefixed_file
    = (OK (v, TEXT, x, y1, y2), q)
    /\ exists k,
         (k <= 24)%nat
         /\ slice prefixed_file k 8 = b_WAVEDESC
         /\ (forall j, (j < k)%nat -> slice prefixed_file j 8 <> b_WAVEDESC)
         /\ (k + 346 <= length prefixed_file)%nat.
Proof.
  do 6 eexists. split; [evaluate|].
  eapply (header_at_first_occurrence RefPlatform.ref prefixed_file). evaluate.
Defined.

Lemma returned_header_constants_witness :
  exists v TEXT x y1 y2 q,
    run (ReadBinaryTrace RefPlatform.ref) sweep_file
    = (OK (v, TEXT, x, y1, y2), q)
    /\ find b_WAVEDESC (slice sweep_file 0 32) = Some 0%nat
    /\ TEMPLATE_NAME v = "LECROY_2_3"%string
    /\ (exists dropped,
          slice sweep_file (0 + 16) 16
          = list_byte_of_string "LECROY_2_3" ++ dropped
          /\ forallb (fun b => mem b b_nul_x00) dropped = true)
    /\ WAVE_DESCRIPTOR v = 346
    /\ (exists rest, DESCRIPTOR_NAME v = ("WAVEDESC" ++ rest)%string
                     /\ (String.length rest <= 8)%nat).
Proof.
  do 6 eexists. split; [evaluate|]. split; [evaluate|].
  eapply (returned_header_constants RefPlatform.ref sweep_file); evaluate.
Defined.

Lemma header_numbers_layout_witness :
  exists v TEXT x y1 y2 q,
    run (ReadBinaryTrace RefPlatform.ref) big_endian_file
    = (OK (v, TEXT, x, y1, y2), q)
    /\ find b_WAVEDESC (slice big_endian_file 0 32) = Some 0%nat
    /\ order_of v = BigEndian
    /\ layout big_endian_file 0 (order_of v) v
    /\ COMM_ORDER_INDEX v = i2_at big_endian_file LittleEndian (0 + 34)
    /\ (order_of v = LittleEndian
        <-> COMM_ORDER_INDEX v = 1 \/ COMM_ORDER_INDEX v = -1).
Proof.
  do 6 eexists. split; [evaluate|]. split; [evaluate|].
  split; [vm_compute; reflexivity|].
  eapply (header_numbers_layout RefPlatform.ref big_endian_file); evaluate.
Defined.

(** The big-endian sweep is decoded: two samples, 256 and -2, scaled by
    0.5 with an offset of 0.25. *)
Example big_endian_sweep_decoded :
  exists v TEXT x y1 q,
    run (ReadBinaryTrace RefPlatform.ref) big_endian_file
    = (OK (v, TEXT, x, Array1 y1, Array1 []), q)
    /\ y1 = [scale v 256; scale v (-2)]
    /\ WAVE_ARRAY_COUNT v = 2
    /\ COMM_ORDER v = "HIFIRST"%string.
Proof.
  do 5 eexists. split; [evaluate|]. repeat split; vm_compute; reflexivity.
Qed.

Lemma user_text_follows_header_witness :
  exists v TEXT x y1 y2 q,
    run (ReadBinaryTrace RefPlatform.ref) text_file
    = (OK (v, TEXT, x, y1, y2), q)
    /\ find b_WAVEDESC (slice text_file 0 32) = Some 0%nat
    /\ 0 < USER_TEXT v
    /\ (USER_TEXT v <= 0 -> TEXT = [])
    /\ (0 < USER_TEXT v ->
        TEXT = slice text_file (0 + 346) (Z.to_nat (USER_TEXT v))
        /\ length TEXT
           = Nat.min (Z.to_nat (USER_TEXT v)) (length text_file - (0 + 346))).
Proof.
  do 6 eexists. split; [evaluate|]. split; [evaluate|].
  split; [vm_compute; reflexivity|].
  eapply (user_text_follows_header RefPlatform.ref text_file); evaluate.
Defined.

Lemma text_fields_stripped_witness :
  exists v TEXT x y1 y2 q,
    run (ReadBinaryTrace RefPlatform.ref) lux_file
    = (OK (v, TEXT, x, y1, y2), q)
    /\ find b_WAVEDESC (slice lux_file 0 32) = Some 0%nat
    /\ let value := list_byte_of_string (text_value VertUnit v) in
       (exists dropped,
          slice lux_file (0 + text_offset VertUnit) (text_width VertUnit)
          = value ++ dropped
          /\ forallb (fun b => mem b (text_padding VertUnit)) dropped = true)
       /\ (forall b, ends_with value b -> mem b (text_padding VertUnit) = false)
       /\ utf8_valid value = true.
Proof.
  do 6 eexists. split; [evaluate|]. split; [evaluate|].
  eapply (text_fields_stripped RefPlatform.ref lux_file); evaluate.
Defined.

Lemma single_sweep_short_payload_witness :
  exists co v TEXT p0,
    run (read_header RefPlatform.ref) truncated_sweep_file
    = (OK (co, v, TEXT), p0)
    /\ SUBARRAY_COUNT v <= 1
    /\ 0 <= WAVE_ARRAY_COUNT v
    /\ (present truncated_sweep_file v p0 < Z.to_nat (WAVE_ARRAY_COUNT v))%nat
    /\ let n := Z.to_nat (WAVE_ARRAY_COUNT v) in
       let m := present truncated_sweep_file v p0 in
       exists y2 q,
         run (ReadBinaryTrace RefPlatform.ref) truncated_sweep_file
         = (OK (v, TEXT,
                Array1 (time_axis v n (HORIZ_OFFSET v)),
                Array1 (map (fun j => scale v
                                (sample_at truncated_sweep_file co v p0 j))
                          (seq 0 m)),
                Array1 y2), q)
         /\ (m <= n)%nat
         /\ (m < n -> y2 = [])%nat.
Proof.
  do 4 eexists.
  split; [evaluate|].
  split; [vm_compute; discriminate|].
  split; [vm_compute; discriminate|].
  split; [vm_compute; lia|].
  eapply (single_sweep_short_payload RefPlatform.ref truncated_sweep_file);
    [evaluate | vm_compute; discriminate | vm_compute; discriminate].
Defined.

Lemma segmented_short_payload_raises_witness :
  exists co v TEXT p0,
    run (read_header RefPlatform.ref) truncated_sequence_file
    = (OK (co, v, TEXT), p0)
    /\ 1 < SUBARRAY_COUNT v
    /\ WAVE_ARRAY_COUNT v mod SUBARRAY_COUNT v = 0
    /\ 0 <= WAVE_ARRAY_COUNT v
    /\ (length truncated_sequence_file
        < p0 + Z.to_nat (SUBARRAY_COUNT v) * 16
          + Z.to_nat (WAVE_ARRAY_COUNT v) * sample_size v)%nat
    /\ run (ReadBinaryTrace RefPlatform.ref) truncated_sequence_file
       = (Raise (if (length truncated_sequence_file
                     <? p0 + Z.to_nat (SUBARRAY_COUNT v) * 16)%nat
                 then TruncatedInput else ValueError),
          length truncated_sequence_file).
Proof.
  do 4 eexists.
  split; [evaluate|].
  split; [vm_compute; reflexivity|].
  split; [vm_compute; reflexivity|].
  split; [vm_compute; discriminate|].
  split; [vm_compute; lia|].
  eapply (segmented_short_payload_raises RefPlatform.ref truncated_sequence_file);
    [evaluate | vm_compute; reflexivity | vm_compute; reflexivity
     | vm_compute; discriminate | vm_compute; lia].
Defined.

Lemma foreign_template_rejected_witness :
  find b_WAVEDESC (slice foreign_template_file 0 32) = Some 0%nat
  /\ (0 + 36 <= length foreign_template_file)%nat
  /\ utf8_valid (rstrip b_nul_x00
                   (pyslice (slice foreign_template_file 0 32) 0 (0 + 16)))
     = true
  /\ -2 <= i2_at foreign_template_file LittleEndian (0 + 34) < 2
  /\ utf8_valid (rstrip b_nul_x00 (slice foreign_template_file (0 + 16) 16))
     = true
  /\ rstrip b_nul_x00 (slice foreign_template_file (0 + 16) 16)
     <> list_byte_of_string "LECROY_2_3"
  /\ run (ReadBinaryTrace RefPlatform.ref) foreign_template_file
     = (Raise UnsupportedTemplateVersion, (0 + 32)%nat).
Proof.
  split; [vm_compute; reflexivity|].
  split; [vm_compute; lia|].
  split; [vm_compute; reflexivity|].
  split; [split; vm_compute; [discriminate | reflexivity]|].
  split; [vm_compute; reflexivity|].
  split; [vm_compute; discriminate|].
  apply (foreign_template_rejected RefPlatform.ref foreign_template_file 0);
    [vm_compute; reflexivity | vm_compute; lia | vm_compute; reflexivity
     | split; vm_compute; [discriminate | reflexivity] | vm_compute; reflexivity
     | vm_compute; discriminate].
Defined.

Lemma header_cut_before_byte_order_witness :
  find b_WAVEDESC (slice cut_header_file 0 32) = Some 0%nat
  /\ utf8_valid (rstrip b_nul_x00
                   (pyslice (slice cut_header_file 0 32) 0 (0 + 16))) = true
  /\ (length cut_header_file < 0 + 36)%nat
  /\ exists q,
       run (ReadBinaryTrace RefPlatform.ref) cut_header_file
       = (Raise TruncatedInput, q).
Proof.
  split; [vm_compute; reflexivity|].
  split; [vm_compute; reflexivity|].
  split; [vm_compute; lia|].
  apply (header_cut_before_byte_order RefPlatform.ref cut_header_file 0);
    [vm_compute; reflexivity | vm_compute; reflexivity | vm_compute; lia].
Defined.

Lemma result_depends_on_announced_bytes_witness :
  exists v TEXT x y1 y2 q,
    run (ReadBinaryTrace RefPlatform.ref) sweep_file
    = (OK (v, TEXT, x, y1, y2), q)
    /\ find b_WAVEDESC (slice sweep_file 0 32) = Some 0%nat
    /\ 0 <= WAVE_ARRAY_COUNT v
    /\ (let N := (0 + 346 + Z.to_nat (USER_TEXT v) + payload_bytes v)%nat in
        (N <= length sweep_file)%nat
        /\ firstn N trailing_file = firstn N sweep_file)
    /\ run (ReadBinaryTrace RefPlatform.ref) trailing_file
       = (OK (v, TEXT, x, y1, y2), q).
Proof.
  do 6 eexists. split; [evaluate|]. split; [evaluate|].
  split; [vm_compute; discriminate|].
  split; [split; [vm_compute; lia | vm_compute; reflexivity]|].
  eapply (result_depends_on_announced_bytes RefPlatform.ref sweep_file
            trailing_file);
    [evaluate | evaluate | vm_compute; discriminate | vm_compute; lia
     | vm_compute; reflexivity].
Defined.

Lemma float2eng_negated_witness :
  exists ex mant,
    rbind (math_log RefPlatform.ref (PyFloat (f1500 false)) (PyInt 10))
          PyNum.floor = OK ex
    /\ (let exeng := Z.max (-24) (Z.min 24 (3 * (ex / 3))) in
        PyNum.truediv (PyFloat (f1500 false))
          (PyNum.int_pow RefPlatform.ref 10 exeng) = OK mant
        /\ float2eng RefPlatform.ref (PyFloat (f1500 false))
           = OK (PyNum.fmt_g mant ++ " " ++ si_prefix exeng)%string
        /\ float2eng RefPlatform.ref (PyFloat (f1500 true))
           = OK (PyNum.fmt_g (SFopp mant) ++ " " ++ si_prefix exeng)%string).
Proof.
  do 2 eexists. split; [evaluate|].
  cbv zeta. split; [evaluate|].
  eapply (float2eng_negated RefPlatform.ref false 6597069766656000 (-42));
    evaluate.
Defined.

(** The two texts of the last property: 1500 and -1500. *)
Example texts_of_1500 :
  float2eng RefPlatform.ref (PyFloat (f1500 false)) = OK "1.5 k"%string
  /\ float2eng RefPlatform.ref (PyFloat (f1500 true)) = OK "-1.5 k"%string.
Proof. vm_compute. split; reflexivity. Qed.
